(** * Internal wallet service: transfer engine, idempotency and read projections

    A shallow embedding of the wallet service (services/wallet.service.ts,
    controllers/wallet.controller.ts, utils/idempotency.ts,
    validators/transaction.validator.ts, constants/index.ts and the schema
    of db_init.sql) together with the properties of its specification.

    Conventions of the embedding:
    - a JavaScript [number] is an IEEE 754 binary64 value, the [spec_float]
      of the standard library at precision 53: sums, differences and
      comparisons round and compare as the standard says, and
      [Number.prototype.toString] gives the shortest decimal that reads
      back as the number;
    - a [DECIMAL(18,4)] column holds an integer count of ten-thousandths; a
      number written to such a column travels as its decimal text and is
      rounded to four decimals, half away from zero; [Number(column)] is
      the double nearest to the stored decimal;
    - UUIDs chosen by the seed (users, assets) are strings, since the code
      sorts user ids as strings; UUIDs drawn by [gen_random_uuid()] are
      natural numbers taken from a counter kept with the tables;
    - asynchronous code is sequential state passing over a [World]: the
      relational store, the Redis cache with the expiry time of each entry,
      the memoized treasury id, the clock of the database, the wall clock
      in milliseconds, the answers of the store to locking reads under
      contention, and the trace of the calls made to the store, to the
      cache and to the timer. The cache server and the store answer every
      call; of the failures of the store, those of locking reads and those
      of the constraints of the schema are modelled. *)

From Stdlib Require Import ZArith String List Lia Ascii DecimalString Bool SpecFloat.
From stdpp Require Import gmap strings list.

Local Open Scope string_scope.
Local Open Scope Z_scope.

(** ** Numbers *)

(** A JavaScript number: binary64. *)
Definition number : Type := spec_float.

Definition prec : Z := 53.
Definition emax : Z := 1024.

(** [Number.isFinite] *)
Definition isFinite (x : number) : bool :=
  match x with
  | S754_zero _ | S754_finite _ _ _ => true
  | _ => false
  end.

(** [x < y], [x <= y] and [x > y]: every comparison with NaN is false. *)
Definition num_lt (x y : number) : bool := SFltb x y.

Definition num_le (x y : number) : bool := SFleb x y.

Definition num_gt (x y : number) : bool := SFltb y x.

(** [x + y] and [x - y], rounded to nearest, ties to even. *)
Definition num_add (x y : number) : number := SFadd prec emax x y.

Definition num_sub (x y : number) : number := SFsub prec emax x y.

(** The number denoted by an integer literal of the source. *)
Definition Number_of_Z (z : Z) : number := binary_normalize prec emax z 0 false.

(** The double nearest to the fraction [p / q]. *)
Definition double_of_ratio (negative : bool) (p q : positive) : number :=
  SFdiv prec emax (S754_finite negative p 0) (S754_finite false q 0).

(** The number denoted by a decimal literal: [0.1] is [Number_literal 1 10]. *)
Definition Number_literal (p q : positive) : number := double_of_ratio false p q.

(** The double nearest to [s * 10 ^ (n - k)], for [s] of [k] digits. *)
Definition decimal_to_double (negative : bool) (s n k : Z) : number :=
  match s with
  | Zpos p =>
    if k <=? n then double_of_ratio negative (p * Z.to_pos (10 ^ (n - k))) 1
    else double_of_ratio negative p (Z.to_pos (10 ^ (k - n)))
  | _ => S754_zero negative
  end.

Definition number_eqb (x y : number) : bool :=
  match x, y with
  | S754_zero a, S754_zero b | S754_infinity a, S754_infinity b => Bool.eqb a b
  | S754_nan, S754_nan => true
  | S754_finite a m e, S754_finite b m' e' =>
    Bool.eqb a b && Pos.eqb m m' && Z.eqb e e'
  | _, _ => false
  end.

(** [P / Q < 10 ^ n] *)
Definition below_pow10 (P Q n : Z) : bool :=
  if 0 <=? n then P <? Q * 10 ^ n else P * 10 ^ (- n) <? Q.

(** The least [n' >= n] with [P / Q < 10 ^ n']. *)
Fixpoint magnitude_from (fuel : nat) (P Q n : Z) : Z :=
  match fuel with
  | O => n
  | S fuel' => if below_pow10 P Q n then n else magnitude_from fuel' P Q (n + 1)
  end.

(** The digits of [Number::toString] (ECMAScript): integers [s], [n], [k]
    with [k >= 1] as small as possible, [10 ^ (k - 1) <= s < 10 ^ k] and
    [s * 10 ^ (n - k)] rounding to the number [m * 2 ^ e = P / Q]; of two
    such [s], the one nearer to the number, the even one on a tie.  For
    each [k] in turn the two decimals of [k] digits around the number are
    tried. *)
Fixpoint shortest_from (fuel : nat) (m : positive) (e : Z) (P Q n k : Z)
  : Z * Z * Z :=
  match fuel with
  | O => (0, n, k)
  | S fuel' =>
    let num := if n <=? k then P * 10 ^ (k - n) else P in
    let den := if n <=? k then Q else Q * 10 ^ (n - k) in
    let lo := num / den in
    let hi := lo + 1 in
    let '(hi_s, hi_n) := if hi =? 10 ^ k then (10 ^ (k - 1), n + 1) else (hi, n) in
    let x := S754_finite false m e in
    let lo_ok := number_eqb (decimal_to_double false lo n k) x in
    let hi_ok := number_eqb (decimal_to_double false hi_s hi_n k) x in
    match lo_ok, hi_ok with
    | true, true =>
      match 2 * num ?= (2 * lo + 1) * den with
      | Lt => (lo, n, k)
      | Gt => (hi_s, hi_n, k)
      | Eq => if Z.even lo then (lo, n, k) else (hi_s, hi_n, k)
      end
    | true, false => (lo, n, k)
    | false, true => (hi_s, hi_n, k)
    | false, false => shortest_from fuel' m e P Q n (k + 1)
    end
  end.

(** Seventeen digits always suffice for a double. The search for [n]
    starts below it, from the binary exponent. *)
Definition shortest_digits (m : positive) (e : Z) : Z * Z * Z :=
  let P := if 0 <=? e then Zpos m * 2 ^ e else Zpos m in
  let Q := if 0 <=? e then 1 else 2 ^ (- e) in
  let estimate := (Zpos (digits2_pos m) + e - 1) * 1233 / 4096 - 2 in
  let n := magnitude_from 16 P Q estimate in
  shortest_from 17 m e P Q n 1.

Definition digits_of (z : Z) : string := NilZero.string_of_int (Z.to_int z).

Fixpoint zeros (n : nat) : string :=
  match n with
  | O => ""
  | S n' => "0" ++ zeros n'
  end.

(** The four layouts of [Number::toString]: digits and zeros, a point
    inside the digits, a point before them, and the exponent form. *)
Definition format_digits (s n k : Z) : string :=
  let digits := digits_of s in
  if (k <=? n) && (n <=? 21) then digits ++ zeros (Z.to_nat (n - k))
  else if (0 <? n) && (n <=? 21)
  then substring 0 (Z.to_nat n) digits ++ "."
       ++ substring (Z.to_nat n) (Z.to_nat (k - n)) digits
  else if (-6 <? n) && (n <=? 0) then "0." ++ zeros (Z.to_nat (- n)) ++ digits
  else
    let exponent := (if 0 <=? n - 1 then "+" else "-") ++ digits_of (Z.abs (n - 1)) in
    if k =? 1 then digits ++ "e" ++ exponent
    else substring 0 1 digits ++ "." ++ substring 1 (Z.to_nat (k - 1)) digits
         ++ "e" ++ exponent.

(** [Number.prototype.toString] *)
Definition Number_toString (x : number) : string :=
  match x with
  | S754_nan => "NaN"
  | S754_zero _ => "0"
  | S754_infinity false => "Infinity"
  | S754_infinity true => "-Infinity"
  | S754_finite negative m e =>
    let '(s, n, k) := shortest_digits m e in
    (if negative then "-" else "") ++ format_digits s n k
  end.

(** ** Decimal columns *)

(** A number written to a [DECIMAL(18,4)] column, in ten-thousandths: the
    decimal text of the number, rounded to four decimals half away from
    zero; a value of fifteen integer digits or more, or one that is not
    finite, does not fit. *)
Definition to_decimal (x : number) : option Z :=
  match x with
  | S754_zero _ => Some 0
  | S754_finite negative m e =>
    let '(s, n, k) := shortest_digits m e in
    let scaled :=
      if k <=? n + 4 then s * 10 ^ (n + 4 - k)
      else (s + 10 ^ (k - n - 4) / 2) / 10 ^ (k - n - 4) in
    if scaled <? 10 ^ 18 then Some (if negative then - scaled else scaled) else None
  | _ => None
  end.

(** [Number(column)]: the double nearest to the stored decimal. *)
Definition Number_of_decimal (z : Z) : number :=
  match z with
  | Z0 => S754_zero false
  | Zpos p => double_of_ratio false p 10000
  | Zneg p => double_of_ratio true p 10000
  end.

(** A whole amount of units, as a column holds it. *)
Definition units (n : Z) : Z := n * 10000.

(** [column.toString()] of the [Decimal] read from a column: the integer
    part, then the decimals without trailing zeros. *)
Definition Decimal_toString (z : Z) : string :=
  let units := Z.abs z / 10000 in
  let fraction := Z.abs z mod 10000 in
  (if z <? 0 then "-" else "") ++ digits_of units ++
  (if fraction =? 0 then ""
   else if fraction mod 1000 =? 0 then "." ++ digits_of (fraction / 1000)
   else if fraction mod 100 =? 0
   then "." ++ substring 1 2 (digits_of (10000 + fraction))
   else if fraction mod 10 =? 0
   then "." ++ substring 1 3 (digits_of (10000 + fraction))
   else "." ++ substring 1 4 (digits_of (10000 + fraction))).

(** ** Constants (constants/index.ts) *)

Module TRANSACTION_LIMITS.
Definition MAX_AMOUNT : Z := 1000000000.
End TRANSACTION_LIMITS.

Module IDEMPOTENCY.
Definition CACHE_TTL : Z := 60 * 60 * 24.
Definition PROCESSING_TTL : Z := 10.
End IDEMPOTENCY.

Module SYSTEM_USERS.
Definition TREASURY_EMAIL : string := "treasury@system.internal".
End SYSTEM_USERS.

(** ** Data model (db_init.sql) *)

Inductive TransactionType : Type := TOP_UP | BONUS | SPEND.

Inductive EntryType : Type := DEBIT | CREDIT.

Definition TransactionType_eqb (a b : TransactionType) : bool :=
  match a, b with
  | TOP_UP, TOP_UP | BONUS, BONUS | SPEND, SPEND => true
  | _, _ => false
  end.

Definition EntryType_eqb (a b : EntryType) : bool :=
  match a, b with
  | DEBIT, DEBIT | CREDIT, CREDIT => true
  | _, _ => false
  end.

Record Asset : Type := mkAsset {
  asset_id : string;
  asset_symbol : string
}.

Record User : Type := mkUser {
  user_id : string;
  user_email : string
}.

Record Wallet : Type := mkWallet {
  wallet_id : nat;
  wallet_user_id : string;
  wallet_asset_id : string;
  wallet_balance : Z
}.

Record Transaction : Type := mkTransaction {
  tx_id : nat;
  tx_idempotency_key : string;
  tx_from_wallet_id : nat;
  tx_to_wallet_id : nat;
  tx_amount : Z;
  tx_type : TransactionType;
  tx_status : string;
  tx_created_at : nat
}.

Record LedgerEntry : Type := mkLedgerEntry {
  le_id : nat;
  le_transaction_id : nat;
  le_wallet_id : nat;
  le_entry_type : EntryType;
  le_amount : Z;
  le_balance_after : Z;
  le_created_at : nat
}.

(** The five tables and the supply of generated row ids. *)
Record Store : Type := mkStore {
  assets : list Asset;
  users : list User;
  wallets : list Wallet;
  transactions : list Transaction;
  ledger_entries : list LedgerEntry;
  next_uuid : nat
}.

(** ** Errors (errors/app-error.ts, plain [Error], errors of the Prisma client) *)

Inductive Error : Type :=
| ValidationError (message : string)          (* AppError, statusCode 400 *)
| NotFoundError (message : string)            (* AppError, statusCode 404 *)
| JsError (message : string)                  (* new Error(message) *)
| DbError (code : option string) (message : string).
    (* thrown by the Prisma client; [code] is the client's own error code,
       absent on the errors the client does not classify *)

Definition error_message (e : Error) : string :=
  match e with
  | ValidationError m | NotFoundError m | JsError m | DbError _ m => m
  end.

(** [(error as any)?.code] *)
Definition error_code (e : Error) : option string :=
  match e with
  | DbError c _ => c
  | _ => None
  end.

(** A condition signalled by PostgreSQL for a statement: its SQLSTATE and
    its message. *)
Record PgError : Type := mkPgError {
  sqlstate : string;
  pg_message : string
}.

(** What the client throws when a statement sent by [$executeRaw] fails:
    a known request error of code P2010; the SQLSTATE of the store is kept
    in [meta.code] and quoted in the message. *)
Definition raw_query_failed (e : PgError) : Error :=
  DbError (Some "P2010")
    ("Raw query failed. Code: `" ++ sqlstate e ++ "`. Message: `"
     ++ pg_message e ++ "`").

(** ** Cached responses (utils/idempotency.ts) *)

Inductive CachedResponse : Type :=
| CachedProcessing (message : option string)
| CachedSuccess (txId : nat) (balance : string)
| CachedFailed (error : string).

(** ** The world and its trace *)

Inductive Event : Type :=
| EvAssetFindUnique (symbol : string)
| EvUserFindUnique (key : string)
| EvBegin
| EvCommit
| EvRollback
| EvSetLockTimeout
| EvTransactionFindUnique (idempotency_key : string)
| EvSelectForUpdate (lockA lockB asset : string)
| EvWalletFindUnique (user asset : string)
| EvWalletUpdate (id : nat) (balance : number)
| EvTransactionCreate (idempotency_key : string)
| EvLedgerCreateMany (transaction_id : nat)
| EvTransactionCount
| EvTransactionFindMany
| EvSetTimeout (delayMs : Z)
| EvRedisGet (key : string)
| EvRedisSet (key : string) (ttl : Z) (nx : bool).

(** Calls that reach the persistent store. *)
Definition is_ps_access (e : Event) : bool :=
  match e with
  | EvSetTimeout _ | EvRedisGet _ | EvRedisSet _ _ _ => false
  | _ => true
  end.

(** Calls that change rows of the persistent store. *)
Definition is_ps_write (e : Event) : bool :=
  match e with
  | EvWalletUpdate _ _ | EvTransactionCreate _ | EvLedgerCreateMany _ => true
  | _ => false
  end.

(** [clock] is the time of the database, from which rows take their
    [created_at]; [now] is the wall clock in milliseconds, against which
    cache entries expire; an entry of [fic] is a value and the time at
    which it expires. *)
Record World : Type := mkWorld {
  db : Store;
  fic : gmap string (CachedResponse * Z);
  treasuryId : option string;
  clock : nat;
  now : Z;
  contention : list (option PgError);
  trace : list Event
}.

(** ** Computations: state passing with exceptions *)

Inductive Outcome (A : Type) : Type :=
| Ok (a : A)
| Throw (e : Error).
Arguments Ok {A} a.
Arguments Throw {A} e.

Definition M (A : Type) : Type := World -> Outcome A * World.

Definition ret {A} (a : A) : M A := fun w => (Ok a, w).

Definition throw {A} (e : Error) : M A := fun w => (Throw e, w).

Definition bind {A B} (c : M A) (k : A -> M B) : M B :=
  fun w =>
    match c w with
    | (Ok a, w') => k a w'
    | (Throw e, w') => (Throw e, w')
    end.

Notation "x <- c ;; k" := (bind c (fun x => k))
  (at level 100, c at next level, right associativity).
Notation "c ;;; k" := (bind c (fun _ => k))
  (at level 100, right associativity).

Definition set_db (s : Store) (w : World) : World :=
  mkWorld s (fic w) (treasuryId w) (clock w) (now w) (contention w) (trace w).

Definition set_fic (c : gmap string (CachedResponse * Z)) (w : World) : World :=
  mkWorld (db w) c (treasuryId w) (clock w) (now w) (contention w) (trace w).

Definition set_treasuryId (t : option string) (w : World) : World :=
  mkWorld (db w) (fic w) t (clock w) (now w) (contention w) (trace w).

Definition set_clock (n : nat) (w : World) : World :=
  mkWorld (db w) (fic w) (treasuryId w) n (now w) (contention w) (trace w).

Definition set_now (t : Z) (w : World) : World :=
  mkWorld (db w) (fic w) (treasuryId w) (clock w) t (contention w) (trace w).

Definition set_contention (l : list (option PgError)) (w : World) : World :=
  mkWorld (db w) (fic w) (treasuryId w) (clock w) (now w) l (trace w).

Definition emit_world (e : Event) (w : World) : World :=
  mkWorld (db w) (fic w) (treasuryId w) (clock w) (now w) (contention w)
          (trace w ++ [e]).

(** Time passing between two calls. *)
Definition elapse (ms : Z) (w : World) : World := set_now (now w + ms) w.

Definition emit (e : Event) : M unit := fun w => (Ok tt, emit_world e w).

Definition get_db : M Store := fun w => (Ok (db w), w).

Definition put_db (s : Store) : M unit := fun w => (Ok tt, set_db s w).

Definition get_clock : M nat := fun w => (Ok (clock w), w).

(** ** Store primitives: the Prisma client calls made by the service *)

(** Lookups by the unique keys of the tables. *)
Definition find_asset (s : Store) (symbol : string) : option Asset :=
  List.find (fun a => String.eqb (asset_symbol a) symbol) (assets s).

Definition find_transaction (s : Store) (key : string) : option Transaction :=
  List.find (fun t => String.eqb (tx_idempotency_key t) key) (transactions s).

Definition find_wallet (s : Store) (user asset : string) : option Wallet :=
  List.find (fun x => String.eqb (wallet_user_id x) user
                      && String.eqb (wallet_asset_id x) asset)
            (wallets s).

(** [prisma.asset.findUnique({ where: { symbol } })] *)
Definition asset_findUnique (symbol : string) : M (option Asset) :=
  fun w => (Ok (find_asset (db w) symbol), emit_world (EvAssetFindUnique symbol) w).

(** [prisma.$transaction(body)]: the body runs on the store; when it throws,
    the tables are put back as they were when the transaction began. *)
Definition prisma_transaction {A} (body : M A) : M A :=
  fun w =>
    let w0 := emit_world EvBegin (set_clock (S (clock w)) w) in
    match body w0 with
    | (Ok a, w1) => (Ok a, emit_world EvCommit w1)
    | (Throw e, w1) => (Throw e, emit_world EvRollback (set_db (db w0) w1))
    end.

(** [SET LOCAL lock_timeout = '5s'] *)
Definition executeRaw_setLockTimeout : M unit := emit EvSetLockTimeout.

(** [tx.transaction.findUnique({ where: { idempotency_key } })] *)
Definition transaction_findUnique (key : string) : M (option Transaction) :=
  fun w =>
    (Ok (find_transaction (db w) key), emit_world (EvTransactionFindUnique key) w).

(** [tx.$executeRaw`SELECT id FROM wallets WHERE user_id IN (lockA, lockB)
    AND asset_id = ... FOR UPDATE`]. Under contention the store answers the
    statement with an error (deadlock detected, lock not available); the
    answers are read off [contention], one per locking read, and a locking
    read with no answer left is granted. The error of the store reaches
    the caller as the raw-query error of the client. *)
Definition executeRaw_selectForUpdate (lockA lockB asset : string) : M unit :=
  fun w =>
    let w' := emit_world (EvSelectForUpdate lockA lockB asset) w in
    match contention w' with
    | Some e :: rest => (Throw (raw_query_failed e), set_contention rest w')
    | None :: rest => (Ok tt, set_contention rest w')
    | [] => (Ok tt, w')
    end.

(** [tx.wallet.findUnique({ where: { user_id_asset_id: { user_id, asset_id } } })] *)
Definition wallet_findUnique (user asset : string) : M (option Wallet) :=
  fun w =>
    (Ok (find_wallet (db w) user asset), emit_world (EvWalletFindUnique user asset) w).

(** The refusals of the store, as the client throws them: a value that
    does not fit its column (SQLSTATE 22003, 22001), a CHECK constraint
    (23514, which the client does not classify), the unique key, and an
    update that finds no row. *)
Definition numeric_overflow : Error :=
  DbError (Some "P2020") "Value out of range for the type: numeric field overflow".

Definition value_too_long : Error :=
  DbError (Some "P2000")
    "The provided value for the column is too long for the column's type.".

Definition check_violation : Error :=
  DbError None "new row for relation violates check constraint".

Definition unique_violation : Error :=
  DbError (Some "P2002")
    "Unique constraint failed on the fields: (`idempotency_key`)".

Definition record_not_found : Error :=
  DbError (Some "P2025") "Record to update not found.".

Definition set_balance (id : nat) (z : Z) (x : Wallet) : Wallet :=
  if Nat.eqb (wallet_id x) id
  then mkWallet (wallet_id x) (wallet_user_id x) (wallet_asset_id x) z
  else x.

Definition with_wallets (ws : list Wallet) (s : Store) : Store :=
  mkStore (assets s) (users s) ws (transactions s) (ledger_entries s) (next_uuid s).

(** [tx.wallet.update({ where: { id }, data: { balance } })], with the
    column's [CHECK (balance >= 0)]. *)
Definition wallet_update (id : nat) (balance : number) : M unit :=
  fun w =>
    let w' := emit_world (EvWalletUpdate id balance) w in
    match to_decimal balance with
    | None => (Throw numeric_overflow, w')
    | Some z =>
      if negb (existsb (fun x => Nat.eqb (wallet_id x) id) (wallets (db w')))
      then (Throw record_not_found, w')
      else if z <? 0 then (Throw check_violation, w')
      else (Ok tt, set_db (with_wallets (List.map (set_balance id z) (wallets (db w'))) (db w')) w')
    end.

(** [tx.transaction.create({ data })], with [idempotency_key VARCHAR(255)
    UNIQUE] and [amount DECIMAL(18,4) CHECK (amount > 0)]; [id] and
    [created_at] take their defaults. *)
Definition transaction_create (idempotency_key : string)
    (from_wallet_id to_wallet_id : nat) (amount : number)
    (type : TransactionType) (status : string) : M Transaction :=
  fun w =>
    let w' := emit_world (EvTransactionCreate idempotency_key) w in
    let s := db w' in
    match to_decimal amount with
    | None => (Throw numeric_overflow, w')
    | Some a =>
      if (255 <? String.length idempotency_key)%nat
      then (Throw value_too_long, w')
      else if a <=? 0 then (Throw check_violation, w')
      else if existsb (fun t => String.eqb (tx_idempotency_key t) idempotency_key)
                      (transactions s)
      then (Throw unique_violation, w')
      else
        let t := mkTransaction (next_uuid s) idempotency_key from_wallet_id
                               to_wallet_id a type status (clock w') in
        (Ok t,
         set_db (mkStore (assets s) (users s) (wallets s) (transactions s ++ [t])
                         (ledger_entries s) (S (next_uuid s))) w')
    end.

(** One element of the [data] array of [ledgerEntry.createMany]. *)
Record LedgerEntryInput : Type := mkLedgerEntryInput {
  in_transaction_id : nat;
  in_wallet_id : nat;
  in_entry_type : EntryType;
  in_amount : number;
  in_balance_after : number
}.

(** The rows of a batch, or the error of the first element the table
    refuses ([CHECK (amount > 0)], the column types). *)
Fixpoint ledger_rows (id created_at : nat) (data : list LedgerEntryInput)
  : Outcome (list LedgerEntry) :=
  match data with
  | [] => Ok []
  | d :: rest =>
    match to_decimal (in_amount d), to_decimal (in_balance_after d) with
    | Some a, Some b =>
      if a <=? 0 then Throw check_violation
      else
        match ledger_rows (S id) created_at rest with
        | Ok rows =>
          Ok (mkLedgerEntry id (in_transaction_id d) (in_wallet_id d)
                            (in_entry_type d) a b created_at :: rows)
        | Throw e => Throw e
        end
    | _, _ => Throw numeric_overflow
    end
  end.

(** [tx.ledgerEntry.createMany({ data })]: all the rows or none. *)
Definition ledgerEntry_createMany (transaction_id : nat)
    (data : list LedgerEntryInput) : M unit :=
  fun w =>
    let w' := emit_world (EvLedgerCreateMany transaction_id) w in
    let s := db w' in
    match ledger_rows (next_uuid s) (clock w') data with
    | Throw e => (Throw e, w')
    | Ok rows =>
      (Ok tt,
       set_db (mkStore (assets s) (users s) (wallets s) (transactions s)
                       (ledger_entries s ++ rows)
                       (next_uuid s + length rows)%nat) w')
    end.

(** ** Retry on contention (wallet.service.ts, [withRetry]) *)

(** The world once a timer of [delayMs] milliseconds has fired. *)
Definition paused (delayMs : Z) (w : World) : World :=
  set_now (now w + delayMs) (emit_world (EvSetTimeout delayMs) w).

(** [await new Promise(resolve => setTimeout(resolve, delayMs))] *)
Definition setTimeout (delayMs : Z) : M unit :=
  fun w => (Ok tt, paused delayMs w).

Definition RETRYABLE_PG_CODES : gset string := {[ "40P01"; "55P03" ]}.

(** [pgCode && RETRYABLE_PG_CODES.has(pgCode)] *)
Definition isRetryable (error : Error) : bool :=
  match error_code error with
  | Some pgCode => bool_decide (pgCode ∈ RETRYABLE_PG_CODES)
  | None => false
  end.

(** The loop [for (attempt = 1; attempt <= maxAttempts; attempt++)], from
    a given [attempt] with [fuel] iterations left; leaving the loop reaches
    the final [throw]. *)
Fixpoint withRetry_from {T} (fn : M T) (maxAttempts attempt fuel : nat) : M T :=
  match fuel with
  | O => throw (JsError "Max retry attempts exceeded")
  | S fuel' =>
    fun w =>
      match fn w with
      | (Ok v, w') => (Ok v, w')
      | (Throw error, w') =>
        if isRetryable error && (attempt <? maxAttempts)%nat then
          let delayMs := 2 ^ Z.of_nat attempt * 100 in
          (setTimeout delayMs ;;;
           withRetry_from fn maxAttempts (S attempt) fuel') w'
        else (Throw error, w')
      end
  end.

Definition withRetry {T} (fn : M T) (maxAttempts : nat) : M T :=
  withRetry_from fn maxAttempts 1 maxAttempts.

(** ** The transfer engine (wallet.service.ts, [WalletService.executeTransaction]) *)

Record TransactionResult : Type := mkTransactionResult {
  status : string;
  txId : nat;
  balance : string
}.

(** [Array.prototype.sort] on strings: ascending by code units, stable. *)
Fixpoint sort_insert (x : string) (l : list string) : list string :=
  match l with
  | [] => [x]
  | y :: l' => if String.leb x y then x :: l else y :: sort_insert x l'
  end.

Definition Array_sort (l : list string) : list string :=
  fold_right sort_insert [] l.

(** [const [lockA, lockB] = [fromUserId, toUserId].sort()] *)
Definition lock_order (fromUserId toUserId : string) : string * string :=
  match Array_sort [fromUserId; toUserId] with
  | lockA :: lockB :: _ => (lockA, lockB)
  | _ => (fromUserId, toUserId)
  end.

Definition is_credit_type (type : TransactionType) : bool :=
  match type with
  | TOP_UP | BONUS => true
  | SPEND => false
  end.

(** The callback handed to [prisma.$transaction]. *)
Definition transfer (idempotencyKey fromUserId toUserId assetSymbol : string)
    (asset : Asset) (amount : number) (type : TransactionType)
  : M TransactionResult :=
  executeRaw_setLockTimeout ;;;
  existing <- transaction_findUnique idempotencyKey ;;
  match existing with
  | Some existing => ret (mkTransactionResult "SUCCESS" (tx_id existing) "0")
  | None =>
    let (lockA, lockB) := lock_order fromUserId toUserId in
    executeRaw_selectForUpdate lockA lockB (asset_id asset) ;;;
    fromWallet <- wallet_findUnique fromUserId (asset_id asset) ;;
    toWallet <- wallet_findUnique toUserId (asset_id asset) ;;
    match fromWallet, toWallet with
    | None, _ =>
      throw (NotFoundError ("Sender wallet not found for " ++ fromUserId
                            ++ " / " ++ assetSymbol))
    | Some _, None =>
      throw (NotFoundError ("Receiver wallet not found for " ++ toUserId
                            ++ " / " ++ assetSymbol))
    | Some fromWallet, Some toWallet =>
      let currentBalance := Number_of_decimal (wallet_balance fromWallet) in
      if num_lt currentBalance (Number_of_Z 0)
      then throw (JsError ("Wallet balance corrupted for " ++ fromUserId))
      else if num_lt currentBalance amount
      then throw (JsError "Insufficient funds.")
      else
        let newFromBalance := num_sub currentBalance amount in
        let newToBalance :=
          num_add (Number_of_decimal (wallet_balance toWallet)) amount in
        wallet_update (wallet_id fromWallet) newFromBalance ;;;
        wallet_update (wallet_id toWallet) newToBalance ;;;
        savedTx <- transaction_create idempotencyKey (wallet_id fromWallet)
                     (wallet_id toWallet) amount type "SUCCESS" ;;
        ledgerEntry_createMany (tx_id savedTx)
          [ mkLedgerEntryInput (tx_id savedTx) (wallet_id fromWallet) DEBIT
                               amount newFromBalance;
            mkLedgerEntryInput (tx_id savedTx) (wallet_id toWallet) CREDIT
                               amount newToBalance ] ;;;
        let userBalance :=
          if is_credit_type type then newToBalance else newFromBalance in
        ret (mkTransactionResult "SUCCESS" (tx_id savedTx)
                                 (Number_toString userBalance))
    end
  end.

Definition executeTransaction
    (idempotencyKey fromUserId toUserId assetSymbol : string)
    (amount : number) (type : TransactionType) : M TransactionResult :=
  if num_le amount (Number_of_Z 0) || negb (isFinite amount)
  then throw (ValidationError "Amount must be a positive finite number")
  else if num_gt amount (Number_of_Z TRANSACTION_LIMITS.MAX_AMOUNT)
  then throw (ValidationError
                ("Amount exceeds maximum ("
                 ++ Number_toString (Number_of_Z TRANSACTION_LIMITS.MAX_AMOUNT)
                 ++ ")"))
  else
    asset <- asset_findUnique assetSymbol ;;
    match asset with
    | None => throw (NotFoundError ("Asset " ++ assetSymbol ++ " not found"))
    | Some asset =>
      withRetry
        (prisma_transaction
           (transfer idempotencyKey fromUserId toUserId assetSymbol asset
                     amount type))
        3
    end.

(** ** Read projection (wallet.service.ts, [WalletService.getTransactionHistory]) *)

Record HistoryOptions : Type := mkHistoryOptions {
  opt_type : option TransactionType;
  opt_assetSymbol : option string;
  opt_startDate : option nat;
  opt_endDate : option nat;
  opt_limit : option Z;
  opt_offset : option Z
}.

Record HistoryItem : Type := mkHistoryItem {
  item_id : nat;
  item_idempotencyKey : string;
  item_type : TransactionType;
  item_amount : string;
  item_assetSymbol : string;
  item_fromUser : string;
  item_toUser : string;
  item_status : string;
  item_createdAt : nat
}.

Record Pagination : Type := mkPagination {
  total : Z;
  limit : Z;
  offset : Z;
  returned : Z;
  hasMore : bool
}.

Record History : Type := mkHistory {
  history_transactions : list HistoryItem;
  pagination : Pagination
}.

(** A transaction row with the relations of
    [include: { from_wallet: { include: { asset } }, to_wallet: { ... } }]. *)
Record TransactionWithWallets : Type := mkTransactionWithWallets {
  row : Transaction;
  from_wallet : Wallet;
  from_asset : Asset;
  to_wallet : Wallet;
  to_asset : Asset
}.

Definition wallet_by_id (s : Store) (id : nat) : option Wallet :=
  List.find (fun x => Nat.eqb (wallet_id x) id) (wallets s).

Definition asset_by_id (s : Store) (id : string) : option Asset :=
  List.find (fun a => String.eqb (asset_id a) id) (assets s).

Definition with_relations (s : Store) (t : Transaction)
  : option TransactionWithWallets :=
  match wallet_by_id s (tx_from_wallet_id t), wallet_by_id s (tx_to_wallet_id t) with
  | Some fw, Some tw =>
    match asset_by_id s (wallet_asset_id fw), asset_by_id s (wallet_asset_id tw) with
    | Some fa, Some ta => Some (mkTransactionWithWallets t fw fa tw ta)
    | _, _ => None
    end
  | _, _ => None
  end.

(** The [where] object built by the service: the user on either side, then
    the optional type and date bounds. *)
Definition history_where (userId : string) (o : HistoryOptions)
    (r : TransactionWithWallets) : bool :=
  (String.eqb (wallet_user_id (from_wallet r)) userId
   || String.eqb (wallet_user_id (to_wallet r)) userId)
  && match opt_type o with
     | Some ty => TransactionType_eqb (tx_type (row r)) ty
     | None => true
     end
  && match opt_startDate o with
     | Some d => (d <=? tx_created_at (row r))%nat
     | None => true
     end
  && match opt_endDate o with
     | Some d => (tx_created_at (row r) <=? d)%nat
     | None => true
     end.

(** [orderBy: { created_at: 'desc' }]; rows of equal date keep table order. *)
Fixpoint insert_desc (r : TransactionWithWallets)
    (l : list TransactionWithWallets) : list TransactionWithWallets :=
  match l with
  | [] => [r]
  | y :: l' =>
    if (tx_created_at (row y) <? tx_created_at (row r))%nat
    then r :: l
    else y :: insert_desc r l'
  end.

Definition order_by_created_at_desc (l : list TransactionWithWallets)
  : list TransactionWithWallets :=
  fold_right insert_desc [] l.

(** The rows selected by [where], in the order of [orderBy]. *)
Definition history_rows (s : Store) (userId : string) (o : HistoryOptions)
  : list TransactionWithWallets :=
  order_by_created_at_desc
    (List.filter (history_where userId o)
       (omap (with_relations s) (transactions s))).

(** The filter applied by the service to the page it fetched. *)
Definition asset_matches (assetSymbol : string) (r : TransactionWithWallets)
  : bool :=
  String.eqb (asset_symbol (from_asset r)) assetSymbol
  || String.eqb (asset_symbol (to_asset r)) assetSymbol.

Definition history_item (r : TransactionWithWallets) : HistoryItem :=
  mkHistoryItem (tx_id (row r)) (tx_idempotency_key (row r)) (tx_type (row r))
    (Decimal_toString (tx_amount (row r)))
    (asset_symbol (from_asset r))
    (wallet_user_id (from_wallet r)) (wallet_user_id (to_wallet r))
    (tx_status (row r)) (tx_created_at (row r)).

(** [prisma.user.findUnique({ where: { id } })] *)
Definition user_findUnique (id : string) : M (option User) :=
  fun w =>
    (Ok (List.find (fun u => String.eqb (user_id u) id) (users (db w))),
     emit_world (EvUserFindUnique id) w).

(** [prisma.transaction.count({ where })] *)
Definition transaction_count (userId : string) (o : HistoryOptions) : M Z :=
  fun w =>
    (Ok (Z.of_nat (length (history_rows (db w) userId o))),
     emit_world EvTransactionCount w).

(** [prisma.transaction.findMany({ where, include, orderBy, take, skip })] *)
Definition transaction_findMany (userId : string) (o : HistoryOptions)
    (take skip : Z) : M (list TransactionWithWallets) :=
  fun w =>
    (Ok (firstn (Z.to_nat take) (skipn (Z.to_nat skip)
                                       (history_rows (db w) userId o))),
     emit_world EvTransactionFindMany w).

(** A string used as a condition: the empty string is falsy. *)
Definition truthy (s : option string) : option string :=
  match s with
  | Some "" => None
  | _ => s
  end.

Definition getTransactionHistory (userId : string) (options : HistoryOptions)
  : M History :=
  let limit := default 50 (opt_limit options) in
  let offset := default 0 (opt_offset options) in
  if (limit <? 1) || (limit >? 500)
  then throw (ValidationError "Limit must be between 1 and 500")
  else if offset <? 0
  then throw (ValidationError "Offset must be non-negative")
  else
    user <- user_findUnique userId ;;
    match user with
    | None => throw (NotFoundError ("User " ++ userId ++ " not found"))
    | Some _ =>
      total <- transaction_count userId options ;;
      transactions <- transaction_findMany userId options limit offset ;;
      let filtered :=
        match truthy (opt_assetSymbol options) with
        | Some assetSymbol => List.filter (asset_matches assetSymbol) transactions
        | None => transactions
        end in
      ret (mkHistory
             (List.map history_item filtered)
             (mkPagination total limit offset (Z.of_nat (length filtered))
                (offset + Z.of_nat (length filtered) <? total)))
    end.

(** ** Idempotency cache (utils/idempotency.ts) *)

(** What the cache holds under a key: an entry whose expiry time has come
    is gone. *)
Definition cache_lookup (w : World) (key : string) : option CachedResponse :=
  match fic w !! key with
  | Some (value, expires) => if now w <? expires then Some value else None
  | None => None
  end.

(** [redisClient.get(key)] followed by [JSON.parse] *)
Definition redis_get (key : string) : M (option CachedResponse) :=
  fun w => (Ok (cache_lookup w key), emit_world (EvRedisGet key) w).

(** [redisClient.set(key, JSON.stringify(value), 'EX', ttl, 'NX')]: the
    key is set only when the cache does not hold it, to expire [ttl]
    seconds from now; [true] stands for the reply ['OK']. *)
Definition redis_set_nx (key : string) (value : CachedResponse) (ttl : Z)
  : M bool :=
  fun w =>
    let w' := emit_world (EvRedisSet key ttl true) w in
    match cache_lookup w' key with
    | Some _ => (Ok false, w')
    | None =>
      (Ok true, set_fic (<[key := (value, now w' + ttl * 1000)]> (fic w')) w')
    end.

(** [redisClient.set(key, JSON.stringify(value), 'EX', ttl)] *)
Definition redis_set (key : string) (value : CachedResponse) (ttl : Z)
  : M unit :=
  fun w =>
    let w' := emit_world (EvRedisSet key ttl false) w in
    (Ok tt, set_fic (<[key := (value, now w' + ttl * 1000)]> (fic w')) w').

Definition cache_key (key : string) : string := "idempotency:" ++ key.

Definition checkAndReserveIdempotencyKey (key : string)
  : M (option CachedResponse) :=
  result <- redis_get (cache_key key) ;;
  match result with
  | Some parsed => ret (Some parsed)
  | None =>
    reserved <- redis_set_nx (cache_key key) (CachedProcessing None)
                  IDEMPOTENCY.PROCESSING_TTL ;;
    if negb reserved
    then ret (Some (CachedProcessing
                      (Some "A concurrent request is already processing this key.")))
    else ret None
  end.

Definition saveIdempotencyResult (key : string) (response : CachedResponse)
  : M unit :=
  redis_set (cache_key key) response IDEMPOTENCY.CACHE_TTL.

(** ** Request validation (validators/transaction.validator.ts) *)

(** The JSON body of a request: a field is [None] when it is absent or not
    of the JSON type the schema asks for. *)
Record Body : Type := mkBody {
  body_userId : option string;
  body_type : option string;
  body_amount : option number;
  body_assetSymbol : option string
}.

Record TransactionPayload : Type := mkTransactionPayload {
  userId : string;
  type : TransactionType;
  amount : number;
  assetSymbol : string
}.

(** [z.enum(TransactionType)]; the members are those the service and the
    README name. *)
Definition parse_TransactionType (s : string) : option TransactionType :=
  if String.eqb s "TOP_UP" then Some TOP_UP
  else if String.eqb s "BONUS" then Some BONUS
  else if String.eqb s "SPEND" then Some SPEND
  else None.

Definition upper_ascii (c : ascii) : ascii :=
  let n := nat_of_ascii c in
  if ((97 <=? n) && (n <=? 122))%nat then ascii_of_nat (n - 32) else c.

(** [String.prototype.toUpperCase] on ASCII strings *)
Fixpoint toUpperCase (s : string) : string :=
  match s with
  | EmptyString => EmptyString
  | String c s' => String (upper_ascii c) (toUpperCase s')
  end.

(** [transactionSchema.safeParse(body)]: [None] when [success] is false. *)
Definition transactionSchema_safeParse (b : Body) : option TransactionPayload :=
  match body_userId b, body_type b, body_amount b, body_assetSymbol b with
  | Some u, Some t, Some a, Some sym =>
    match parse_TransactionType t with
    | Some ty =>
      if (1 <=? String.length u)%nat
         && isFinite a && num_gt a (Number_of_Z 0)
         && num_le a (Number_of_Z TRANSACTION_LIMITS.MAX_AMOUNT)
         && (1 <=? String.length sym)%nat
      then Some (mkTransactionPayload u ty a (toUpperCase sym))
      else None
    | None => None
    end
  | _, _, _, _ => None
  end.

(** ** Treasury lookup (wallet.service.ts, [getTreasuryId]) *)

(** [prisma.user.findUnique({ where: { email } })] *)
Definition user_findUnique_email (email : string) : M (option User) :=
  fun w =>
    (Ok (List.find (fun u => String.eqb (user_email u) email) (users (db w))),
     emit_world (EvUserFindUnique email) w).

Definition getTreasuryId : M string :=
  fun w =>
    match truthy (treasuryId w) with
    | Some id => (Ok id, w)
    | None =>
      (treasury <- user_findUnique_email SYSTEM_USERS.TREASURY_EMAIL ;;
       match treasury with
       | None =>
         throw (JsError "System treasury account not found. Run seed.sql first.")
       | Some treasury =>
         fun w1 => (Ok (user_id treasury),
                    set_treasuryId (Some (user_id treasury)) w1)
       end) w
    end.

(** ** The controller (wallet.controller.ts, [WalletController.processTransaction]) *)

Record Request : Type := mkRequest {
  header_idempotency_key : option string;
  body : Body
}.

(** The bodies handed to [res.json]. *)
Inductive Json : Type :=
| JsonErrorResponse (error : string)       (* errorResponse(message) *)
| JsonValidationFailed                     (* errorResponse({ message, details }) *)
| JsonCached (cached : CachedResponse)     (* { ...cached, _cached: true } *)
| JsonResult (result : TransactionResult)
| JsonFailed (error : string).             (* { status: 'FAILED', error } *)

Record Response : Type := mkResponse {
  statusCode : Z;
  json : Json
}.

Module StatusCodes.
Definition OK : Z := 200.
Definition BAD_REQUEST : Z := 400.
Definition CONFLICT : Z := 409.
Definition INTERNAL_SERVER_ERROR : Z := 500.
End StatusCodes.

(** [String.prototype.includes] *)
Fixpoint includes (s sub : string) : bool :=
  String.prefix sub s
  || match s with
     | EmptyString => false
     | String _ s' => includes s' sub
     end.

(** [try { c } catch (error) { handler(error) }] *)
Definition try_catch {A} (c : M A) (handler : Error -> M A) : M A :=
  fun w =>
    match c w with
    | (Ok a, w') => (Ok a, w')
    | (Throw e, w') => handler e w'
    end.

Definition processTransaction (req : Request) : M Response :=
  match truthy (header_idempotency_key req) with
  | None =>
    ret (mkResponse StatusCodes.BAD_REQUEST
           (JsonErrorResponse "Idempotency-Key header is required"))
  | Some idempotencyKey =>
    cached <- checkAndReserveIdempotencyKey idempotencyKey ;;
    match cached with
    | Some (CachedProcessing _) =>
      ret (mkResponse StatusCodes.CONFLICT
             (JsonErrorResponse
                "Transaction is currently processing. Please retry later."))
    | Some cached => ret (mkResponse StatusCodes.OK (JsonCached cached))
    | None =>
      try_catch
        (match transactionSchema_safeParse (body req) with
         | None =>
           saveIdempotencyResult idempotencyKey (CachedFailed "Validation failed") ;;;
           ret (mkResponse StatusCodes.BAD_REQUEST JsonValidationFailed)
         | Some parsed =>
           treasuryId <- getTreasuryId ;;
           let fromUserId :=
             if is_credit_type (type parsed) then treasuryId else userId parsed in
           let toUserId :=
             if is_credit_type (type parsed) then userId parsed else treasuryId in
           result <- executeTransaction idempotencyKey fromUserId toUserId
                       (assetSymbol parsed) (amount parsed) (type parsed) ;;
           saveIdempotencyResult idempotencyKey
             (CachedSuccess (txId result) (balance result)) ;;;
           ret (mkResponse StatusCodes.OK (JsonResult result))
         end)
        (fun error =>
           let message := error_message error in
           saveIdempotencyResult idempotencyKey (CachedFailed message) ;;;
           let isClientError :=
             includes message "not found" || includes message "Insufficient funds" in
           ret (mkResponse
                  (if isClientError then StatusCodes.BAD_REQUEST
                   else StatusCodes.INTERNAL_SERVER_ERROR)
                  (JsonFailed message)))
    end
  end.

(** ** The seeded store (seed.sql) *)

Module Seed.

Definition GOLD_ID : string := "a0eebc99-9c0b-4ef8-bb6d-6bb9bd380a11".
Definition DIAMOND_ID : string := "b0eebc99-9c0b-4ef8-bb6d-6bb9bd380a22".
Definition TREASURY : string := "00000000-0000-0000-0000-000000000001".
Definition ALICE : string := "00000000-0000-0000-0000-000000000002".
Definition BOB : string := "00000000-0000-0000-0000-000000000003".
Definition CHARLIE : string := "00000000-0000-0000-0000-000000000004".

Definition store : Store :=
  mkStore
    [ mkAsset GOLD_ID "GOLD"; mkAsset DIAMOND_ID "DIAMOND" ]
    [ mkUser TREASURY "treasury@system.internal";
      mkUser ALICE "alice@example.com";
      mkUser BOB "bob@example.com";
      mkUser CHARLIE "charlie@example.com" ]
    [ mkWallet 0 TREASURY GOLD_ID (units 1000000);
      mkWallet 1 TREASURY DIAMOND_ID (units 1000000);
      mkWallet 2 ALICE GOLD_ID (units 100);
      mkWallet 3 BOB GOLD_ID (units 200);
      mkWallet 4 CHARLIE DIAMOND_ID (units 30) ]
    [] [] 5.

(** The service just started: empty cache, treasury id not yet looked up,
    no contention. *)
Definition world : World := mkWorld store ∅ None 0 0 [] [].

End Seed.

(** * Vocabulary of the properties *)

(** ** What a committed transfer leaves in the store *)

(** The two numbers a transfer computes from the wallets it read:
    [currentBalance - amount] and [Number(toWallet.balance) + amount]. *)
Definition newFromBalance (fw : Wallet) (amount : number) : number :=
  num_sub (Number_of_decimal (wallet_balance fw)) amount.

Definition newToBalance (tw : Wallet) (amount : number) : number :=
  num_add (Number_of_decimal (wallet_balance tw)) amount.

(** The tables after a transfer of column amount [a] that left the column
    values [newFrom] and [newTo] in the two wallets: the from-wallet is
    written first, the to-wallet second. *)
Definition debit_then_credit (s : Store) (fw tw : Wallet) (newFrom newTo : Z)
  : list Wallet :=
  List.map (set_balance (wallet_id tw) newTo)
    (List.map (set_balance (wallet_id fw) newFrom) (wallets s)).

Definition new_transaction (s : Store) (key : string) (fw tw : Wallet) (a : Z)
    (ty : TransactionType) (created_at : nat) : Transaction :=
  mkTransaction (next_uuid s) key (wallet_id fw) (wallet_id tw) a ty "SUCCESS"
                created_at.

Definition new_ledger_entries (s : Store) (fw tw : Wallet) (a newFrom newTo : Z)
    (created_at : nat) : list LedgerEntry :=
  [ mkLedgerEntry (S (next_uuid s)) (next_uuid s) (wallet_id fw) DEBIT a
                  newFrom created_at;
    mkLedgerEntry (S (S (next_uuid s))) (next_uuid s) (wallet_id tw) CREDIT a
                  newTo created_at ].

Definition committed (s : Store) (key : string) (fw tw : Wallet)
    (a newFrom newTo : Z) (ty : TransactionType) (created_at : nat) : Store :=
  mkStore (assets s) (users s) (debit_then_credit s fw tw newFrom newTo)
          (transactions s ++ [new_transaction s key fw tw a ty created_at])
          (ledger_entries s
           ++ new_ledger_entries s fw tw a newFrom newTo created_at)
          (S (next_uuid s) + 2)%nat.

(** The column values of a transfer: what the three numbers become in
    the columns that receive them, under the CHECK constraints of those
    columns. *)
Record column_values (fw tw : Wallet) (amount : number) (a newFrom newTo : Z)
  : Prop := mkColumnValues {
  amount_column : to_decimal amount = Some a;
  amount_positive : 0 < a;
  from_column : to_decimal (newFromBalance fw amount) = Some newFrom;
  from_nonnegative : 0 <= newFrom;
  to_column : to_decimal (newToBalance tw amount) = Some newTo;
  to_nonnegative : 0 <= newTo
}.

(** The two ways a transfer returns: the replay of a recorded key, which
    leaves the tables alone, and a committed transfer. *)
Inductive transfer_outcome (s : Store) (key fromUserId toUserId : string)
    (asset : Asset) (amount : number) (ty : TransactionType)
    (r : TransactionResult) (s' : Store) : Prop :=
| outcome_duplicate (existing : Transaction) :
    find_transaction s key = Some existing ->
    r = mkTransactionResult "SUCCESS" (tx_id existing) "0" ->
    s' = s ->
    transfer_outcome s key fromUserId toUserId asset amount ty r s'
| outcome_committed (fw tw : Wallet) (a newFrom newTo : Z) (created_at : nat) :
    find_transaction s key = None ->
    find_wallet s fromUserId (asset_id asset) = Some fw ->
    find_wallet s toUserId (asset_id asset) = Some tw ->
    num_lt (Number_of_decimal (wallet_balance fw)) (Number_of_Z 0) = false ->
    num_lt (Number_of_decimal (wallet_balance fw)) amount = false ->
    column_values fw tw amount a newFrom newTo ->
    r = mkTransactionResult "SUCCESS" (next_uuid s)
          (Number_toString
             (if is_credit_type ty then newToBalance tw amount
              else newFromBalance fw amount)) ->
    s' = committed s key fw tw a newFrom newTo ty created_at ->
    transfer_outcome s key fromUserId toUserId asset amount ty r s'.

(** ** Double entry *)

(** The ledger rows of a transaction, and the sum of one side. *)
Definition ledger_of (s : Store) (id : nat) : list LedgerEntry :=
  List.filter (fun e => Nat.eqb (le_transaction_id e) id) (ledger_entries s).

Definition ledger_sum (side : EntryType) (l : list LedgerEntry) : Z :=
  fold_right Z.add 0
    (List.map le_amount
       (List.filter (fun e => EntryType_eqb (le_entry_type e) side) l)).

(** Rows of the transaction table recorded under a key. *)
Definition rows_of_key (s : Store) (key : string) : list Transaction :=
  List.filter (fun t => String.eqb (tx_idempotency_key t) key) (transactions s).

(** One DEBIT on the source and one CREDIT on the destination, both of
    the amount of the transaction. *)
Definition double_entry (s : Store) (t : Transaction) : Prop :=
  exists d c,
    ledger_of s (tx_id t) = [d; c] /\
    le_entry_type d = DEBIT /\ le_wallet_id d = tx_from_wallet_id t /\
    le_amount d = tx_amount t /\
    le_entry_type c = CREDIT /\ le_wallet_id c = tx_to_wallet_id t /\
    le_amount c = tx_amount t.

Definition balanced (s : Store) (t : Transaction) : Prop :=
  ledger_sum CREDIT (ledger_of s (tx_id t)) = tx_amount t /\
  ledger_sum DEBIT (ledger_of s (tx_id t)) = tx_amount t.

Record consistent (s : Store) : Prop := mkConsistent {
  tx_ids_below : Forall (fun t => (tx_id t < next_uuid s)%nat) (transactions s);
  ledger_refs_below :
    Forall (fun e => (le_transaction_id e < next_uuid s)%nat) (ledger_entries s);
  keys_unique : List.NoDup (List.map tx_idempotency_key (transactions s));
  entries_paired : Forall (double_entry s) (transactions s)
}.

(** Stores the service can be in: the tables of transactions and ledger
    entries start empty and change only through [executeTransaction]. *)
Inductive reachable : Store -> Prop :=
| reachable_init s :
    transactions s = [] -> ledger_entries s = [] -> reachable s
| reachable_step w key from to sym amount ty o w' :
    reachable (db w) ->
    executeTransaction key from to sym amount ty w = (o, w') ->
    reachable (db w').

(** ** Validation *)

(** The two amount guards of [executeTransaction], taken together. *)
Definition amount_rejected (amount : number) : bool :=
  num_le amount (Number_of_Z 0) || negb (isFinite amount)
  || num_gt amount (Number_of_Z TRANSACTION_LIMITS.MAX_AMOUNT).

(** ** Traces *)

(** The events of a call that replays a recorded key. *)
Definition replay_events (sym key : string) : list Event :=
  [ EvAssetFindUnique sym; EvBegin; EvSetLockTimeout;
    EvTransactionFindUnique key; EvCommit ].

(** The events of a call stopped by the balance check. *)
Definition refused_events (sym key from to : string) (asset : Asset)
  : list Event :=
  [ EvAssetFindUnique sym; EvBegin; EvSetLockTimeout;
    EvTransactionFindUnique key;
    EvSelectForUpdate (fst (lock_order from to)) (snd (lock_order from to))
                      (asset_id asset);
    EvWalletFindUnique from (asset_id asset);
    EvWalletFindUnique to (asset_id asset);
    EvRollback ].

(** The events of a call whose locking read the store refuses. *)
Definition lock_refused_events (sym key from to : string) (asset : Asset)
  : list Event :=
  [ EvAssetFindUnique sym; EvBegin; EvSetLockTimeout;
    EvTransactionFindUnique key;
    EvSelectForUpdate (fst (lock_order from to)) (snd (lock_order from to))
                      (asset_id asset);
    EvRollback ].

(** The events of a call that commits a transfer, the row of the
    transaction taking the id [id]. *)
Definition committed_events (sym key from to : string) (asset : Asset)
    (fw tw : Wallet) (amount : number) (id : nat) : list Event :=
  [ EvAssetFindUnique sym; EvBegin; EvSetLockTimeout;
    EvTransactionFindUnique key;
    EvSelectForUpdate (fst (lock_order from to)) (snd (lock_order from to))
                      (asset_id asset);
    EvWalletFindUnique from (asset_id asset);
    EvWalletFindUnique to (asset_id asset);
    EvWalletUpdate (wallet_id fw) (newFromBalance fw amount);
    EvWalletUpdate (wallet_id tw) (newToBalance tw amount);
    EvTransactionCreate key;
    EvLedgerCreateMany id;
    EvCommit ].

(** A computation that only adds events to the trace. *)
Definition appends {A} (c : M A) : Prop :=
  forall w, exists es, trace (snd (c w)) = (trace w ++ es)%list.

(** ** Runs on the seeded store *)

Module HistoryExample.

Import Seed.

(** A top-up in GOLD for Alice, then a bonus in DIAMOND for Charlie. *)
Definition after_top_up : World :=
  snd (executeTransaction "k1" TREASURY ALICE "GOLD" (Number_of_Z 100) TOP_UP world).

Definition after_bonus : World :=
  snd (executeTransaction "k2" TREASURY CHARLIE "DIAMOND" (Number_of_Z 7) BONUS
                          after_top_up).

(** The treasury's history, GOLD only, one row per page, first page. *)
Definition options : HistoryOptions :=
  mkHistoryOptions None (Some "GOLD") None None (Some 1) (Some 0).

End HistoryExample.

Module Scenario.

Import Seed.

(** Answers of the store to a locking read under contention. *)
Definition deadlock : PgError := mkPgError "40P01" "ERROR: deadlock detected".

Definition lock_timeout : PgError :=
  mkPgError "55P03" "ERROR: canceling statement due to lock timeout".

(** TOP_UP 100 GOLD for Alice under key k1, on the seeded store. *)
Definition top_up : Outcome TransactionResult * World :=
  executeTransaction "k1" TREASURY ALICE "GOLD" (Number_of_Z 100) TOP_UP world.

(** The same call again. *)
Definition top_up_again : Outcome TransactionResult * World :=
  executeTransaction "k1" TREASURY ALICE "GOLD" (Number_of_Z 100) TOP_UP (snd top_up).

(** A second call under k1 whose amount is refused. *)
Definition top_up_zero : Outcome TransactionResult * World :=
  executeTransaction "k1" TREASURY ALICE "GOLD" (Number_of_Z 0) TOP_UP (snd top_up).

(** A second call under k1 with other arguments throughout. *)
Definition other_arguments : Outcome TransactionResult * World :=
  executeTransaction "k1" BOB TREASURY "DIAMOND" (Number_of_Z 5) SPEND (snd top_up).

(** SPEND 10000 GOLD by Bob, who holds 200, under key k3, twice. *)
Definition overspend : Outcome TransactionResult * World :=
  executeTransaction "k3" BOB TREASURY "GOLD" (Number_of_Z 10000) SPEND world.

Definition overspend_again : Outcome TransactionResult * World :=
  executeTransaction "k3" BOB TREASURY "GOLD" (Number_of_Z 10000) SPEND (snd overspend).

(** POST /transactions: a TOP_UP whose user is the treasury itself. *)
Definition self_top_up_request : Request :=
  mkRequest (Some "k5")
            (mkBody (Some TREASURY) (Some "TOP_UP") (Some (Number_of_Z 100)) (Some "GOLD")).

Definition self_top_up : Outcome Response * World :=
  processTransaction self_top_up_request world.

(** POST /transactions: Bob's overspend, and its replay. *)
Definition overspend_request : Request :=
  mkRequest (Some "k3")
            (mkBody (Some BOB) (Some "SPEND") (Some (Number_of_Z 10000)) (Some "GOLD")).

Definition overspend_posted : Outcome Response * World :=
  processTransaction overspend_request world.

Definition overspend_replayed : Outcome Response * World :=
  processTransaction overspend_request (snd overspend_posted).

(** The top-up when the store answers the locking reads as given. *)
Definition top_up_under (answers : list (option PgError))
  : Outcome TransactionResult * World :=
  executeTransaction "k1" TREASURY ALICE "GOLD" (Number_of_Z 100) TOP_UP
                     (set_contention answers world).

Definition pauses (w : World) : list Event :=
  List.filter (fun e => match e with EvSetTimeout _ => true | _ => false end)
              (trace w).

Definition attempts (w : World) : nat :=
  length (List.filter (fun e => match e with EvBegin => true | _ => false end)
                      (trace w)).

(** Two top-ups of 0.1 GOLD for Alice, who holds 100, under keys k6 and
    k7. *)
Definition dime : number := Number_literal 1 10.

Definition first_dime : Outcome TransactionResult * World :=
  executeTransaction "k6" TREASURY ALICE "GOLD" dime TOP_UP world.

Definition second_dime : Outcome TransactionResult * World :=
  executeTransaction "k7" TREASURY ALICE "GOLD" dime TOP_UP (snd first_dime).

(** A SPEND of 100 GOLD by the treasury itself: both endpoints are the
    treasury. *)
Definition self_spend : Outcome TransactionResult * World :=
  executeTransaction "k8" TREASURY TREASURY "GOLD" (Number_of_Z 100) SPEND world.

(** A top-up of 0.00015 GOLD for Bob, and one of 0.00001 GOLD. *)
Definition sliver : number := Number_literal 15 100000.

Definition sliver_top_up : Outcome TransactionResult * World :=
  executeTransaction "k9" TREASURY BOB "GOLD" sliver TOP_UP world.

Definition speck : number := Number_literal 1 100000.

Definition speck_top_up : Outcome TransactionResult * World :=
  executeTransaction "k10" TREASURY BOB "GOLD" speck TOP_UP world.

(** A top-up in an asset that is not seeded. *)
Definition unknown_asset : Outcome TransactionResult * World :=
  executeTransaction "k11" TREASURY ALICE "SILVER" (Number_of_Z 100) TOP_UP world.

End Scenario.

(** * The other read projections and their handler *)

(** [getBalance], [getLedger] and [getTransactionById] only read the
    tables: they are functions of the store. *)

(** ** [WalletService.getBalance] *)

Definition getBalance (userId assetSymbol : string) (s : Store) : Outcome number :=
  match find_asset s assetSymbol with
  | None => Throw (NotFoundError ("Asset " ++ assetSymbol ++ " not found"))
  | Some asset =>
    match List.find (fun u => String.eqb (user_id u) userId) (users s) with
    | None => Throw (NotFoundError ("User " ++ userId ++ " not found"))
    | Some _ =>
      match find_wallet s userId (asset_id asset) with
      | None =>
        Throw (NotFoundError ("No " ++ assetSymbol ++ " wallet found for user "
                              ++ userId))
      | Some wallet => Ok (Number_of_decimal (wallet_balance wallet))
      end
    end
  end.

(** ** [WalletService.getLedger] *)

Record LedgerOptions : Type := mkLedgerOptions {
  ledger_assetSymbol : option string;
  ledger_limit : option Z;
  ledger_offset : option Z
}.

(** A ledger row with the relations of
    [include: { wallet: { include: { asset } }, transaction: { select } }]. *)
Record LedgerEntryWithRelations : Type := mkLedgerEntryWithRelations {
  entry : LedgerEntry;
  entry_wallet : Wallet;
  entry_asset : Asset;
  entry_transaction : Transaction
}.

Definition transaction_by_id (s : Store) (id : nat) : option Transaction :=
  List.find (fun t => Nat.eqb (tx_id t) id) (transactions s).

Definition entry_with_relations (s : Store) (e : LedgerEntry)
  : option LedgerEntryWithRelations :=
  match wallet_by_id s (le_wallet_id e), transaction_by_id s (le_transaction_id e) with
  | Some x, Some t =>
    match asset_by_id s (wallet_asset_id x) with
    | Some a => Some (mkLedgerEntryWithRelations e x a t)
    | None => None
    end
  | _, _ => None
  end.

(** The [walletFilter] of the service: the user's wallets, and the asset
    when a symbol is given. *)
Definition walletFilter (userId : string) (assetSymbol : option string)
    (r : LedgerEntryWithRelations) : bool :=
  String.eqb (wallet_user_id (entry_wallet r)) userId
  && match truthy assetSymbol with
     | Some symbol => String.eqb (asset_symbol (entry_asset r)) symbol
     | None => true
     end.

Fixpoint insert_entry_desc (r : LedgerEntryWithRelations)
    (l : list LedgerEntryWithRelations) : list LedgerEntryWithRelations :=
  match l with
  | [] => [r]
  | y :: l' =>
    if (le_created_at (entry y) <? le_created_at (entry r))%nat
    then r :: l
    else y :: insert_entry_desc r l'
  end.

(** The rows selected by [walletFilter], newest first. *)
Definition ledger_selection (s : Store) (userId : string)
    (assetSymbol : option string) : list LedgerEntryWithRelations :=
  fold_right insert_entry_desc []
    (List.filter (walletFilter userId assetSymbol)
       (omap (entry_with_relations s) (ledger_entries s))).

Record LedgerItem : Type := mkLedgerItem {
  ledger_item_id : nat;
  ledger_item_entryType : EntryType;
  ledger_item_amount : string;
  ledger_item_balanceAfter : string;
  ledger_item_assetSymbol : string;
  ledger_item_txId : nat;
  ledger_item_txType : TransactionType;
  ledger_item_createdAt : nat
}.

Definition ledger_item (r : LedgerEntryWithRelations) : LedgerItem :=
  mkLedgerItem (le_id (entry r)) (le_entry_type (entry r))
    (Decimal_toString (le_amount (entry r)))
    (Decimal_toString (le_balance_after (entry r)))
    (asset_symbol (entry_asset r)) (le_transaction_id (entry r))
    (tx_type (entry_transaction r)) (le_created_at (entry r)).

Record LedgerPage : Type := mkLedgerPage {
  entries : list LedgerItem;
  ledger_pagination : Pagination
}.

Definition getLedger (userId : string) (options : LedgerOptions) (s : Store)
  : Outcome LedgerPage :=
  let limit := default 50 (ledger_limit options) in
  let offset := default 0 (ledger_offset options) in
  if (limit <? 1) || (limit >? 500)
  then Throw (ValidationError "Limit must be between 1 and 500")
  else if offset <? 0
  then Throw (ValidationError "Offset must be non-negative")
  else
    match List.find (fun u => String.eqb (user_id u) userId) (users s) with
    | None => Throw (NotFoundError ("User " ++ userId ++ " not found"))
    | Some _ =>
      let selected := ledger_selection s userId (ledger_assetSymbol options) in
      let total := Z.of_nat (length selected) in
      let entries := firstn (Z.to_nat limit) (skipn (Z.to_nat offset) selected) in
      Ok (mkLedgerPage
            (List.map ledger_item entries)
            (mkPagination total limit offset (Z.of_nat (length entries))
               (offset + Z.of_nat (length entries) <? total)))
    end.

(** ** [WalletService.getTransactionById] *)

Record LedgerLine : Type := mkLedgerLine {
  line_entryType : EntryType;
  line_walletId : nat;
  line_amount : string;
  line_balanceAfter : string
}.

Record TransactionDetail : Type := mkTransactionDetail {
  detail_id : nat;
  detail_idempotencyKey : string;
  detail_type : TransactionType;
  detail_amount : string;
  detail_assetSymbol : string;
  detail_fromUser : string;
  detail_toUser : string;
  detail_status : string;
  detail_createdAt : nat;
  detail_ledger : list LedgerLine
}.

Definition ledger_line (e : LedgerEntry) : LedgerLine :=
  mkLedgerLine (le_entry_type e) (le_wallet_id e)
    (Decimal_toString (le_amount e))
    (Decimal_toString (le_balance_after e)).

Definition getTransactionById (transactionId : nat) (s : Store)
  : Outcome TransactionDetail :=
  match List.find (fun r => Nat.eqb (tx_id (row r)) transactionId)
                  (omap (with_relations s) (transactions s)) with
  | None =>
    Throw (NotFoundError
             ("Transaction " ++ NilZero.string_of_uint (Nat.to_uint transactionId)
              ++ " not found"))
  | Some r =>
    Ok (mkTransactionDetail
          (tx_id (row r)) (tx_idempotency_key (row r)) (tx_type (row r))
          (Decimal_toString (tx_amount (row r)))
          (asset_symbol (from_asset r))
          (wallet_user_id (from_wallet r)) (wallet_user_id (to_wallet r))
          (tx_status (row r)) (tx_created_at (row r))
          (List.map ledger_line (ledger_of s transactionId)))
  end.

(** ** [WalletController.getBalance] *)

(** [AppError.statusCode] for the application errors, 500 for the rest. *)
Definition error_status (e : Error) : Z :=
  match e with
  | ValidationError _ => 400
  | NotFoundError _ => 404
  | _ => StatusCodes.INTERNAL_SERVER_ERROR
  end.

Definition is_whitespace (c : ascii) : bool :=
  let n := nat_of_ascii c in
  ((9 <=? n) && (n <=? 13) || (n =? 32))%nat.

(** [!s.trim()] on ASCII strings: nothing but white space. *)
Fixpoint is_blank (s : string) : bool :=
  match s with
  | EmptyString => true
  | String c s' => is_whitespace c && is_blank s'
  end.





Inductive BalanceJson : Type :=
| BalanceBody (userId assetSymbol : string) (balance : number)
| BalanceError (error : string).

Record BalanceResponse : Type := mkBalanceResponse {
  balance_statusCode : Z;
  balance_json : BalanceJson
}.

(** [req.params.userId] and [req.query.asset]. *)
Definition getBalance_handler (userId : string) (asset : option string)
    (s : Store) : BalanceResponse :=
  let assetSymbol := toUpperCase (default "GOLD" (truthy asset)) in
  if is_blank userId
  then mkBalanceResponse StatusCodes.BAD_REQUEST (BalanceError "userId is required")
  else
    match getBalance userId assetSymbol s with
    | Ok balance =>
      mkBalanceResponse StatusCodes.OK (BalanceBody userId assetSymbol balance)
    | Throw error =>
      mkBalanceResponse (error_status error) (BalanceError (error_message error))
    end.

(** ** Vocabulary of the further properties *)

Definition sum_balances (l : list Wallet) : Z :=
  fold_right Z.add 0 (List.map wallet_balance l).

Definition total_balance (s : Store) : Z :=
  fold_right Z.add 0 (List.map wallet_balance (wallets s)).

Definition balances_nonnegative (s : Store) : Prop :=
  Forall (fun x => 0 <= wallet_balance x) (wallets s).

Definition wallet_ids_unique (s : Store) : Prop :=
  List.NoDup (List.map wallet_id (wallets s)).

(** A computation that leaves the cache and the memoized treasury id
    alone and at most consumes answers of the store to locking reads. *)
Definition frames {A} (c : M A) : Prop :=
  forall w,
    fic (snd (c w)) = fic w /\
    treasuryId (snd (c w)) = treasuryId w /\
    exists used, contention w = (used ++ contention (snd (c w)))%list.

(** A computation during which no timer runs: the wall clock reads the
    same when it ends. *)
Definition timeless {A} (c : M A) : Prop :=
  forall w, now (snd (c w)) = now w.

(** A computation that changes what the cache holds under [key] at most. *)
Definition writes_cache_at (key : string) {A} (c : M A) : Prop :=
  forall w other, other <> key -> fic (snd (c w)) !! other = fic w !! other.

(** The worlds the service comes to from [w]: time passes, requests are
    processed. *)
Inductive later (w : World) : World -> Prop :=
| later_now : later w w
| later_elapse w1 ms : later w w1 -> 0 <= ms -> later w (elapse ms w1)
| later_request w1 req o w2 :
    later w w1 -> processTransaction req w1 = (o, w2) -> later w w2.

(** The world once a free key has been reserved by
    [checkAndReserveIdempotencyKey]. *)
Definition reserved (key : string) (w : World) : World :=
  set_fic (<[cache_key key
             := (CachedProcessing None, now w + IDEMPOTENCY.PROCESSING_TTL * 1000)]>
             (fic w))
    (emit_world (EvRedisSet (cache_key key) IDEMPOTENCY.PROCESSING_TTL true)
       (emit_world (EvRedisGet (cache_key key)) w)).

(** The cache holds [value] under the key of [key], written just now by
    [saveIdempotencyResult]. *)
Definition saved (key : string) (value : CachedResponse) (w : World) : Prop :=
  fic w !! cache_key key = Some (value, now w + IDEMPOTENCY.CACHE_TTL * 1000).

(** The endpoints the controller resolves for a parsed request. *)
Definition resolved_from (treasury : string) (p : TransactionPayload) : string :=
  if is_credit_type (type p) then treasury else userId p.

Definition resolved_to (treasury : string) (p : TransactionPayload) : string :=
  if is_credit_type (type p) then userId p else treasury.

(** The three ways a request is answered when the cache does not hold its
    key: refused by the schema, executed, or failed. *)
Inductive miss_outcome (req : Request) (key : string) (w : World)
    (resp : Response) (w' : World) : Prop :=
| miss_invalid :
    transactionSchema_safeParse (body req) = None ->
    resp = mkResponse StatusCodes.BAD_REQUEST JsonValidationFailed ->
    saved key (CachedFailed "Validation failed") w' ->
    db w' = db w ->
    miss_outcome req key w resp w'
| miss_executed p treasury w2 r w3 :
    transactionSchema_safeParse (body req) = Some p ->
    getTreasuryId (reserved key w) = (Ok treasury, w2) ->
    executeTransaction key (resolved_from treasury p) (resolved_to treasury p)
                       (assetSymbol p) (amount p) (type p) w2 = (Ok r, w3) ->
    resp = mkResponse StatusCodes.OK (JsonResult r) ->
    saved key (CachedSuccess (txId r) (balance r)) w' ->
    db w' = db w3 ->
    miss_outcome req key w resp w'
| miss_failed p e w3 :
    transactionSchema_safeParse (body req) = Some p ->
    (getTreasuryId (reserved key w) = (Throw e, w3)
     \/ exists treasury w2,
          getTreasuryId (reserved key w) = (Ok treasury, w2) /\
          executeTransaction key (resolved_from treasury p) (resolved_to treasury p)
                             (assetSymbol p) (amount p) (type p) w2
          = (Throw e, w3)) ->
    resp = mkResponse
             (if includes (error_message e) "not found"
                 || includes (error_message e) "Insufficient funds"
              then StatusCodes.BAD_REQUEST
              else StatusCodes.INTERNAL_SERVER_ERROR)
             (JsonFailed (error_message e)) ->
    saved key (CachedFailed (error_message e)) w' ->
    db w' = db w3 ->
    miss_outcome req key w resp w'.

(** ** Further runs on the seeded store *)

Module Runs.

Import Seed.

(** POST /transactions: TOP_UP 100 gold for Alice under key k1, and the
    same key again with another body. *)
Definition top_up_request : Request :=
  mkRequest (Some "k1")
            (mkBody (Some ALICE) (Some "TOP_UP") (Some (Number_of_Z 100)) (Some "gold")).

Definition top_up_posted : Outcome Response * World :=
  processTransaction top_up_request world.

Definition other_body_request : Request :=
  mkRequest (Some "k1")
            (mkBody (Some BOB) (Some "SPEND") (Some (Number_of_Z 5)) (Some "DIAMOND")).

(** POST /transactions for an asset that is not seeded. *)
Definition silver_request : Request :=
  mkRequest (Some "k8")
            (mkBody (Some ALICE) (Some "TOP_UP") (Some (Number_of_Z 100)) (Some "silver")).

(** Alice's wallet filled to the last unit a DECIMAL(18,4) column holds. *)
Definition full_store : Store :=
  with_wallets
    [ mkWallet 0 TREASURY GOLD_ID (units 1000000);
      mkWallet 2 ALICE GOLD_ID (units 99999999999999) ]
    store.

Definition full_world : World := set_db full_store world.

(** A top-up whose credit overflows the column after the debit was
    written. *)
Definition overflowing_top_up : Outcome TransactionResult * World :=
  executeTransaction "k1" TREASURY ALICE "GOLD" (Number_of_Z 100) TOP_UP full_world.

(** A self-transfer of the treasury, at the service. *)
Definition self_transfer : Outcome TransactionResult * World :=
  executeTransaction "k5" TREASURY TREASURY "GOLD" (Number_of_Z 100) TOP_UP world.

(** The first page of two entries of the treasury's GOLD ledger. *)
Definition ledger_options : LedgerOptions :=
  mkLedgerOptions (Some "GOLD") (Some 2) (Some 0).

(** The treasury holding 10^13 GOLD, and a self-transfer of 0.0001 GOLD:
    next to 10^13 a double cannot tell 0.0001 apart. *)
Definition vault_store : Store :=
  with_wallets [ mkWallet 0 TREASURY GOLD_ID (units 10000000000000) ] store.

Definition vault_world : World := set_db vault_store world.

Definition mite : number := Number_literal 1 10000.

Definition vault_self_transfer : Outcome TransactionResult * World :=
  executeTransaction "k5" TREASURY TREASURY "GOLD" mite TOP_UP vault_world.

(** Five seconds after Alice's top-up was answered a request under
    another key is processed, and another second passes. *)
Definition after_other_request : World :=
  elapse 1000
    (snd (processTransaction silver_request (elapse 5000 (snd top_up_posted)))).

(** An action that fails with the error of the database driver itself,
    whose [code] is the SQLSTATE, as long as the store refuses, and then
    returns 7. *)
Definition driver_error (e : PgError) : Error :=
  DbError (Some (sqlstate e)) (pg_message e).

Definition flaky : M Z :=
  fun w =>
    match contention w with
    | Some e :: rest => (Throw (driver_error e), set_contention rest w)
    | _ => (Ok 7, w)
    end.

End Runs.

(** * Properties *)

(** ** Running computations step by step *)

Lemma bind_Ok_inv {A B} (c : M A) (k : A -> M B) w b w' :
  bind c k w = (Ok b, w') ->
  exists a w1, c w = (Ok a, w1) /\ k a w1 = (Ok b, w').
Proof.
  unfold bind. destruct (c w) as [[a | e] w1]; intros H.
  - exists a, w1. split; [reflexivity | exact H].
  - discriminate H.
Qed.

Lemma bind_Throw_inv {A B} (c : M A) (k : A -> M B) w e w' :
  bind c k w = (Throw e, w') ->
  c w = (Throw e, w') \/ exists a w1, c w = (Ok a, w1) /\ k a w1 = (Throw e, w').
Proof.
  unfold bind. destruct (c w) as [[a | e0] w1]; intros H.
  - right. exists a, w1. split; [reflexivity | exact H].
  - left. inversion H; subst. reflexivity.
Qed.

Lemma bind_run_Ok {A B} (c : M A) (k : A -> M B) w a w1 :
  c w = (Ok a, w1) -> bind c k w = k a w1.
Proof. intros H. unfold bind. rewrite H. reflexivity. Qed.

Lemma bind_run_Throw {A B} (c : M A) (k : A -> M B) w e w1 :
  c w = (Throw e, w1) -> bind c k w = (Throw e, w1).
Proof. intros H. unfold bind. rewrite H. reflexivity. Qed.

(** ** What each store call does to the tables *)

Lemma wallet_update_Ok id bal w u w' :
  wallet_update id bal w = (Ok u, w') ->
  exists z, to_decimal bal = Some z /\ 0 <= z /\
    db w' = with_wallets (List.map (set_balance id z) (wallets (db w))) (db w) /\
    clock w' = clock w.
Proof.
  unfold wallet_update. cbn [db emit_world].
  destruct (to_decimal bal) as [z |]; [| discriminate].
  destruct (negb _); [discriminate |].
  destruct (z <? 0) eqn:Hz; [discriminate |].
  intros H. inversion H; subst. exists z.
  apply Z.ltb_ge in Hz. auto.
Qed.

Lemma transaction_create_Ok key f t amount ty st w row w' :
  transaction_create key f t amount ty st w = (Ok row, w') ->
  exists a, to_decimal amount = Some a /\ 0 < a /\
    find_transaction (db w) key = None /\
    row = mkTransaction (next_uuid (db w)) key f t a ty st (clock w) /\
    db w' = mkStore (assets (db w)) (users (db w)) (wallets (db w))
                    (transactions (db w) ++ [row]) (ledger_entries (db w))
                    (S (next_uuid (db w))) /\
    clock w' = clock w.
Proof.
  unfold transaction_create. cbn [db clock emit_world]. cbv zeta.
  destruct (to_decimal amount) as [a |]; [| discriminate].
  destruct (255 <? String.length key)%nat; [discriminate |].
  destruct (a <=? 0) eqn:Ha; [discriminate |].
  destruct (existsb _ _) eqn:Hex; [discriminate |].
  intros H. inversion H; subst. exists a.
  apply Z.leb_gt in Ha.
  repeat split; auto.
  unfold find_transaction.
  destruct (List.find _ _) as [x |] eqn:Hf; [| reflexivity].
  apply find_some in Hf. destruct Hf as [Hin Hk].
  assert (existsb (fun t0 => String.eqb (tx_idempotency_key t0) key)
                  (transactions (db w)) = true) as Habs.
  { apply existsb_exists. exists x. split; assumption. }
  rewrite Habs in Hex. discriminate.
Qed.

Lemma ledgerEntry_createMany_two_Ok id d c w u w' :
  ledgerEntry_createMany id [d; c] w = (Ok u, w') ->
  exists ad bd ac bc,
    to_decimal (in_amount d) = Some ad /\ to_decimal (in_balance_after d) = Some bd /\
    to_decimal (in_amount c) = Some ac /\ to_decimal (in_balance_after c) = Some bc /\
    db w' = mkStore (assets (db w)) (users (db w)) (wallets (db w))
              (transactions (db w))
              (ledger_entries (db w) ++
                 [ mkLedgerEntry (next_uuid (db w)) (in_transaction_id d)
                     (in_wallet_id d) (in_entry_type d) ad bd (clock w);
                   mkLedgerEntry (S (next_uuid (db w))) (in_transaction_id c)
                     (in_wallet_id c) (in_entry_type c) ac bc (clock w) ])
              (next_uuid (db w) + 2)%nat.
Proof.
  unfold ledgerEntry_createMany. cbn [db clock emit_world]. cbv zeta.
  cbn [ledger_rows].
  destruct (to_decimal (in_amount d)) as [ad |]; [| discriminate].
  destruct (to_decimal (in_balance_after d)) as [bd |]; [| discriminate].
  destruct (ad <=? 0); [discriminate |].
  destruct (to_decimal (in_amount c)) as [ac |]; [| discriminate].
  destruct (to_decimal (in_balance_after c)) as [bc |]; [| discriminate].
  destruct (ac <=? 0); [discriminate |].
  intros H. inversion H; subst. exists ad, bd, ac, bc. cbn [length]. auto.
Qed.

Lemma selectForUpdate_Ok a b c w u w' :
  executeRaw_selectForUpdate a b c w = (Ok u, w') ->
  db w' = db w /\ clock w' = clock w.
Proof.
  unfold executeRaw_selectForUpdate. simpl.
  destruct (contention w) as [| [e |] rest]; intros H; inversion H; subst; auto.
Qed.

(** ** The two outcomes of a transfer *)

Lemma transfer_Ok key from to sym asset amount ty w r w' :
  transfer key from to sym asset amount ty w = (Ok r, w') ->
  transfer_outcome (db w) key from to asset amount ty r (db w').
Proof.
  intros H. unfold transfer in H.
  apply bind_Ok_inv in H as (u & w1 & H1 & H).
  unfold executeRaw_setLockTimeout, emit in H1. inversion H1; subst; clear H1.
  apply bind_Ok_inv in H as (ex & w2 & H2 & H).
  unfold transaction_findUnique in H2. inversion H2; subst; clear H2.
  cbn [db emit_world] in H.
  destruct (find_transaction (db w) key) as [existing |] eqn:Hfind.
  - unfold ret in H. inversion H; subst.
    eapply outcome_duplicate; eauto.
  - destruct (lock_order from to) as [lockA lockB].
    apply bind_Ok_inv in H as (u1 & w3 & H3 & H).
    apply selectForUpdate_Ok in H3 as [Hdb3 Hck3]. cbn [db clock emit_world] in Hdb3, Hck3.
    apply bind_Ok_inv in H as (fw & w4 & H4 & H).
    unfold wallet_findUnique in H4. inversion H4; subst; clear H4.
    apply bind_Ok_inv in H as (tw & w5 & H5 & H).
    unfold wallet_findUnique in H5. inversion H5; subst; clear H5.
    cbn [db clock emit_world] in H. rewrite Hdb3 in H.
    destruct (find_wallet (db w) from (asset_id asset)) as [fw |] eqn:Hfw;
      [| discriminate H].
    destruct (find_wallet (db w) to (asset_id asset)) as [tw |] eqn:Htw;
      [| discriminate H].
    destruct (num_lt (Number_of_decimal (wallet_balance fw)) (Number_of_Z 0))
      eqn:Hneg; [discriminate H |].
    destruct (num_lt (Number_of_decimal (wallet_balance fw)) amount) eqn:Hlt;
      [discriminate H |].
    fold (newFromBalance fw amount) in H. fold (newToBalance tw amount) in H.
    apply bind_Ok_inv in H as (u6 & w6 & H6 & H).
    apply wallet_update_Ok in H6 as (z1 & Hz1 & Hz1pos & Hdb6 & Hck6).
    apply bind_Ok_inv in H as (u7 & w7 & H7 & H).
    apply wallet_update_Ok in H7 as (z2 & Hz2 & Hz2pos & Hdb7 & Hck7).
    apply bind_Ok_inv in H as (savedTx & w8 & H8 & H).
    apply transaction_create_Ok in H8 as (a & Ha & Hapos & Hnone & Hrow & Hdb8 & Hck8).
    apply bind_Ok_inv in H as (u9 & w9 & H9 & H).
    apply ledgerEntry_createMany_two_Ok in H9
      as (ad & bd & ac & bc & Hd1 & Hd2 & Hc1 & Hc2 & Hdb9).
    unfold ret in H. inversion H; subst r w'. clear H.
    cbn [in_amount in_balance_after in_transaction_id in_wallet_id in_entry_type]
      in Hd1, Hd2, Hc1, Hc2, Hdb9.
    rewrite Ha in Hd1, Hc1. injection Hd1 as <-. injection Hc1 as <-.
    rewrite Hz1 in Hd2. injection Hd2 as <-.
    rewrite Hz2 in Hc2. injection Hc2 as <-.
    subst savedTx. cbn [db clock emit_world tx_id] in *.
    assert (db w7 = with_wallets (debit_then_credit (db w) fw tw z1 z2) (db w)) as E7.
    { rewrite Hdb7, Hdb6. cbn [wallets with_wallets]. rewrite Hdb3.
      unfold debit_then_credit, with_wallets. reflexivity. }
    assert (clock w8 = clock w7) as E8 by congruence.
    eapply outcome_committed with (fw := fw) (tw := tw) (a := a) (newFrom := z1)
                                  (newTo := z2) (created_at := clock w7); eauto.
    + constructor; assumption.
    + rewrite E7. reflexivity.
    + rewrite Hdb9, Hdb8. cbn [assets users wallets transactions ledger_entries
                               next_uuid]. rewrite Hck8, E7.
      unfold committed, new_transaction, new_ledger_entries, with_wallets.
      cbn [assets users wallets transactions ledger_entries next_uuid].
      reflexivity.
Qed.

(** ** Transactions roll back, retries start from the same tables *)

Lemma prisma_transaction_Ok {A} (body : M A) w a w' :
  prisma_transaction body w = (Ok a, w') ->
  exists w1 w2, db w1 = db w /\ body w1 = (Ok a, w2) /\ db w' = db w2.
Proof.
  unfold prisma_transaction.
  destruct (body _) as [[x | e] w2] eqn:Hb; intros H; inversion H; subst.
  eexists _, w2. split; [| split; [exact Hb | reflexivity]]. reflexivity.
Qed.

Lemma prisma_transaction_Throw {A} (body : M A) w e w' :
  prisma_transaction body w = (Throw e, w') -> db w' = db w.
Proof.
  unfold prisma_transaction.
  destruct (body _) as [[x | e0] w2]; intros H; inversion H; subst.
  reflexivity.
Qed.

Section Retry.

Context {T : Type} (fn : M T).
Hypothesis fn_rolls_back : forall w e w', fn w = (Throw e, w') -> db w' = db w.

Lemma withRetry_from_Ok maxAttempts fuel : forall attempt w v w',
  withRetry_from fn maxAttempts attempt fuel w = (Ok v, w') ->
  exists w1, db w1 = db w /\ fn w1 = (Ok v, w').
Proof using fn_rolls_back.
  induction fuel as [| fuel IH]; intros attempt w v w' H; simpl in H.
  - discriminate H.
  - destruct (fn w) as [[x | e] w1] eqn:Hfn.
    + inversion H; subst. exists w. auto.
    + destruct (isRetryable e && (attempt <? maxAttempts)%nat); [| discriminate H].
      unfold bind, setTimeout in H.
      apply IH in H as (w2 & Hdb & Hrun).
      exists w2. split; [| exact Hrun].
      rewrite Hdb. simpl. eapply fn_rolls_back; eauto.
Qed.

Lemma withRetry_from_Throw maxAttempts fuel : forall attempt w e w',
  withRetry_from fn maxAttempts attempt fuel w = (Throw e, w') ->
  db w' = db w.
Proof using fn_rolls_back.
  induction fuel as [| fuel IH]; intros attempt w e w' H; simpl in H.
  - inversion H; reflexivity.
  - destruct (fn w) as [[x | e0] w1] eqn:Hfn; [discriminate H |].
    destruct (isRetryable e0 && (attempt <? maxAttempts)%nat).
    + unfold bind, setTimeout in H. apply IH in H. rewrite H. simpl.
      eapply fn_rolls_back; eauto.
    + inversion H; subst. eapply fn_rolls_back; eauto.
Qed.

End Retry.

(** Validation of the amount, as the two guards of the service decide it. *)
Lemma amount_guards amount :
  amount_rejected amount = false <->
  num_le amount (Number_of_Z 0) || negb (isFinite amount) = false /\
  num_gt amount (Number_of_Z TRANSACTION_LIMITS.MAX_AMOUNT) = false.
Proof.
  unfold amount_rejected. rewrite orb_false_iff. tauto.
Qed.

Lemma executeTransaction_Ok key from to sym amount ty w r w' :
  executeTransaction key from to sym amount ty w = (Ok r, w') ->
  exists asset,
    amount_rejected amount = false /\
    find_asset (db w) sym = Some asset /\
    transfer_outcome (db w) key from to asset amount ty r (db w').
Proof.
  unfold executeTransaction. intros H.
  destruct (num_le amount (Number_of_Z 0) || negb (isFinite amount)) eqn:G1;
    [discriminate H |].
  destruct (num_gt amount (Number_of_Z TRANSACTION_LIMITS.MAX_AMOUNT)) eqn:G2;
    [discriminate H |].
  apply bind_Ok_inv in H as (oa & w1 & H1 & H).
  unfold asset_findUnique in H1. inversion H1; subst oa w1; clear H1.
  destruct (find_asset (db w) sym) as [asset |] eqn:Hasset; [| discriminate H].
  unfold withRetry in H.
  apply withRetry_from_Ok in H as (w2 & Hdb2 & H);
    [| intros ? ? ?; apply prisma_transaction_Throw].
  apply prisma_transaction_Ok in H as (w3 & w4 & Hdb3 & H & Hdb4).
  apply transfer_Ok in H.
  exists asset. split; [apply amount_guards; auto |]. split; [reflexivity |].
  rewrite Hdb4. rewrite Hdb3, Hdb2 in H. exact H.
Qed.

Lemma executeTransaction_Throw key from to sym amount ty w e w' :
  executeTransaction key from to sym amount ty w = (Throw e, w') ->
  db w' = db w.
Proof.
  unfold executeTransaction. intros H.
  destruct (num_le amount (Number_of_Z 0) || negb (isFinite amount));
    [apply (f_equal snd) in H; unfold throw in H; cbn [snd] in H; subst w'; reflexivity |].
  destruct (num_gt amount (Number_of_Z TRANSACTION_LIMITS.MAX_AMOUNT));
    [apply (f_equal snd) in H; unfold throw in H; cbn [snd] in H; subst w'; reflexivity |].
  apply bind_Throw_inv in H as [H | (oa & w1 & H1 & H)].
  - unfold asset_findUnique in H. discriminate H.
  - unfold asset_findUnique in H1. inversion H1; subst oa w1; clear H1.
    destruct (find_asset (db w) sym) as [asset |].
    + unfold withRetry in H. apply withRetry_from_Throw in H.
      * exact H.
      * intros ? ? ?; apply prisma_transaction_Throw.
    + inversion H; reflexivity.
Qed.

(** ** The double-entry invariant of the tables *)


Lemma NoDup_snoc {A} (l : list A) (x : A) :
  List.NoDup l -> ~ In x l -> List.NoDup (l ++ [x]).
Proof.
  induction l as [| y l IH]; intros Hnd Hin; simpl.
  - constructor; [intros H; inversion H | constructor].
  - inversion Hnd as [| ? ? Hy Hl]; subst.
    apply List.NoDup_cons.
    + rewrite in_app_iff. intros [H | [H | []]].
      * contradiction.
      * apply Hin. left. symmetry. exact H.
    + apply IH; [assumption |]. intros H. apply Hin. right. exact H.
Qed.

Lemma find_transaction_None s key :
  find_transaction s key = None ->
  ~ In key (List.map tx_idempotency_key (transactions s)).
Proof.
  unfold find_transaction. intros H Hin.
  apply in_map_iff in Hin as (t & Hk & Hin).
  eapply find_none in H; [| exact Hin]. simpl in H.
  rewrite Hk, String.eqb_refl in H. discriminate H.
Qed.

Lemma find_transaction_Some s key t :
  find_transaction s key = Some t ->
  In t (transactions s) /\ tx_idempotency_key t = key.
Proof.
  unfold find_transaction. intros H. apply find_some in H as [Hin Hk].
  apply String.eqb_eq in Hk. auto.
Qed.

Lemma ledger_of_other s id :
  Forall (fun e => (le_transaction_id e < id)%nat) (ledger_entries s) ->
  ledger_of s id = [].
Proof.
  unfold ledger_of. induction (ledger_entries s) as [| e l IH]; intros H.
  - reflexivity.
  - inversion H as [| ? ? He Hl]; subst. simpl.
    destruct (Nat.eqb_spec (le_transaction_id e) id) as [Heq | _]; [lia |].
    apply IH. exact Hl.
Qed.

Lemma ledger_of_committed_old s key fw tw a nf nt ty now id :
  (id < next_uuid s)%nat ->
  ledger_of (committed s key fw tw a nf nt ty now) id = ledger_of s id.
Proof.
  intros Hid. unfold ledger_of, committed, new_ledger_entries. simpl.
  rewrite List.filter_app. simpl.
  destruct (Nat.eqb_spec (next_uuid s) id) as [Heq | _]; [lia |].
  apply app_nil_r.
Qed.

Lemma ledger_of_committed_new s key fw tw a nf nt ty now :
  consistent s ->
  ledger_of (committed s key fw tw a nf nt ty now) (next_uuid s)
  = new_ledger_entries s fw tw a nf nt now.
Proof.
  intros Hc. unfold ledger_of, committed. simpl.
  rewrite List.filter_app.
  fold (ledger_of s (next_uuid s)).
  rewrite ledger_of_other by apply (ledger_refs_below _ Hc).
  unfold new_ledger_entries. simpl. rewrite Nat.eqb_refl. reflexivity.
Qed.

Lemma committed_consistent s key fw tw a nf nt ty now :
  consistent s ->
  find_transaction s key = None ->
  consistent (committed s key fw tw a nf nt ty now).
Proof.
  intros Hc Hnone. constructor.
  - simpl. apply Forall_app. split.
    + eapply List.Forall_impl; [| apply (tx_ids_below _ Hc)]. simpl. intros; lia.
    + constructor; [simpl; lia | constructor].
  - simpl. apply Forall_app. split.
    + eapply List.Forall_impl; [| apply (ledger_refs_below _ Hc)]. simpl. intros; lia.
    + unfold new_ledger_entries.
      constructor; [simpl; lia |]. constructor; [simpl; lia | constructor].
  - simpl. rewrite List.map_app. simpl. apply NoDup_snoc.
    + apply (keys_unique _ Hc).
    + apply find_transaction_None. exact Hnone.
  - simpl. apply Forall_app. split.
    + pose proof (tx_ids_below _ Hc) as Hids.
      pose proof (entries_paired _ Hc) as Hp.
      rewrite List.Forall_forall in *. intros t Hin.
      destruct (Hp t Hin) as (d & c & Hl & Hrest).
      exists d, c. split; [| exact Hrest].
      rewrite ledger_of_committed_old by (apply Hids; exact Hin). exact Hl.
    + constructor; [| constructor].
      eexists _, _. split.
      * unfold new_transaction at 1. cbn [tx_id].
        apply ledger_of_committed_new. exact Hc.
      * simpl. repeat split.
Qed.

Lemma transfer_outcome_consistent s key from to asset amount ty r s' :
  consistent s ->
  transfer_outcome s key from to asset amount ty r s' ->
  consistent s'.
Proof.
  intros Hc [t _ _ -> | fw tw a nf nt now Hnone _ _ _ _ _ _ ->].
  - exact Hc.
  - apply committed_consistent; assumption.
Qed.

Lemma executeTransaction_consistent key from to sym amount ty w o w' :
  consistent (db w) ->
  executeTransaction key from to sym amount ty w = (o, w') ->
  consistent (db w').
Proof.
  intros Hc H. destruct o as [r | e].
  - apply executeTransaction_Ok in H as (asset & _ & _ & Hout).
    eapply transfer_outcome_consistent; eauto.
  - apply executeTransaction_Throw in H. rewrite H. exact Hc.
Qed.

Lemma reachable_consistent s : reachable s -> consistent s.
Proof.
  induction 1 as [s Ht Hl | w key from to sym amount ty o w' _ IH H].
  - constructor; rewrite ?Ht, ?Hl; simpl; constructor.
  - eapply executeTransaction_consistent; eauto.
Qed.

(** ** Numbers read from a column *)

Lemma binary_round_aux_not_negative mx ex lx :
  SFltb (binary_round_aux prec emax false mx ex lx) (S754_zero false) = false.
Proof.
  unfold binary_round_aux.
  destruct (shr_fexp prec emax mx ex lx) as [mrs e1].
  destruct (shr_fexp prec emax _ e1 loc_Exact) as [mrs2 e2].
  destruct (shr_m mrs2); [reflexivity | | reflexivity].
  destruct (e2 <=? emax - prec); reflexivity.
Qed.

(** A stored balance that is not negative does not read as a negative
    number. *)
Lemma Number_of_decimal_not_negative z :
  0 <= z -> num_lt (Number_of_decimal z) (Number_of_Z 0) = false.
Proof.
  destruct z as [| p | p]; [reflexivity | | lia]. intros _.
  unfold Number_of_decimal, double_of_ratio, SFdiv. cbn [xorb].
  destruct (SFdiv_core_binary prec emax (Z.pos p) 0 10000 0) as [[mz ez] lz].
  apply binary_round_aux_not_negative.
Qed.

(** ** Forward runs of the transfer *)

Lemma executeTransaction_duplicate key from to sym amount ty w asset existing :
  amount_rejected amount = false ->
  find_asset (db w) sym = Some asset ->
  find_transaction (db w) key = Some existing ->
  exists w',
    executeTransaction key from to sym amount ty w
    = (Ok (mkTransactionResult "SUCCESS" (tx_id existing) "0"), w') /\
    db w' = db w /\ fic w' = fic w /\ now w' = now w /\
    contention w' = contention w /\
    trace w' = (trace w ++ replay_events sym key)%list.
Proof.
  intros Hok Hasset Hfind.
  destruct (proj1 (amount_guards amount) Hok) as [G1 G2].
  unfold executeTransaction. rewrite G1, G2.
  unfold bind at 1. unfold asset_findUnique. rewrite Hasset.
  unfold withRetry. cbn [withRetry_from].
  unfold prisma_transaction, transfer.
  unfold bind at 1. unfold executeRaw_setLockTimeout, emit.
  unfold bind at 1. unfold transaction_findUnique.
  cbn [db emit_world set_clock]. rewrite Hfind. unfold ret.
  eexists. split; [reflexivity |].
  cbn [db fic now contention trace emit_world set_clock].
  repeat split. unfold replay_events.
  repeat rewrite <- app_assoc. reflexivity.
Qed.

(** C3. When the flow reaches the balance check (valid amount, known
    asset, key not yet recorded, locking read granted, both wallets found,
    stored balance non-negative as the column's CHECK keeps it) and the
    balance of the from-wallet is strictly less than the amount, as the
    service compares them ([Number(fromWallet.balance) < amount]), the
    call fails with the error "Insufficient funds." and changes no row:
    the tables are those of before the call, and the store was only
    read. *)
Theorem C3_insufficient_funds key from to sym amount ty w asset fw tw :
  amount_rejected amount = false ->
  find_asset (db w) sym = Some asset ->
  find_transaction (db w) key = None ->
  hd None (contention w) = None ->
  find_wallet (db w) from (asset_id asset) = Some fw ->
  find_wallet (db w) to (asset_id asset) = Some tw ->
  0 <= wallet_balance fw ->
  num_lt (Number_of_decimal (wallet_balance fw)) amount = true ->
  exists w',
    executeTransaction key from to sym amount ty w
    = (Throw (JsError "Insufficient funds."), w') /\
    db w' = db w /\
    trace w' = (trace w ++ refused_events sym key from to asset)%list /\
    List.filter is_ps_write (refused_events sym key from to asset) = [].
Proof.
  intros Hok Hasset Hfind Hlock Hfw Htw Hpos N2.
  destruct (proj1 (amount_guards amount) Hok) as [G1 G2].
  pose proof (Number_of_decimal_not_negative _ Hpos) as N1.
  unfold executeTransaction. rewrite G1, G2.
  unfold bind at 1. unfold asset_findUnique. rewrite Hasset.
  unfold withRetry. cbn [withRetry_from].
  unfold prisma_transaction, transfer.
  unfold bind at 1. unfold executeRaw_setLockTimeout, emit.
  unfold bind at 1. unfold transaction_findUnique.
  cbn [db emit_world set_clock]. rewrite Hfind.
  unfold refused_events.
  destruct (lock_order from to) as [lockA lockB]. cbn [fst snd].
  unfold bind at 1. unfold executeRaw_selectForUpdate.
  cbn [contention emit_world set_clock].
  destruct (contention w) as [| [e |] rest]; [| discriminate Hlock |];
    unfold bind at 1; unfold wallet_findUnique;
    cbn [db emit_world set_clock set_contention]; rewrite Hfw;
    unfold bind at 1; cbn [db emit_world set_clock set_contention];
    rewrite Htw, N1, N2; unfold throw; cbn [isRetryable error_code andb];
    (eexists; split; [reflexivity |]);
    cbn [db trace emit_world set_clock set_contention set_db];
    (split; [reflexivity |]);
    (split; [| reflexivity]);
    repeat rewrite <- app_assoc; reflexivity.
Qed.

(** ** One row per key *)

Lemma filter_key_absent key (l : list Transaction) :
  ~ In key (List.map tx_idempotency_key l) ->
  List.filter (fun t => String.eqb (tx_idempotency_key t) key) l = [].
Proof.
  induction l as [| x l IH]; intros Hn; simpl.
  - reflexivity.
  - destruct (String.eqb_spec (tx_idempotency_key x) key) as [Heq | Hne].
    + exfalso. apply Hn. left. exact Heq.
    + apply IH. intros Hin. apply Hn. right. exact Hin.
Qed.

Lemma filter_key_unique (l : list Transaction) t :
  List.NoDup (List.map tx_idempotency_key l) ->
  In t l ->
  List.filter (fun x => String.eqb (tx_idempotency_key x) (tx_idempotency_key t)) l
  = [t].
Proof.
  induction l as [| x l IH]; intros Hnd Hin; [destruct Hin |].
  simpl in Hnd. inversion Hnd as [| ? ? Hx Hl]; subst. simpl.
  destruct Hin as [-> | Hin].
  - rewrite String.eqb_refl. f_equal. apply filter_key_absent. exact Hx.
  - destruct (String.eqb_spec (tx_idempotency_key x) (tx_idempotency_key t))
      as [Heq | Hne].
    + exfalso. apply Hx. rewrite Heq. apply in_map. exact Hin.
    + apply IH; assumption.
Qed.

Lemma rows_of_key_found s key t :
  consistent s -> find_transaction s key = Some t -> rows_of_key s key = [t].
Proof.
  intros Hc Hf. apply find_transaction_Some in Hf as [Hin <-].
  unfold rows_of_key. apply filter_key_unique; [apply (keys_unique _ Hc) | exact Hin].
Qed.

Lemma find_transaction_committed s key fw tw a nf nt ty now :
  find_transaction s key = None ->
  find_transaction (committed s key fw tw a nf nt ty now) key
  = Some (new_transaction s key fw tw a ty now).
Proof.
  unfold find_transaction, committed. cbn [transactions]. intros Hnone.
  induction (transactions s) as [| x l IH]; simpl in *.
  - rewrite String.eqb_refl. reflexivity.
  - destruct (String.eqb (tx_idempotency_key x) key); [discriminate Hnone |].
    apply IH. exact Hnone.
Qed.

(** After a call returned normally, its key is recorded under the id it
    reported. *)
Lemma transfer_outcome_recorded s key from to asset amount ty r s' :
  transfer_outcome s key from to asset amount ty r s' ->
  exists t, find_transaction s' key = Some t /\ tx_id t = txId r.
Proof.
  intros [t Hf -> -> | fw tw a nf nt now Hnone _ _ _ _ _ -> ->].
  - exists t. auto.
  - eexists. split; [apply find_transaction_committed; exact Hnone | reflexivity].
Qed.

(** ** Wallets after a committed transfer *)

Lemma find_map_stable {A} (p : A -> bool) (f : A -> A) (l : list A) :
  (forall x, p (f x) = p x) ->
  List.find p (List.map f l) = option_map f (List.find p l).
Proof.
  intros Hp. induction l as [| x l IH]; simpl; [reflexivity |].
  rewrite Hp. destruct (p x); [reflexivity | exact IH].
Qed.

Lemma set_balance_id id z x : wallet_id (set_balance id z x) = wallet_id x.
Proof. unfold set_balance. destruct (Nat.eqb _ _); reflexivity. Qed.

Lemma set_balance_user id z x :
  wallet_user_id (set_balance id z x) = wallet_user_id x.
Proof. unfold set_balance. destruct (Nat.eqb _ _); reflexivity. Qed.

Lemma set_balance_asset id z x :
  wallet_asset_id (set_balance id z x) = wallet_asset_id x.
Proof. unfold set_balance. destruct (Nat.eqb _ _); reflexivity. Qed.

Lemma find_wallet_committed s key fw tw a nf nt ty now user asset :
  find_wallet (committed s key fw tw a nf nt ty now) user asset
  = option_map
      (fun x => set_balance (wallet_id tw) nt (set_balance (wallet_id fw) nf x))
      (find_wallet s user asset).
Proof.
  unfold find_wallet, committed, debit_then_credit. cbn [wallets].
  rewrite !find_map_stable.
  - destruct (List.find _ _); reflexivity.
  - intros x. rewrite set_balance_user, set_balance_asset. reflexivity.
  - intros x. rewrite set_balance_user, set_balance_asset. reflexivity.
Qed.

(** * The claims of the specification *)

(** ** Ledger entries of a committed transfer *)


(** ** The balances a transfer computes and reports *)

(** C6, as amended. A successful [executeTransaction] that performs the
    transfer (its key was not recorded before) computes, in the arithmetic
    of JavaScript numbers, [newFrom = Number(fromWallet.balance) - amount]
    and [newTo = Number(toWallet.balance) + amount], writes them to the
    from-wallet and then to the to-wallet, and returns as [balance] the
    text of [newTo] for TOP_UP and BONUS and of [newFrom] for SPEND. Each
    wallet keeps the number written to it as its DECIMAL(18,4) column
    rounds it: the to-wallet ends at the column value of [newTo], the
    from-wallet at the column value of [newFrom] when it is another row,
    and at that of [newTo] when the two are the same row. *)
Theorem C6_reported_balance key from to sym amount ty w r w' :
  find_transaction (db w) key = None ->
  executeTransaction key from to sym amount ty w = (Ok r, w') ->
  exists asset fw tw stored_from stored_to,
    find_asset (db w) sym = Some asset /\
    find_wallet (db w) from (asset_id asset) = Some fw /\
    find_wallet (db w) to (asset_id asset) = Some tw /\
    let newFrom := num_sub (Number_of_decimal (wallet_balance fw)) amount in
    let newTo := num_add (Number_of_decimal (wallet_balance tw)) amount in
    balance r
    = Number_toString match ty with
                      | TOP_UP | BONUS => newTo
                      | SPEND => newFrom
                      end /\
    to_decimal newFrom = Some stored_from /\
    to_decimal newTo = Some stored_to /\
    wallets (db w')
    = List.map (set_balance (wallet_id tw) stored_to)
        (List.map (set_balance (wallet_id fw) stored_from) (wallets (db w))) /\
    option_map wallet_balance (find_wallet (db w') to (asset_id asset))
    = Some stored_to /\
    option_map wallet_balance (find_wallet (db w') from (asset_id asset))
    = Some (if Nat.eqb (wallet_id fw) (wallet_id tw) then stored_to
            else stored_from).
Proof.
  intros Hnone H.
  apply executeTransaction_Ok in H as (asset & _ & Hasset & Hout).
  destruct Hout as [t Hf _ _ | fw tw a nf nt created _ Hfw Htw _ _ Hcols Hr Hs'].
  - rewrite Hf in Hnone. discriminate Hnone.
  - destruct Hcols as [_ _ Hnf _ Hnt _].
    exists asset, fw, tw, nf, nt. subst r. rewrite Hs'.
    split; [exact Hasset |]. split; [exact Hfw |]. split; [exact Htw |].
    cbv zeta. split; [destruct ty; reflexivity |].
    split; [exact Hnf |]. split; [exact Hnt |]. split; [reflexivity |].
    rewrite !find_wallet_committed, Hfw, Htw. cbn [option_map]. split.
    + unfold set_balance at 1. rewrite set_balance_id, Nat.eqb_refl. reflexivity.
    + unfold set_balance at 2. rewrite Nat.eqb_refl.
      unfold set_balance. cbn [wallet_id wallet_balance].
      destruct (Nat.eqb (wallet_id fw) (wallet_id tw)); reflexivity.
Qed.

(** ** Replays of a recorded key *)

(** C4, as amended. When a transaction row with the key exists and the
    amount and asset symbol of the call pass validation, the call returns
    normally with status "SUCCESS", the id of that row as [txId] and the
    literal "0" as [balance]; the tables are unchanged and the store was
    only read. *)
Theorem C4_duplicate_returns_recorded_id key from to sym amount ty w asset existing :
  amount_rejected amount = false ->
  find_asset (db w) sym = Some asset ->
  find_transaction (db w) key = Some existing ->
  exists w',
    executeTransaction key from to sym amount ty w
    = (Ok (mkTransactionResult "SUCCESS" (tx_id existing) "0"), w') /\
    db w' = db w /\
    trace w' = (trace w ++ replay_events sym key)%list /\
    List.filter is_ps_write (replay_events sym key) = [].
Proof.
  intros Hok Hasset Hfind.
  destruct (executeTransaction_duplicate key from to sym amount ty w asset existing
              Hok Hasset Hfind) as (w' & Hrun & Hdb & _ & _ & _ & Htrace).
  exists w'. repeat split; assumption.
Qed.

(** C2, as amended. If a first call under a key returned normally, then a
    second call under the same key whose amount and asset symbol pass
    validation, whatever its other arguments, returns normally with the
    same [txId] and changes nothing: the store holds exactly one
    transaction row for the key and exactly two ledger rows for it. *)
Theorem C2_idempotent_replay
    key from1 to1 sym1 amount1 ty1 from2 to2 sym2 amount2 ty2 asset2 w r1 w1 :
  reachable (db w) ->
  executeTransaction key from1 to1 sym1 amount1 ty1 w = (Ok r1, w1) ->
  amount_rejected amount2 = false ->
  find_asset (db w1) sym2 = Some asset2 ->
  exists r2 w2 t,
    executeTransaction key from2 to2 sym2 amount2 ty2 w1 = (Ok r2, w2) /\
    txId r2 = txId r1 /\
    db w2 = db w1 /\
    rows_of_key (db w2) key = [t] /\
    tx_id t = txId r1 /\
    length (ledger_of (db w2) (tx_id t)) = 2%nat.
Proof.
  intros Hreach H1 Hok Hasset.
  pose proof (reachable_consistent _ Hreach) as Hc.
  pose proof (executeTransaction_consistent _ _ _ _ _ _ _ _ _ Hc H1) as Hc1.
  apply executeTransaction_Ok in H1 as (asset & _ & _ & Hout).
  apply transfer_outcome_recorded in Hout as (t & Hf & Hid).
  destruct (executeTransaction_duplicate key from2 to2 sym2 amount2 ty2 w1 asset2 t
              Hok Hasset Hf) as (w2 & Hrun & Hdb & _).
  exists (mkTransactionResult "SUCCESS" (tx_id t) "0"), w2, t.
  rewrite Hdb. repeat split; try assumption.
  - apply rows_of_key_found; assumption.
  - apply find_transaction_Some in Hf as [Hin _].
    pose proof (entries_paired _ Hc1) as Hp.
    rewrite List.Forall_forall in Hp.
    destruct (Hp t Hin) as (d & c & Hl & _). rewrite Hl. reflexivity.
Qed.

(** ** Calls only add to the trace *)

Lemma appends_ret {A} (a : A) : appends (ret a).
Proof. intros w. exists []. simpl. rewrite app_nil_r. reflexivity. Qed.

Lemma appends_throw {A} (e : Error) : appends (@throw A e).
Proof. intros w. exists []. simpl. rewrite app_nil_r. reflexivity. Qed.

Lemma appends_bind {A B} (c : M A) (k : A -> M B) :
  appends c -> (forall a, appends (k a)) -> appends (bind c k).
Proof.
  intros Hc Hk w. unfold bind. destruct (Hc w) as [es1 H1].
  destruct (c w) as [[a | e] w1]; simpl in H1.
  - destruct (Hk a w1) as [es2 H2]. exists (es1 ++ es2)%list.
    rewrite H2, H1, app_assoc. reflexivity.
  - exists es1. exact H1.
Qed.

Lemma appends_wallet_findUnique user asset : appends (wallet_findUnique user asset).
Proof. intros w. eexists. reflexivity. Qed.

Lemma appends_wallet_update id bal : appends (wallet_update id bal).
Proof.
  intros w. exists [EvWalletUpdate id bal]. unfold wallet_update.
  destruct (to_decimal bal) as [z |]; [| reflexivity].
  destruct (negb _); [reflexivity |].
  destruct (z <? 0); reflexivity.
Qed.

Lemma appends_transaction_create key f t amount ty st :
  appends (transaction_create key f t amount ty st).
Proof.
  intros w. exists [EvTransactionCreate key]. unfold transaction_create.
  destruct (to_decimal amount) as [a |]; [| reflexivity].
  cbv zeta. destruct (_ <? _)%nat; [reflexivity |].
  destruct (a <=? 0); [reflexivity |].
  destruct (existsb _ _); reflexivity.
Qed.

Lemma appends_ledgerEntry_createMany id data :
  appends (ledgerEntry_createMany id data).
Proof.
  intros w. exists [EvLedgerCreateMany id]. unfold ledgerEntry_createMany.
  cbv zeta. destruct (ledger_rows _ _ _); reflexivity.
Qed.

Create HintDb appends.

#[local] Hint Resolve appends_ret appends_throw appends_wallet_findUnique
  appends_wallet_update appends_transaction_create
  appends_ledgerEntry_createMany : appends.

(** The locking read of a transfer whose key is not recorded: the third
    call of the transaction, on the pair computed by [lock_order]. *)
Lemma transfer_locking_read key from to sym asset amount ty w :
  find_transaction (db w) key = None ->
  exists es,
    trace (snd (transfer key from to sym asset amount ty w))
    = (trace w
       ++ [ EvSetLockTimeout; EvTransactionFindUnique key;
            EvSelectForUpdate (fst (lock_order from to)) (snd (lock_order from to))
                              (asset_id asset) ]
       ++ es)%list.
Proof.
  intros Hnone. unfold transfer.
  unfold bind at 1. unfold executeRaw_setLockTimeout, emit.
  unfold bind at 1. unfold transaction_findUnique.
  cbn [db emit_world]. rewrite Hnone.
  destruct (lock_order from to) as [lockA lockB]. cbn [fst snd].
  match goal with
  | |- context [bind (executeRaw_selectForUpdate _ _ _) ?k] => set (rest := k)
  end.
  assert (forall u, appends (rest u)) as Hk.
  { intros u. unfold rest. apply appends_bind; [auto with appends |]. intros fw.
    apply appends_bind; [auto with appends |]. intros tw.
    destruct fw as [fw |]; [| auto with appends].
    destruct tw as [tw |]; [| auto with appends].
    destruct (num_lt _ _); [auto with appends |].
    destruct (num_lt _ _); [auto with appends |].
    repeat (apply appends_bind; [auto with appends | intros ?]).
    auto with appends. }
  unfold bind at 1. unfold executeRaw_selectForUpdate.
  cbn [contention emit_world].
  destruct (contention w) as [| [e |] answers].
  - match goal with |- context [rest tt ?w0] => destruct (Hk tt w0) as [es Hes] end.
    exists es. rewrite Hes. cbn [trace emit_world].
    repeat rewrite <- app_assoc. reflexivity.
  - exists []. cbn [snd trace emit_world set_contention].
    repeat rewrite <- app_assoc. reflexivity.
  - match goal with |- context [rest tt ?w0] => destruct (Hk tt w0) as [es Hes] end.
    exists es. rewrite Hes. cbn [trace emit_world set_contention].
    repeat rewrite <- app_assoc. reflexivity.
Qed.

(** ** Canonical lock order *)

Lemma lock_order_cases from to :
  lock_order from to = if String.leb from to then (from, to) else (to, from).
Proof.
  unfold lock_order, Array_sort. simpl.
  destruct (String.leb from to); reflexivity.
Qed.

(** C7. For every pair of user ids the pair [(lockA, lockB)] computed for
    the locking read is the two ids in ascending order, so it is the same
    pair when [fromUserId] and [toUserId] are swapped; and a transfer that
    goes past the idempotency probe issues its locking read on that pair,
    in that order, right after the probe. *)
Theorem C7_lock_order_canonical (fromUserId toUserId : string) :
  let (lockA, lockB) := lock_order fromUserId toUserId in
  String.leb lockA lockB = true /\
  ((lockA = fromUserId /\ lockB = toUserId)
   \/ (lockA = toUserId /\ lockB = fromUserId)) /\
  lock_order toUserId fromUserId = (lockA, lockB) /\
  forall key sym asset amount ty w,
    find_transaction (db w) key = None ->
    exists es,
      trace (snd (transfer key fromUserId toUserId sym asset amount ty w))
      = (trace w
         ++ [ EvSetLockTimeout; EvTransactionFindUnique key;
              EvSelectForUpdate lockA lockB (asset_id asset) ]
         ++ es)%list.
Proof.
  pose proof (transfer_locking_read) as Hread.
  specialize (fun key sym asset amount ty w =>
                Hread key fromUserId toUserId sym asset amount ty w).
  rewrite (lock_order_cases toUserId fromUserId).
  rewrite (lock_order_cases fromUserId toUserId) in *.
  destruct (String.leb fromUserId toUserId) eqn:Hft.
  - cbn [fst snd] in Hread. repeat split; auto.
    destruct (String.leb toUserId fromUserId) eqn:Htf; [| reflexivity].
    rewrite (String.leb_antisym _ _ Hft Htf). reflexivity.
  - cbn [fst snd] in Hread.
    destruct (String.leb_total fromUserId toUserId) as [H | H];
      [rewrite H in Hft; discriminate Hft |].
    rewrite H. repeat split; auto.
Qed.

(** ** Retry policy *)

Lemma isRetryable_codes (e : Error) :
  isRetryable e = true
  <-> error_code e = Some "40P01" \/ error_code e = Some "55P03".
Proof.
  unfold isRetryable. destruct (error_code e) as [c |].
  - rewrite bool_decide_eq_true. unfold RETRYABLE_PG_CODES.
    rewrite elem_of_union, !elem_of_singleton.
    split; intros [H | H]; [left | right | left | right]; congruence.
  - split; [discriminate | intros [H | H]; discriminate H].
Qed.

(** X23. The policy of [withRetry] with three attempts, on any action
    [fn]: a result is returned at once; a failure is retried only when
    its [code] is 40P01 or 55P03, after a pause of 200 ms following the
    first attempt and 400 ms following the second; the outcome of the
    third attempt is final; a failure with any other code, or with none,
    is rethrown without pause or further attempt. *)
Theorem withRetry_three_attempts {T} (fn : M T) (w : World) :
  withRetry fn 3 w
  = match fn w with
    | (Ok v, w1) => (Ok v, w1)
    | (Throw e1, w1) =>
      if isRetryable e1 then
        match fn (paused (2 ^ 1 * 100) w1) with
        | (Ok v, w2) => (Ok v, w2)
        | (Throw e2, w2) =>
          if isRetryable e2
          then fn (paused (2 ^ 2 * 100) w2)
          else (Throw e2, w2)
        end
      else (Throw e1, w1)
    end
  /\ 2 ^ 1 * 100 = 200 /\ 2 ^ 2 * 100 = 400
  /\ forall e,
       isRetryable e = true
       <-> error_code e = Some "40P01" \/ error_code e = Some "55P03".
Proof.
  split; [| split; [reflexivity | split; [reflexivity | apply isRetryable_codes]]].
  unfold withRetry. cbn [withRetry_from].
  destruct (fn w) as [[v | e1] w1]; [reflexivity |].
  destruct (isRetryable e1); [| reflexivity].
  cbn [andb Nat.ltb Nat.leb]. unfold bind at 1. unfold setTimeout.
  cbn [Z.of_nat Pos.of_succ_nat Pos.succ].
  destruct (fn _) as [[v | e2] w2]; [reflexivity |].
  destruct (isRetryable e2); [| reflexivity].
  cbn [andb Nat.ltb Nat.leb]. unfold bind at 1. unfold setTimeout.
  cbn [Z.of_nat Pos.of_succ_nat Pos.succ].
  destruct (fn _) as [[v | e3] w3]; [reflexivity |].
  rewrite andb_false_r. reflexivity.
Qed.

(** *** The errors that leave a transfer are not retried *)

Lemma raw_query_failed_not_retryable e : isRetryable (raw_query_failed e) = false.
Proof. reflexivity. Qed.

Lemma selectForUpdate_Throw a b c w e w' :
  executeRaw_selectForUpdate a b c w = (Throw e, w') -> isRetryable e = false.
Proof.
  unfold executeRaw_selectForUpdate. cbn [contention emit_world].
  destruct (contention w) as [| [e0 |] rest]; intros H; inversion H.
  apply raw_query_failed_not_retryable.
Qed.

Lemma wallet_update_Throw id bal w e w' :
  wallet_update id bal w = (Throw e, w') -> isRetryable e = false.
Proof.
  unfold wallet_update. cbn [db emit_world].
  destruct (to_decimal bal) as [z |].
  - destruct (negb _); [intros H; inversion H; reflexivity |].
    destruct (z <? 0); intros H; inversion H; reflexivity.
  - intros H; inversion H; reflexivity.
Qed.

Lemma transaction_create_Throw key f t amount ty st w e w' :
  transaction_create key f t amount ty st w = (Throw e, w') ->
  isRetryable e = false.
Proof.
  unfold transaction_create. cbv zeta.
  destruct (to_decimal amount) as [a |]; [| intros H; inversion H; reflexivity].
  destruct (_ <? _)%nat; [intros H; inversion H; reflexivity |].
  destruct (a <=? 0); [intros H; inversion H; reflexivity |].
  destruct (existsb _ _); intros H; inversion H; reflexivity.
Qed.

Lemma ledger_rows_Throw data : forall id created_at e,
  ledger_rows id created_at data = Throw e -> isRetryable e = false.
Proof.
  induction data as [| d data IH]; intros id created_at e; cbn [ledger_rows].
  - discriminate.
  - destruct (to_decimal (in_amount d)) as [a |];
      [| intros H; inversion H; reflexivity].
    destruct (to_decimal (in_balance_after d)) as [b |];
      [| intros H; inversion H; reflexivity].
    destruct (a <=? 0); [intros H; inversion H; reflexivity |].
    destruct (ledger_rows (S id) created_at data) as [rows | e0] eqn:Hrows;
      [discriminate |].
    intros H. inversion H; subst. eapply IH. exact Hrows.
Qed.

Lemma ledgerEntry_createMany_Throw id data w e w' :
  ledgerEntry_createMany id data w = (Throw e, w') -> isRetryable e = false.
Proof.
  unfold ledgerEntry_createMany. cbv zeta.
  destruct (ledger_rows _ _ data) as [rows | e0] eqn:Hrows; [discriminate |].
  intros H. inversion H; subst. eapply ledger_rows_Throw. exact Hrows.
Qed.

Lemma transfer_Throw_not_retryable key from to sym asset amount ty w e w' :
  transfer key from to sym asset amount ty w = (Throw e, w') ->
  isRetryable e = false.
Proof.
  intros H. unfold transfer in H.
  apply bind_Throw_inv in H as [H | (u & w1 & _ & H)];
    [unfold executeRaw_setLockTimeout, emit in H; discriminate H |].
  apply bind_Throw_inv in H as [H | (ex & w2 & _ & H)];
    [unfold transaction_findUnique in H; discriminate H |].
  destruct ex as [existing |]; [unfold ret in H; discriminate H |].
  destruct (lock_order from to) as [lockA lockB].
  apply bind_Throw_inv in H as [H | (u1 & w3 & _ & H)];
    [eapply selectForUpdate_Throw; exact H |].
  apply bind_Throw_inv in H as [H | (fw & w4 & _ & H)];
    [unfold wallet_findUnique in H; discriminate H |].
  apply bind_Throw_inv in H as [H | (tw & w5 & _ & H)];
    [unfold wallet_findUnique in H; discriminate H |].
  destruct fw as [fw |]; [| unfold throw in H; inversion H; reflexivity].
  destruct tw as [tw |]; [| unfold throw in H; inversion H; reflexivity].
  destruct (num_lt _ _); [unfold throw in H; inversion H; reflexivity |].
  destruct (num_lt _ _); [unfold throw in H; inversion H; reflexivity |].
  apply bind_Throw_inv in H as [H | (u6 & w6 & _ & H)];
    [eapply wallet_update_Throw; exact H |].
  apply bind_Throw_inv in H as [H | (u7 & w7 & _ & H)];
    [eapply wallet_update_Throw; exact H |].
  apply bind_Throw_inv in H as [H | (savedTx & w8 & _ & H)];
    [eapply transaction_create_Throw; exact H |].
  apply bind_Throw_inv in H as [H | (u9 & w9 & _ & H)];
    [eapply ledgerEntry_createMany_Throw; exact H | unfold ret in H; discriminate H].
Qed.

Lemma prisma_transaction_Throw_error {A} (body : M A) w e w' :
  prisma_transaction body w = (Throw e, w') ->
  exists w0 w1, body w0 = (Throw e, w1).
Proof.
  unfold prisma_transaction.
  destruct (body _) as [[x | e0] w2] eqn:Hb; intros H; inversion H; subst.
  eauto.
Qed.

(** With one attempt or more, an action whose failure is not retryable
    runs once under [withRetry]. *)
Lemma withRetry_single_attempt {T} (fn : M T) maxAttempts w :
  (1 <= maxAttempts)%nat ->
  (forall e w1, fn w = (Throw e, w1) -> isRetryable e = false) ->
  withRetry fn maxAttempts w = fn w.
Proof.
  intros Hn Hfn. unfold withRetry.
  destruct maxAttempts as [| n]; [lia |]. cbn [withRetry_from].
  destruct (fn w) as [[v | e] w1] eqn:Hrun; [reflexivity |].
  rewrite (Hfn e w1 eq_refl). reflexivity.
Qed.

(** The transfer is attempted once: whatever the store answers, the call
    is the asset lookup followed by one run of the transaction. *)
Lemma executeTransaction_one_attempt key from to sym amount ty w asset :
  amount_rejected amount = false ->
  find_asset (db w) sym = Some asset ->
  executeTransaction key from to sym amount ty w
  = prisma_transaction (transfer key from to sym asset amount ty)
      (emit_world (EvAssetFindUnique sym) w).
Proof.
  intros Hok Hasset.
  destruct (proj1 (amount_guards amount) Hok) as [G1 G2].
  unfold executeTransaction. rewrite G1, G2.
  unfold bind at 1. unfold asset_findUnique. rewrite Hasset.
  apply withRetry_single_attempt; [lia |].
  intros e w1 H. apply prisma_transaction_Throw_error in H as (w0 & w2 & H).
  eapply transfer_Throw_not_retryable. exact H.
Qed.

(** C8. A transfer whose locking read the store refuses, be it with
    SQLSTATE 40P01 (deadlock detected) or 55P03 (lock not available), is
    not retried. The refusal reaches [withRetry] as the raw-query error of
    the client, whose [code] is P2010; it is not one of the two codes
    [withRetry] looks for, so the call fails with that error after one
    attempt, without pause: the transaction is rolled back, the tables are
    unchanged and no time has passed on the timer. *)
Theorem C8_lock_failure_is_not_retried key from to sym amount ty w asset e rest :
  amount_rejected amount = false ->
  find_asset (db w) sym = Some asset ->
  find_transaction (db w) key = None ->
  contention w = Some e :: rest ->
  exists w',
    executeTransaction key from to sym amount ty w
    = (Throw (raw_query_failed e), w') /\
    error_code (raw_query_failed e) = Some "P2010" /\
    isRetryable (raw_query_failed e) = false /\
    trace w' = (trace w ++ lock_refused_events sym key from to asset)%list /\
    now w' = now w /\
    db w' = db w /\
    contention w' = rest.
Proof.
  intros Hok Hasset Hnone Hlock.
  rewrite (executeTransaction_one_attempt _ _ _ _ _ _ _ _ Hok Hasset).
  unfold prisma_transaction, transfer.
  unfold bind at 1. unfold executeRaw_setLockTimeout, emit.
  unfold bind at 1. unfold transaction_findUnique.
  cbn [db emit_world set_clock]. rewrite Hnone.
  unfold lock_refused_events.
  destruct (lock_order from to) as [lockA lockB]. cbn [fst snd].
  unfold bind at 1. unfold executeRaw_selectForUpdate.
  cbn [contention emit_world set_clock]. rewrite Hlock.
  eexists. split; [reflexivity |].
  cbn [db trace now contention emit_world set_clock set_contention set_db].
  repeat split. repeat rewrite <- app_assoc. reflexivity.
Qed.

(** ** Transaction history *)

Lemma getTransactionHistory_Ok userId options w h w' :
  getTransactionHistory userId options w = (Ok h, w') ->
  let limit := default 50 (opt_limit options) in
  let offset := default 0 (opt_offset options) in
  let rows := history_rows (db w) userId options in
  let page := firstn (Z.to_nat limit) (skipn (Z.to_nat offset) rows) in
  let filtered :=
    match truthy (opt_assetSymbol options) with
    | Some assetSymbol => List.filter (asset_matches assetSymbol) page
    | None => page
    end in
  1 <= limit <= 500 /\ 0 <= offset /\
  history_transactions h = List.map history_item filtered /\
  pagination h
  = mkPagination (Z.of_nat (length rows)) limit offset
      (Z.of_nat (length filtered))
      (offset + Z.of_nat (length filtered) <? Z.of_nat (length rows)).
Proof.
  unfold getTransactionHistory. intros H.
  destruct ((default 50 (opt_limit options) <? 1)
            || (default 50 (opt_limit options) >? 500)) eqn:G1; [discriminate H |].
  destruct (default 0 (opt_offset options) <? 0) eqn:G2; [discriminate H |].
  apply orb_false_iff in G1 as [G1a G1b].
  apply Z.ltb_ge in G1a, G2. rewrite Z.gtb_ltb in G1b. apply Z.ltb_ge in G1b.
  apply bind_Ok_inv in H as (u & w1 & H1 & H).
  unfold user_findUnique in H1. inversion H1; subst u w1; clear H1.
  destruct (List.find _ _); [| discriminate H].
  apply bind_Ok_inv in H as (n & w2 & H2 & H).
  unfold transaction_count in H2. inversion H2; subst n w2; clear H2.
  apply bind_Ok_inv in H as (l & w3 & H3 & H).
  unfold transaction_findMany in H3. inversion H3; subst l w3; clear H3.
  unfold ret in H. inversion H; subst h w'; clear H.
  cbn [db emit_world history_transactions pagination].
  repeat split; lia.
Qed.

Lemma HistoryExample_reachable : reachable (db HistoryExample.after_bonus).
Proof.
  unfold HistoryExample.after_bonus.
  eapply reachable_step; [| apply surjective_pairing].
  unfold HistoryExample.after_top_up.
  eapply reachable_step; [| apply surjective_pairing].
  apply reachable_init; reflexivity.
Qed.

(** C9. Whenever [getTransactionHistory] returns, its rows are the page of
    [limit] rows cut at [offset] from the rows selected without regard to
    the asset, newest first, and only then filtered by [assetSymbol];
    [total] counts the rows selected without the asset filter, [returned]
    counts the rows left after it, and
    [hasMore = offset + returned < total]. In a store reached by two
    transfers there is a GOLD query for the treasury whose first page of
    one row comes back empty although a GOLD transaction lies beyond the
    window, with [hasMore] still computed by that formula. *)
Theorem C9_asset_filter_after_window :
  (forall userId options w h w',
     getTransactionHistory userId options w = (Ok h, w') ->
     let page :=
       firstn (Z.to_nat (limit (pagination h)))
         (skipn (Z.to_nat (offset (pagination h)))
                (history_rows (db w) userId options)) in
     let filtered :=
       match truthy (opt_assetSymbol options) with
       | Some assetSymbol => List.filter (asset_matches assetSymbol) page
       | None => page
       end in
     history_transactions h = List.map history_item filtered /\
     total (pagination h)
     = Z.of_nat (length (history_rows (db w) userId options)) /\
     returned (pagination h) = Z.of_nat (length (history_transactions h)) /\
     hasMore (pagination h)
     = (offset (pagination h) + returned (pagination h) <? total (pagination h)))
  /\
  (exists w userId options assetSymbol h w',
     reachable (db w) /\
     opt_assetSymbol options = Some assetSymbol /\
     getTransactionHistory userId options w = (Ok h, w') /\
     returned (pagination h) < limit (pagination h) /\
     List.filter (asset_matches assetSymbol)
       (skipn (Z.to_nat (offset (pagination h) + limit (pagination h)))
              (history_rows (db w) userId options)) <> [] /\
     hasMore (pagination h)
     = (offset (pagination h) + returned (pagination h) <? total (pagination h))).
Proof.
  split.
  - intros userId options w h w' H.
    apply getTransactionHistory_Ok in H as (_ & _ & Ht & Hp).
    rewrite Hp, Ht. cbn [limit offset total returned hasMore].
    rewrite length_map. repeat split.
  - exists HistoryExample.after_bonus, Seed.TREASURY, HistoryExample.options,
           "GOLD".
    eexists. eexists.
    split; [apply HistoryExample_reachable |].
    split; [reflexivity |].
    split; [vm_compute; reflexivity |].
    split; [vm_compute; reflexivity |].
    split; [vm_compute; discriminate |].
    vm_compute; reflexivity.
Qed.

(** ** A transfer that commits *)

Lemma find_wallet_Some s user asset x :
  find_wallet s user asset = Some x ->
  In x (wallets s) /\ wallet_user_id x = user /\ wallet_asset_id x = asset.
Proof.
  unfold find_wallet. intros H. apply find_some in H as [Hin Hk].
  apply andb_true_iff in Hk as [Hu Ha].
  apply String.eqb_eq in Hu, Ha. auto.
Qed.

Lemma wallet_listed (l : list Wallet) x :
  In x l -> existsb (fun y => Nat.eqb (wallet_id y) (wallet_id x)) l = true.
Proof.
  intros Hin. apply existsb_exists. exists x. split; [exact Hin |].
  apply Nat.eqb_refl.
Qed.

Lemma wallet_listed_after_update (l : list Wallet) x id z :
  In x l ->
  existsb (fun y => Nat.eqb (wallet_id y) (wallet_id x))
          (List.map (set_balance id z) l) = true.
Proof.
  intros Hin. apply existsb_exists. exists (set_balance id z x).
  split; [apply in_map; exact Hin |].
  rewrite set_balance_id. apply Nat.eqb_refl.
Qed.

Lemma wallet_update_run id bal z w :
  to_decimal bal = Some z ->
  0 <= z ->
  existsb (fun x => Nat.eqb (wallet_id x) id) (wallets (db w)) = true ->
  wallet_update id bal w
  = (Ok tt,
     set_db (with_wallets (List.map (set_balance id z) (wallets (db w))) (db w))
            (emit_world (EvWalletUpdate id bal) w)).
Proof.
  intros Hz Hpos Hex. unfold wallet_update. cbn [db emit_world].
  rewrite Hz, Hex. cbn [negb].
  rewrite (proj2 (Z.ltb_ge z 0)) by exact Hpos. reflexivity.
Qed.

Lemma find_transaction_absent s key :
  find_transaction s key = None ->
  existsb (fun t => String.eqb (tx_idempotency_key t) key) (transactions s) = false.
Proof.
  unfold find_transaction. intros Hnone.
  destruct (existsb _ _) eqn:Hex; [| reflexivity].
  apply existsb_exists in Hex as (x & Hin & Hk).
  eapply find_none in Hnone; [| exact Hin]. simpl in Hnone.
  rewrite Hk in Hnone. discriminate Hnone.
Qed.

Lemma transaction_create_run key f t amount ty st w a :
  to_decimal amount = Some a ->
  0 < a ->
  (String.length key <= 255)%nat ->
  find_transaction (db w) key = None ->
  transaction_create key f t amount ty st w
  = (Ok (mkTransaction (next_uuid (db w)) key f t a ty st (clock w)),
     set_db (mkStore (assets (db w)) (users (db w)) (wallets (db w))
               (transactions (db w)
                ++ [mkTransaction (next_uuid (db w)) key f t a ty st (clock w)])
               (ledger_entries (db w)) (S (next_uuid (db w))))
            (emit_world (EvTransactionCreate key) w)).
Proof.
  intros Ha Hpos Hlen Hnone. unfold transaction_create. cbv zeta.
  cbn [db clock emit_world]. rewrite Ha.
  rewrite (proj2 (Nat.ltb_ge 255 (String.length key))) by exact Hlen.
  rewrite (proj2 (Z.leb_gt a 0)) by exact Hpos.
  rewrite (find_transaction_absent _ _ Hnone). reflexivity.
Qed.

Lemma ledgerEntry_createMany_two_run id d c w ad bd ac bc :
  to_decimal (in_amount d) = Some ad -> 0 < ad ->
  to_decimal (in_balance_after d) = Some bd ->
  to_decimal (in_amount c) = Some ac -> 0 < ac ->
  to_decimal (in_balance_after c) = Some bc ->
  ledgerEntry_createMany id [d; c] w
  = (Ok tt,
     set_db (mkStore (assets (db w)) (users (db w)) (wallets (db w))
               (transactions (db w))
               (ledger_entries (db w) ++
                  [ mkLedgerEntry (next_uuid (db w)) (in_transaction_id d)
                      (in_wallet_id d) (in_entry_type d) ad bd (clock w);
                    mkLedgerEntry (S (next_uuid (db w))) (in_transaction_id c)
                      (in_wallet_id c) (in_entry_type c) ac bc (clock w) ])
               (next_uuid (db w) + 2)%nat)
            (emit_world (EvLedgerCreateMany id) w)).
Proof.
  intros Had Hadpos Hbd Hac Hacpos Hbc.
  unfold ledgerEntry_createMany. cbv zeta. cbn [db clock emit_world ledger_rows].
  rewrite Had, Hbd, Hac, Hbc.
  rewrite (proj2 (Z.leb_gt ad 0)) by exact Hadpos.
  rewrite (proj2 (Z.leb_gt ac 0)) by exact Hacpos.
  reflexivity.
Qed.

(** The conditions under which a transfer commits, and what it then
    does: they do not ask that the two endpoints differ. *)
Lemma executeTransaction_commits key from to sym amount ty w asset fw tw a nf nt :
  amount_rejected amount = false ->
  find_asset (db w) sym = Some asset ->
  find_transaction (db w) key = None ->
  hd None (contention w) = None ->
  find_wallet (db w) from (asset_id asset) = Some fw ->
  find_wallet (db w) to (asset_id asset) = Some tw ->
  num_lt (Number_of_decimal (wallet_balance fw)) (Number_of_Z 0) = false ->
  num_lt (Number_of_decimal (wallet_balance fw)) amount = false ->
  column_values fw tw amount a nf nt ->
  (String.length key <= 255)%nat ->
  exists w',
    executeTransaction key from to sym amount ty w
    = (Ok (mkTransactionResult "SUCCESS" (next_uuid (db w))
             (Number_toString (if is_credit_type ty then newToBalance tw amount
                               else newFromBalance fw amount))), w') /\
    db w' = committed (db w) key fw tw a nf nt ty (S (clock w)) /\
    trace w'
    = (trace w
       ++ committed_events sym key from to asset fw tw amount
            (next_uuid (db w)))%list /\
    fic w' = fic w /\ now w' = now w /\ treasuryId w' = treasuryId w.
Proof.
  intros Hok Hasset Hnone Hlock Hfw Htw N1 N2 [Ha Hapos Hnf Hnfpos Hnt Hntpos] Hlen.
  rewrite (executeTransaction_one_attempt _ _ _ _ _ _ _ _ Hok Hasset).
  pose proof (find_wallet_Some _ _ _ _ Hfw) as (Hfin & _).
  pose proof (find_wallet_Some _ _ _ _ Htw) as (Htin & _).
  unfold prisma_transaction, transfer.
  unfold bind at 1. unfold executeRaw_setLockTimeout, emit.
  unfold bind at 1. unfold transaction_findUnique.
  cbn [db emit_world set_clock]. rewrite Hnone.
  unfold committed_events.
  destruct (lock_order from to) as [lockA lockB]. cbn [fst snd].
  unfold bind at 1. unfold executeRaw_selectForUpdate.
  cbn [contention emit_world set_clock].
  fold (newFromBalance fw amount). fold (newToBalance tw amount).
  destruct (contention w) as [| [e |] rest]; [| discriminate Hlock |];
    unfold bind at 1; unfold wallet_findUnique;
    cbn [db emit_world set_clock set_contention]; rewrite Hfw;
    unfold bind at 1; cbn [db emit_world set_clock set_contention];
    rewrite Htw, N1, N2;
    fold (newFromBalance fw amount); fold (newToBalance tw amount);
    (unfold bind at 1;
     erewrite wallet_update_run;
       [| exact Hnf | exact Hnfpos
        | cbn [db emit_world set_clock set_contention];
          apply wallet_listed; exact Hfin]);
    (unfold bind at 1;
     erewrite wallet_update_run;
       [| exact Hnt | exact Hntpos
        | cbn [db wallets with_wallets emit_world set_clock set_contention set_db];
          apply wallet_listed_after_update; exact Htin]);
    (unfold bind at 1;
     erewrite transaction_create_run;
       [| exact Ha | exact Hapos | exact Hlen
        | cbn [db emit_world set_clock set_contention set_db];
          unfold find_transaction, with_wallets; cbn [transactions];
          exact Hnone]);
    (unfold bind at 1;
     erewrite ledgerEntry_createMany_two_run;
       [| cbn [in_amount]; exact Ha | exact Hapos
        | cbn [in_balance_after]; exact Hnf
        | cbn [in_amount]; exact Ha | exact Hapos
        | cbn [in_balance_after]; exact Hnt]);
    unfold ret;
    (eexists; split; [reflexivity |]);
    cbn [db trace fic now treasuryId clock emit_world set_clock set_contention
         set_db with_wallets assets users wallets transactions ledger_entries
         next_uuid tx_id in_transaction_id in_wallet_id in_entry_type];
    (split; [unfold committed, debit_then_credit, new_transaction,
               new_ledger_entries; f_equal; lia |]);
    (split; [repeat rewrite <- app_assoc; reflexivity |]);
    repeat split.
Qed.

(** ** Validation *)

(** C5, as amended. The validation failures the service checks are the
    amount (not strictly positive, not finite, above MAX_AMOUNT) and the
    asset symbol. A rejected amount fails with a ValidationError and the
    world is untouched: no call to the store at all. An unknown asset,
    for an accepted amount, fails with a NotFoundError after one read of
    the store, the asset lookup: no transaction is opened and nothing is
    written. Equal endpoints are not a validation failure: a call whose
    from-user is its to-user, with an accepted amount, a known asset, a
    new key, the lock granted and a wallet that covers the amount, is
    executed as a transfer from the wallet to itself; the wallet is written
    twice, [newFrom] then [newTo], a transaction row whose two wallets are
    that wallet is created with its two ledger entries, and the wallet
    ends at the column value of [newTo]. *)
Theorem C5_validation_fails_fast key from to sym amount ty w :
  (amount_rejected amount = true ->
   exists message,
     executeTransaction key from to sym amount ty w
     = (Throw (ValidationError message), w))
  /\
  (amount_rejected amount = false ->
   find_asset (db w) sym = None ->
   executeTransaction key from to sym amount ty w
   = (Throw (NotFoundError ("Asset " ++ sym ++ " not found")),
      emit_world (EvAssetFindUnique sym) w)
   /\ is_ps_access (EvAssetFindUnique sym) = true
   /\ is_ps_write (EvAssetFindUnique sym) = false)
  /\
  (forall asset x a newFrom newTo,
     amount_rejected amount = false ->
     find_asset (db w) sym = Some asset ->
     find_transaction (db w) key = None ->
     hd None (contention w) = None ->
     find_wallet (db w) from (asset_id asset) = Some x ->
     0 <= wallet_balance x ->
     num_lt (Number_of_decimal (wallet_balance x)) amount = false ->
     column_values x x amount a newFrom newTo ->
     (String.length key <= 255)%nat ->
     exists r w',
       executeTransaction key from from sym amount ty w = (Ok r, w') /\
       status r = "SUCCESS" /\
       List.filter is_ps_write
         (committed_events sym key from from asset x x amount (txId r))
       = [ EvWalletUpdate (wallet_id x) (newFromBalance x amount);
           EvWalletUpdate (wallet_id x) (newToBalance x amount);
           EvTransactionCreate key; EvLedgerCreateMany (txId r) ] /\
       trace w'
       = (trace w
          ++ committed_events sym key from from asset x x amount (txId r))%list /\
       transactions (db w')
       = (transactions (db w)
          ++ [mkTransaction (txId r) key (wallet_id x) (wallet_id x) a ty
                            "SUCCESS" (S (clock w))])%list /\
       option_map wallet_balance (find_wallet (db w') from (asset_id asset))
       = Some newTo).
Proof.
  split; [| split].
  - unfold amount_rejected, executeTransaction. intros H.
    destruct (num_le amount (Number_of_Z 0) || negb (isFinite amount)) eqn:G1.
    + eexists. reflexivity.
    + cbn [orb] in H. rewrite H. eexists. reflexivity.
  - intros Hok Hnone.
    destruct (proj1 (amount_guards amount) Hok) as [G1 G2].
    unfold executeTransaction. rewrite G1, G2.
    unfold bind, asset_findUnique. rewrite Hnone. repeat split.
  - intros asset x a nf nt Hok Hasset Hnone Hlock Hx Hpos N2 Hcols Hlen.
    destruct (executeTransaction_commits key from from sym amount ty w asset x x
                a nf nt Hok Hasset Hnone Hlock Hx Hx
                (Number_of_decimal_not_negative _ Hpos) N2 Hcols Hlen)
      as (w' & Hrun & Hdb & Htrace & _).
    eexists _, w'. split; [exact Hrun |]. cbn [status txId].
    split; [reflexivity |]. split; [reflexivity |]. split; [exact Htrace |].
    rewrite Hdb. split; [reflexivity |].
    rewrite find_wallet_committed, Hx. cbn [option_map].
    unfold set_balance at 1. rewrite set_balance_id, Nat.eqb_refl. reflexivity.
Qed.

(** ** The cache over time *)

Lemma cache_lookup_emit e w key :
  cache_lookup (emit_world e w) key = cache_lookup w key.
Proof. reflexivity. Qed.

Lemma cache_lookup_written key value ttl (c : gmap string (CachedResponse * Z)) w :
  0 < ttl ->
  cache_lookup (set_fic (<[key := (value, now w + ttl * 1000)]> c) w) key
  = Some value.
Proof.
  intros Httl. unfold cache_lookup. cbn [fic now set_fic].
  rewrite lookup_insert_eq.
  rewrite (proj2 (Z.ltb_lt (now w) (now w + ttl * 1000))) by lia.
  reflexivity.
Qed.

Lemma saved_lookup key value w :
  saved key value w -> cache_lookup w (cache_key key) = Some value.
Proof.
  unfold saved, cache_lookup. intros ->.
  rewrite (proj2 (Z.ltb_lt (now w) (now w + IDEMPOTENCY.CACHE_TTL * 1000)))
    by (unfold IDEMPOTENCY.CACHE_TTL; lia).
  reflexivity.
Qed.

Lemma checkAndReserve_miss key w :
  cache_lookup w (cache_key key) = None ->
  checkAndReserveIdempotencyKey key w = (Ok None, reserved key w).
Proof.
  intros Hmiss. unfold checkAndReserveIdempotencyKey.
  unfold bind at 1. unfold redis_get. rewrite Hmiss.
  unfold bind at 1. unfold redis_set_nx.
  rewrite !cache_lookup_emit, Hmiss.
  reflexivity.
Qed.

Lemma checkAndReserve_hit key w cached :
  cache_lookup w (cache_key key) = Some cached ->
  checkAndReserveIdempotencyKey key w
  = (Ok (Some cached), emit_world (EvRedisGet (cache_key key)) w).
Proof.
  intros Hhit. unfold checkAndReserveIdempotencyKey.
  unfold bind at 1. unfold redis_get. rewrite Hhit. reflexivity.
Qed.

Lemma saveIdempotencyResult_run key value w :
  saveIdempotencyResult key value w
  = (Ok tt,
     set_fic (<[cache_key key := (value, now w + IDEMPOTENCY.CACHE_TTL * 1000)]>
                (fic w))
       (emit_world (EvRedisSet (cache_key key) IDEMPOTENCY.CACHE_TTL false) w)).
Proof. reflexivity. Qed.

Lemma saveIdempotencyResult_saved key value w :
  saved key value (snd (saveIdempotencyResult key value w)).
Proof.
  rewrite saveIdempotencyResult_run. unfold saved. cbn [snd fic now set_fic emit_world].
  apply lookup_insert_eq.
Qed.

(** At the controller, a body the schema refuses is answered 400 after
    the cache calls only. *)
Lemma processTransaction_invalid_body req key w :
  truthy (header_idempotency_key req) = Some key ->
  cache_lookup w (cache_key key) = None ->
  transactionSchema_safeParse (body req) = None ->
  exists w',
    processTransaction req w
    = (Ok (mkResponse StatusCodes.BAD_REQUEST JsonValidationFailed), w') /\
    db w' = db w /\
    trace w'
    = (trace w
       ++ [ EvRedisGet (cache_key key);
            EvRedisSet (cache_key key) IDEMPOTENCY.PROCESSING_TTL true;
            EvRedisSet (cache_key key) IDEMPOTENCY.CACHE_TTL false ])%list.
Proof.
  intros Hkey Hmiss Hparse. unfold processTransaction. rewrite Hkey.
  unfold bind at 1. rewrite (checkAndReserve_miss _ _ Hmiss).
  unfold try_catch. rewrite Hparse.
  unfold bind at 1. rewrite saveIdempotencyResult_run. unfold ret.
  eexists. split; [reflexivity |].
  cbn [db trace fic emit_world set_fic reserved]. split; [reflexivity |].
  repeat rewrite <- app_assoc. reflexivity.
Qed.

(** ** Replays answered from the cache *)

(** On a cache miss, a request answered with a status other than 200 was
    answered 400 or 500 and left a FAILED outcome in the cache. *)
Lemma failed_request_is_cached req key w resp w1 :
  truthy (header_idempotency_key req) = Some key ->
  cache_lookup w (cache_key key) = None ->
  processTransaction req w = (Ok resp, w1) ->
  statusCode resp <> StatusCodes.OK ->
  (statusCode resp = StatusCodes.BAD_REQUEST
   \/ statusCode resp = StatusCodes.INTERNAL_SERVER_ERROR) /\
  exists error, cache_lookup w1 (cache_key key) = Some (CachedFailed error).
Proof.
  intros Hkey Hmiss. unfold processTransaction. rewrite Hkey.
  unfold bind at 1. rewrite (checkAndReserve_miss _ _ Hmiss).
  unfold try_catch.
  match goal with
  | |- context [match ?c ?w0 with _ => _ end] => destruct (c w0) as [[r | e] w2] eqn:Hrun
  end.
  - intros H Hstatus. inversion H; subst r w2; clear H.
    destruct (transactionSchema_safeParse (body req)) as [parsed |].
    + exfalso. apply Hstatus.
      apply bind_Ok_inv in Hrun as (t & w3 & _ & Hrun).
      apply bind_Ok_inv in Hrun as (result & w4 & _ & Hrun).
      apply bind_Ok_inv in Hrun as (u & w5 & _ & Hrun).
      unfold ret in Hrun. inversion Hrun. reflexivity.
    + unfold bind in Hrun. rewrite saveIdempotencyResult_run in Hrun.
      unfold ret in Hrun. inversion Hrun; subst. split; [left; reflexivity |].
      eexists. apply saved_lookup. apply saveIdempotencyResult_saved.
  - unfold bind. rewrite saveIdempotencyResult_run. unfold ret.
    intros H Hstatus. inversion H; subst. split.
    + cbn [statusCode]. destruct (_ || _); [left | right]; reflexivity.
    + eexists. apply saved_lookup. apply saveIdempotencyResult_saved.
Qed.

(** C10. When the cache holds an outcome for the key of a request, the
    controller answers from the cache after the single cache read: a
    cached FAILED outcome is answered with status 200 and the cached body
    marked as cached, like a cached SUCCESS; only a cached PROCESSING
    value is answered otherwise, with status 409. *)
Theorem C10_cached_failure_replayed_as_200 req key cached w :
  truthy (header_idempotency_key req) = Some key ->
  cache_lookup w (cache_key key) = Some cached ->
  processTransaction req w
  = (Ok match cached with
        | CachedProcessing _ =>
          mkResponse 409
            (JsonErrorResponse
               "Transaction is currently processing. Please retry later.")
        | CachedFailed error => mkResponse 200 (JsonCached (CachedFailed error))
        | CachedSuccess id bal =>
          mkResponse 200 (JsonCached (CachedSuccess id bal))
        end,
     emit_world (EvRedisGet (cache_key key)) w).
Proof.
  intros Hkey Hhit. unfold processTransaction. rewrite Hkey.
  unfold bind at 1. unfold checkAndReserveIdempotencyKey.
  unfold bind at 1. unfold redis_get. rewrite Hhit. unfold ret.
  destruct cached; reflexivity.
Qed.

(** * Concrete runs on the seeded store *)

Example top_up_commits :
  fst Scenario.top_up = Ok (mkTransactionResult "SUCCESS" 5 "200") /\
  transactions (db (snd Scenario.top_up))
  = [mkTransaction 5 "k1" 0 2 (units 100) TOP_UP "SUCCESS" 1] /\
  ledger_entries (db (snd Scenario.top_up))
  = [ mkLedgerEntry 6 5 0 DEBIT (units 100) (units 999900) 1;
      mkLedgerEntry 7 5 2 CREDIT (units 100) (units 200) 1 ].
Proof. vm_compute. repeat split. Qed.

(** A top-up of 0.00015 GOLD for Bob: the columns keep four decimals, so
    the rows carry the amount 0.0002 and the balances 999999.9999 and
    200.0002, while the caller is told 200.00015. *)
Example fractional_top_up_is_rounded :
  fst Scenario.sliver_top_up = Ok (mkTransactionResult "SUCCESS" 5 "200.00015") /\
  transactions (db (snd Scenario.sliver_top_up))
  = [mkTransaction 5 "k9" 0 3 2 TOP_UP "SUCCESS" 1] /\
  ledger_entries (db (snd Scenario.sliver_top_up))
  = [ mkLedgerEntry 6 5 0 DEBIT 2 9999999999 1;
      mkLedgerEntry 7 5 3 CREDIT 2 2000002 1 ] /\
  Forall (balanced (db (snd Scenario.sliver_top_up)))
         (transactions (db (snd Scenario.sliver_top_up))).
Proof.
  vm_compute. repeat split. repeat constructor.
Qed.

(** A top-up of 0.00001 GOLD passes the guards of the service, but its
    amount is stored as 0.0000 and the CHECK on the amount refuses the
    row: the call fails and the two wallet updates are rolled back. *)
Example vanishing_amount_is_refused :
  amount_rejected Scenario.speck = false /\
  to_decimal Scenario.speck = Some 0 /\
  (exists message, fst Scenario.speck_top_up = Throw (DbError None message)) /\
  db (snd Scenario.speck_top_up) = Seed.store.
Proof.
  vm_compute. repeat split. eexists. reflexivity.
Qed.

(** A deadlock reported by the locking read ends the call at its first
    attempt: no pause, nothing written. *)
Example deadlock_ends_the_call :
  let out := Scenario.top_up_under [Some Scenario.deadlock] in
  fst out = Throw (raw_query_failed Scenario.deadlock) /\
  Scenario.attempts (snd out) = 1%nat /\
  Scenario.pauses (snd out) = [] /\
  db (snd out) = Seed.store.
Proof. vm_compute. repeat split. Qed.

(** ** Counterexamples to the claims as stated *)


(** C2 as stated fails. After a first call under k1 that commits, a second
    call under k1 with a zero amount throws a ValidationError instead of
    returning the recorded id; and two calls under k3 that both fail for
    lack of funds leave no transaction row and no ledger row at all. *)
Lemma C2_counterexample :
  (fst Scenario.top_up = Ok (mkTransactionResult "SUCCESS" 5 "200") /\
   fst Scenario.top_up_zero
   = Throw (ValidationError "Amount must be a positive finite number"))
  /\
  (fst Scenario.overspend = Throw (JsError "Insufficient funds.") /\
   fst Scenario.overspend_again = Throw (JsError "Insufficient funds.") /\
   rows_of_key (db (snd Scenario.overspend_again)) "k3" = [] /\
   ledger_entries (db (snd Scenario.overspend_again)) = []).
Proof. vm_compute. repeat split. Qed.

(** C4 as stated fails. The first call under k1 reported the balance
    "200"; the call that finds the row of k1 reports the balance "0". *)
Lemma C4_counterexample :
  fst Scenario.top_up = Ok (mkTransactionResult "SUCCESS" 5 "200") /\
  find_transaction (db (snd Scenario.top_up)) "k1"
  = Some (mkTransaction 5 "k1" 0 2 (units 100) TOP_UP "SUCCESS" 1) /\
  fst Scenario.top_up_again = Ok (mkTransactionResult "SUCCESS" 5 "0") /\
  fst Scenario.top_up_again <> fst Scenario.top_up.
Proof.
  vm_compute. repeat split. intros H. discriminate H.
Qed.

(** C5 as stated fails, twice. A TOP_UP posted for the treasury itself
    resolves to from-user = to-user; it is answered 200, the store is read
    and written, and the treasury wallet ends 100 above its seeded
    balance. And a call whose asset symbol is unknown fails only after
    the asset table of the store was read. *)
Lemma C5_counterexample :
  (fst Scenario.self_top_up
   = Ok (mkResponse 200 (JsonResult (mkTransactionResult "SUCCESS" 5 "1000100")))
   /\
   List.filter is_ps_write (trace (snd Scenario.self_top_up))
   = [ EvWalletUpdate 0 (Number_of_Z 999900);
       EvWalletUpdate 0 (Number_of_Z 1000100);
       EvTransactionCreate "k5"; EvLedgerCreateMany 5 ]
   /\
   transactions (db (snd Scenario.self_top_up))
   = [mkTransaction 5 "k5" 0 0 (units 100) TOP_UP "SUCCESS" 1]
   /\
   find_wallet (db (snd Scenario.self_top_up)) Seed.TREASURY Seed.GOLD_ID
   = Some (mkWallet 0 Seed.TREASURY Seed.GOLD_ID (units 1000100)))
  /\
  (fst Scenario.unknown_asset = Throw (NotFoundError "Asset SILVER not found") /\
   List.filter is_ps_access (trace (snd Scenario.unknown_asset))
   = [EvAssetFindUnique "SILVER"]).
Proof. vm_compute. repeat split. Qed.

(** C6 as stated fails, twice. After two top-ups of 0.1 GOLD for Alice,
    who held 100, the second call reports the balance
    "100.19999999999999" while her wallet holds 100.2. And a SPEND of 100
    GOLD from the treasury to itself reports newFrom, "999900", while the
    one wallet that was debited and credited holds 1000100. *)
Lemma C6_counterexample :
  (fst Scenario.second_dime
   = Ok (mkTransactionResult "SUCCESS" 8 "100.19999999999999") /\
   find_wallet (db (snd Scenario.second_dime)) Seed.ALICE Seed.GOLD_ID
   = Some (mkWallet 2 Seed.ALICE Seed.GOLD_ID 1002000) /\
   Decimal_toString 1002000 = "100.2")
  /\
  (fst Scenario.self_spend = Ok (mkTransactionResult "SUCCESS" 5 "999900") /\
   find_wallet (db (snd Scenario.self_spend)) Seed.TREASURY Seed.GOLD_ID
   = Some (mkWallet 0 Seed.TREASURY Seed.GOLD_ID (units 1000100))).
Proof. vm_compute. repeat split. Qed.

(** ** The theorems at concrete inputs *)

Lemma seed_reachable : reachable (db Seed.world).
Proof. apply reachable_init; reflexivity. Defined.


Lemma C2_witness :
  reachable (db Seed.world) /\
  fst Scenario.top_up = Ok (mkTransactionResult "SUCCESS" 5 "200") /\
  amount_rejected (Number_of_Z 5) = false /\
  find_asset (db (snd Scenario.top_up)) "DIAMOND"
  = Some (mkAsset Seed.DIAMOND_ID "DIAMOND") /\
  exists r2 w2 t,
    Scenario.other_arguments = (Ok r2, w2) /\
    txId r2 = 5%nat /\
    db w2 = db (snd Scenario.top_up) /\
    rows_of_key (db w2) "k1" = [t] /\
    tx_id t = 5%nat /\
    length (ledger_of (db w2) (tx_id t)) = 2%nat.
Proof.
  assert (executeTransaction "k1" Seed.TREASURY Seed.ALICE "GOLD" (Number_of_Z 100)
            TOP_UP Seed.world
          = (Ok (mkTransactionResult "SUCCESS" 5 "200"), snd Scenario.top_up))
    as Hrun by (vm_compute; reflexivity).
  assert (amount_rejected (Number_of_Z 5) = false) as Hamount
    by (vm_compute; reflexivity).
  assert (find_asset (db (snd Scenario.top_up)) "DIAMOND"
          = Some (mkAsset Seed.DIAMOND_ID "DIAMOND")) as Hasset
    by (vm_compute; reflexivity).
  split; [exact seed_reachable |]. split; [vm_compute; reflexivity |].
  split; [exact Hamount |]. split; [exact Hasset |].
  exact (C2_idempotent_replay "k1" Seed.TREASURY Seed.ALICE "GOLD"
           (Number_of_Z 100) TOP_UP
           Seed.BOB Seed.TREASURY "DIAMOND" (Number_of_Z 5) SPEND _ Seed.world _ _
           seed_reachable Hrun Hamount Hasset).
Defined.

Lemma C3_witness :
  amount_rejected (Number_of_Z 10000) = false /\
  find_wallet (db Seed.world) Seed.BOB Seed.GOLD_ID
  = Some (mkWallet 3 Seed.BOB Seed.GOLD_ID (units 200)) /\
  0 <= units 200 /\
  num_lt (Number_of_decimal (units 200)) (Number_of_Z 10000) = true /\
  exists w',
    Scenario.overspend = (Throw (JsError "Insufficient funds."), w') /\
    db w' = db Seed.world.
Proof.
  assert (amount_rejected (Number_of_Z 10000) = false) as Hamount
    by (vm_compute; reflexivity).
  assert (0 <= units 200) as Hlow by (unfold units; lia).
  assert (num_lt (Number_of_decimal (units 200)) (Number_of_Z 10000) = true)
    as Hshort by (vm_compute; reflexivity).
  split; [exact Hamount |]. split; [reflexivity |]. split; [exact Hlow |].
  split; [exact Hshort |].
  destruct (C3_insufficient_funds "k3" Seed.BOB Seed.TREASURY "GOLD"
              (Number_of_Z 10000) SPEND
              Seed.world (mkAsset Seed.GOLD_ID "GOLD")
              (mkWallet 3 Seed.BOB Seed.GOLD_ID (units 200))
              (mkWallet 0 Seed.TREASURY Seed.GOLD_ID (units 1000000))
              Hamount eq_refl eq_refl eq_refl eq_refl eq_refl Hlow Hshort)
    as (w' & Hrun & Hdb & _).
  exists w'. split; [exact Hrun | exact Hdb].
Defined.

Lemma C4_witness :
  amount_rejected (Number_of_Z 100) = false /\
  find_transaction (db (snd Scenario.top_up)) "k1"
  = Some (mkTransaction 5 "k1" 0 2 (units 100) TOP_UP "SUCCESS" 1) /\
  exists w',
    Scenario.top_up_again = (Ok (mkTransactionResult "SUCCESS" 5 "0"), w') /\
    db w' = db (snd Scenario.top_up).
Proof.
  assert (amount_rejected (Number_of_Z 100) = false) as Hamount
    by (vm_compute; reflexivity).
  assert (find_asset (db (snd Scenario.top_up)) "GOLD"
          = Some (mkAsset Seed.GOLD_ID "GOLD")) as Hasset
    by (vm_compute; reflexivity).
  assert (find_transaction (db (snd Scenario.top_up)) "k1"
          = Some (mkTransaction 5 "k1" 0 2 (units 100) TOP_UP "SUCCESS" 1)) as Hfind
    by (vm_compute; reflexivity).
  split; [exact Hamount |]. split; [exact Hfind |].
  destruct (C4_duplicate_returns_recorded_id "k1" Seed.TREASURY Seed.ALICE "GOLD"
              (Number_of_Z 100) TOP_UP (snd Scenario.top_up) _ _
              Hamount Hasset Hfind)
    as (w' & Hrun & Hdb & _).
  exists w'. split; [exact Hrun | exact Hdb].
Defined.

Lemma C5_witness :
  amount_rejected (Number_of_Z 0) = true /\
  amount_rejected (Number_of_Z 100) = false /\
  find_asset (db Seed.world) "SILVER" = None /\
  (exists message,
     Scenario.top_up_zero
     = (Throw (ValidationError message), snd Scenario.top_up)) /\
  Scenario.unknown_asset
  = (Throw (NotFoundError "Asset SILVER not found"),
     emit_world (EvAssetFindUnique "SILVER") Seed.world) /\
  (exists r w',
     Scenario.self_spend = (Ok r, w') /\
     status r = "SUCCESS" /\
     option_map wallet_balance
       (find_wallet (db w') Seed.TREASURY Seed.GOLD_ID)
     = Some (units 1000100)).
Proof.
  assert (amount_rejected (Number_of_Z 0) = true) as Hzero
    by (vm_compute; reflexivity).
  assert (amount_rejected (Number_of_Z 100) = false) as Hhundred
    by (vm_compute; reflexivity).
  assert (find_asset (db Seed.world) "SILVER" = None) as Hsilver by reflexivity.
  split; [exact Hzero |]. split; [exact Hhundred |]. split; [exact Hsilver |].
  split; [| split].
  - exact (proj1 (C5_validation_fails_fast "k1" Seed.TREASURY Seed.ALICE "GOLD"
                    (Number_of_Z 0) TOP_UP (snd Scenario.top_up)) Hzero).
  - exact (proj1 (proj1 (proj2 (C5_validation_fails_fast "k11" Seed.TREASURY
                                  Seed.ALICE "SILVER" (Number_of_Z 100) TOP_UP
                                  Seed.world))
                    Hhundred Hsilver)).
  - pose (x := mkWallet 0 Seed.TREASURY Seed.GOLD_ID (units 1000000)).
    assert (column_values x x (Number_of_Z 100) (units 100) (units 999900)
              (units 1000100)) as Hcolumns
      by (split; vm_compute; first [reflexivity | discriminate]).
    assert (0 <= wallet_balance x) as Hlow by (vm_compute; discriminate).
    assert (num_lt (Number_of_decimal (wallet_balance x)) (Number_of_Z 100) = false)
      as Hfunds by (vm_compute; reflexivity).
    assert (String.length "k8" <= 255)%nat as Hkey by (vm_compute; lia).
    destruct (proj2 (proj2 (C5_validation_fails_fast "k8" Seed.TREASURY
                              Seed.TREASURY "GOLD" (Number_of_Z 100) SPEND
                              Seed.world))
                (mkAsset Seed.GOLD_ID "GOLD") x (units 100) (units 999900)
                (units 1000100) Hhundred eq_refl eq_refl eq_refl eq_refl
                Hlow Hfunds Hcolumns Hkey)
      as (r & w' & Hrun & Hstatus & _ & _ & _ & Hends).
    exists r, w'. split; [exact Hrun |]. split; [exact Hstatus | exact Hends].
Defined.

Lemma C6_witness :
  find_transaction (db (snd Scenario.first_dime)) "k7" = None /\
  fst Scenario.second_dime
  = Ok (mkTransactionResult "SUCCESS" 8 "100.19999999999999") /\
  exists asset fw tw stored_from stored_to,
    find_asset (db (snd Scenario.first_dime)) "GOLD" = Some asset /\
    find_wallet (db (snd Scenario.first_dime)) Seed.TREASURY (asset_id asset)
    = Some fw /\
    find_wallet (db (snd Scenario.first_dime)) Seed.ALICE (asset_id asset)
    = Some tw /\
    let newFrom := num_sub (Number_of_decimal (wallet_balance fw)) Scenario.dime in
    let newTo := num_add (Number_of_decimal (wallet_balance tw)) Scenario.dime in
    "100.19999999999999" = Number_toString newTo /\
    to_decimal newFrom = Some stored_from /\
    to_decimal newTo = Some stored_to /\
    wallets (db (snd Scenario.second_dime))
    = List.map (set_balance (wallet_id tw) stored_to)
        (List.map (set_balance (wallet_id fw) stored_from)
                  (wallets (db (snd Scenario.first_dime)))) /\
    option_map wallet_balance
      (find_wallet (db (snd Scenario.second_dime)) Seed.ALICE (asset_id asset))
    = Some stored_to /\
    option_map wallet_balance
      (find_wallet (db (snd Scenario.second_dime)) Seed.TREASURY (asset_id asset))
    = Some (if Nat.eqb (wallet_id fw) (wallet_id tw) then stored_to
            else stored_from).
Proof.
  assert (find_transaction (db (snd Scenario.first_dime)) "k7" = None) as Hnone
    by (vm_compute; reflexivity).
  assert (executeTransaction "k7" Seed.TREASURY Seed.ALICE "GOLD" Scenario.dime
            TOP_UP (snd Scenario.first_dime)
          = (Ok (mkTransactionResult "SUCCESS" 8 "100.19999999999999"),
             snd Scenario.second_dime))
    as Hrun by (vm_compute; reflexivity).
  split; [exact Hnone |]. split; [vm_compute; reflexivity |].
  exact (C6_reported_balance _ _ _ _ _ _ _ _ _ Hnone Hrun).
Defined.

Lemma C7_witness :
  lock_order Seed.ALICE Seed.TREASURY = (Seed.TREASURY, Seed.ALICE) /\
  lock_order Seed.TREASURY Seed.ALICE = (Seed.TREASURY, Seed.ALICE) /\
  exists es,
    trace (snd (transfer "k2" Seed.ALICE Seed.TREASURY "GOLD"
                         (mkAsset Seed.GOLD_ID "GOLD") (Number_of_Z 30) SPEND
                         Seed.world))
    = (trace Seed.world
       ++ [ EvSetLockTimeout; EvTransactionFindUnique "k2";
            EvSelectForUpdate Seed.TREASURY Seed.ALICE Seed.GOLD_ID ]
       ++ es)%list.
Proof.
  pose proof (C7_lock_order_canonical Seed.ALICE Seed.TREASURY) as H.
  assert (lock_order Seed.ALICE Seed.TREASURY = (Seed.TREASURY, Seed.ALICE)) as E
    by (vm_compute; reflexivity).
  rewrite E in H. destruct H as (_ & _ & Hswap & Hread).
  split; [exact E |]. split; [exact Hswap |].
  exact (Hread "k2" "GOLD" (mkAsset Seed.GOLD_ID "GOLD") (Number_of_Z 30) SPEND
               Seed.world eq_refl).
Defined.

Lemma C8_witness :
  sqlstate Scenario.deadlock ∈ RETRYABLE_PG_CODES /\
  amount_rejected (Number_of_Z 100) = false /\
  exists w',
    Scenario.top_up_under [Some Scenario.deadlock]
    = (Throw (raw_query_failed Scenario.deadlock), w') /\
    isRetryable (raw_query_failed Scenario.deadlock) = false /\
    Scenario.attempts w' = 1%nat /\
    Scenario.pauses w' = [] /\
    db w' = db Seed.world.
Proof.
  assert (amount_rejected (Number_of_Z 100) = false) as Hamount
    by (vm_compute; reflexivity).
  split; [vm_compute; set_solver |]. split; [exact Hamount |].
  destruct (C8_lock_failure_is_not_retried "k1" Seed.TREASURY Seed.ALICE "GOLD"
              (Number_of_Z 100) TOP_UP
              (set_contention [Some Scenario.deadlock] Seed.world)
              (mkAsset Seed.GOLD_ID "GOLD") Scenario.deadlock []
              Hamount eq_refl eq_refl eq_refl)
    as (w' & Hrun & _ & Hretry & Htrace & _ & Hdb & _).
  exists w'. split; [exact Hrun |]. split; [exact Hretry |].
  unfold Scenario.attempts, Scenario.pauses. rewrite Htrace, Hdb.
  repeat split.
Defined.

Lemma C9_witness :
  exists h w',
    getTransactionHistory Seed.TREASURY HistoryExample.options
                          HistoryExample.after_bonus = (Ok h, w') /\
    history_transactions h = [] /\
    total (pagination h) = 2 /\
    returned (pagination h) = 0 /\
    hasMore (pagination h) = true.
Proof.
  destruct (getTransactionHistory Seed.TREASURY HistoryExample.options
                                  HistoryExample.after_bonus) as [o w'] eqn:Hrun.
  assert (exists h, o = Ok h /\ history_transactions h = []) as (h & -> & Hempty).
  { assert (fst (getTransactionHistory Seed.TREASURY HistoryExample.options
                                       HistoryExample.after_bonus) = o) as Ho
      by (rewrite Hrun; reflexivity).
    rewrite <- Ho. vm_compute. eexists. split; reflexivity. }
  exists h, w'. split; [reflexivity |].
  destruct (proj1 C9_asset_filter_after_window _ _ _ _ _ Hrun)
    as (_ & Htotal & Hreturned & Hmore).
  rewrite Hmore, Hreturned, Htotal, Hempty.
  assert (offset (pagination h) = 0) as Hoff.
  { apply getTransactionHistory_Ok in Hrun as (_ & _ & _ & Hp).
    rewrite Hp. reflexivity. }
  rewrite Hoff. repeat split; vm_compute; reflexivity.
Defined.

Lemma C10_witness :
  fst Scenario.overspend_posted
  = Ok (mkResponse 400 (JsonFailed "Insufficient funds.")) /\
  cache_lookup (snd Scenario.overspend_posted) (cache_key "k3")
  = Some (CachedFailed "Insufficient funds.") /\
  fst Scenario.overspend_replayed
  = Ok (mkResponse 200 (JsonCached (CachedFailed "Insufficient funds."))).
Proof.
  assert (cache_lookup (snd Scenario.overspend_posted) (cache_key "k3")
          = Some (CachedFailed "Insufficient funds.")) as Hhit
    by (vm_compute; reflexivity).
  split; [vm_compute; reflexivity |]. split; [exact Hhit |].
  unfold Scenario.overspend_replayed.
  rewrite (C10_cached_failure_replayed_as_200 Scenario.overspend_request "k3"
             (CachedFailed "Insufficient funds.") (snd Scenario.overspend_posted)
             eq_refl Hhit).
  reflexivity.
Defined.

(** * Further properties of the service *)

(** ** Balances under a transfer *)


Lemma set_balance_nonnegative id z (l : list Wallet) :
  0 <= z ->
  Forall (fun x => 0 <= wallet_balance x) l ->
  Forall (fun x => 0 <= wallet_balance x) (List.map (set_balance id z) l).
Proof.
  intros Hz. induction 1 as [| x l Hx _ IH]; simpl; constructor; [| exact IH].
  unfold set_balance. destruct (Nat.eqb _ _); simpl; assumption.
Qed.

Lemma sum_set_balance_absent id z (l : list Wallet) :
  ~ In id (List.map wallet_id l) ->
  sum_balances (List.map (set_balance id z) l) = sum_balances l.
Proof.
  unfold sum_balances. induction l as [| x l IH]; intros Hn; simpl; [reflexivity |].
  unfold set_balance at 1.
  destruct (Nat.eqb_spec (wallet_id x) id) as [Heq | _].
  - exfalso. apply Hn. left. exact Heq.
  - rewrite IH; [reflexivity |]. intros Hin. apply Hn. right. exact Hin.
Qed.

Lemma sum_set_balance id z (l : list Wallet) x :
  List.NoDup (List.map wallet_id l) ->
  In x l ->
  wallet_id x = id ->
  sum_balances (List.map (set_balance id z) l)
  = sum_balances l - wallet_balance x + z.
Proof.
  induction l as [| y l IH]; intros Hnd Hin Hid; [destruct Hin |].
  simpl in Hnd. inversion Hnd as [| ? ? Hy Hl]; subst.
  change (sum_balances (set_balance (wallet_id x) z y
                        :: List.map (set_balance (wallet_id x) z) l)
          = sum_balances (y :: l) - wallet_balance x + z).
  unfold sum_balances at 1 2. simpl.
  fold (sum_balances (List.map (set_balance (wallet_id x) z) l)).
  fold (sum_balances l).
  destruct Hin as [-> | Hin].
  - unfold set_balance at 1. rewrite Nat.eqb_refl. simpl.
    rewrite sum_set_balance_absent by exact Hy. lia.
  - unfold set_balance at 1.
    destruct (Nat.eqb_spec (wallet_id y) (wallet_id x)) as [Heq | _].
    + exfalso. apply Hy. rewrite Heq. apply in_map. exact Hin.
    + rewrite (IH Hl Hin eq_refl). lia.
Qed.

Lemma set_balance_twice id z1 z2 (l : list Wallet) :
  List.map (set_balance id z2) (List.map (set_balance id z1) l)
  = List.map (set_balance id z2) l.
Proof.
  induction l as [| x l IH]; simpl; [reflexivity |]. rewrite IH. f_equal.
  unfold set_balance. destruct (Nat.eqb_spec (wallet_id x) id) as [Heq | Hne]; simpl.
  - rewrite Heq, Nat.eqb_refl. reflexivity.
  - destruct (Nat.eqb_spec (wallet_id x) id); [contradiction | reflexivity].
Qed.


Lemma unique_ids_distinct (l : list Wallet) x y :
  List.NoDup (List.map wallet_id l) ->
  In x l -> In y l -> wallet_id x = wallet_id y -> x = y.
Proof.
  induction l as [| z l IH]; intros Hnd Hx Hy Hid; [destruct Hx |].
  simpl in Hnd. inversion Hnd as [| ? ? Hz Hl]; subst.
  destruct Hx as [-> | Hx], Hy as [-> | Hy].
  - reflexivity.
  - exfalso. apply Hz. rewrite Hid. apply in_map. exact Hy.
  - exfalso. apply Hz. rewrite <- Hid. apply in_map. exact Hx.
  - apply IH; assumption.
Qed.

(** X1. Balances never go negative: when every stored balance is
    non-negative before a call to [executeTransaction], every stored
    balance is non-negative after it, whatever the call returns. *)
Theorem balances_stay_nonnegative key from to sym amount ty w o w' :
  balances_nonnegative (db w) ->
  executeTransaction key from to sym amount ty w = (o, w') ->
  balances_nonnegative (db w').
Proof.
  unfold balances_nonnegative. intros Hpos H. destruct o as [r | e].
  - apply executeTransaction_Ok in H as (asset & _ & _ & Hout).
    destruct Hout as [t _ _ -> | fw tw a nf nt created_at _ _ _ _ _ Hcol _ ->];
      [exact Hpos |].
    destruct Hcol as [_ _ _ Hnf _ Hnt].
    simpl. unfold debit_then_credit.
    apply set_balance_nonnegative; [exact Hnt |].
    apply set_balance_nonnegative; [exact Hnf |].
    exact Hpos.
  - apply executeTransaction_Throw in H. rewrite H. exact Hpos.
Qed.


(** X3. A transfer whose two endpoints are the same user is not refused:
    when it commits, the single wallet it finds is first debited and then
    overwritten with the credited balance computed from the balance read
    before the debit, so the wallet ends at the column value of
    Number(balance) + amount and the sum of all stored balances changes
    by the difference between that value and the balance read. *)
Theorem self_transfer_mints key user sym amount ty w r w' :
  wallet_ids_unique (db w) ->
  find_transaction (db w) key = None ->
  executeTransaction key user user sym amount ty w = (Ok r, w') ->
  exists a x newTo,
    to_decimal amount = Some a /\ 0 < a /\
    In x (wallets (db w)) /\ wallet_user_id x = user /\
    to_decimal (num_add (Number_of_decimal (wallet_balance x)) amount)
    = Some newTo /\
    wallets (db w')
    = List.map (set_balance (wallet_id x) newTo) (wallets (db w)) /\
    total_balance (db w') = total_balance (db w) + (newTo - wallet_balance x).
Proof.
  unfold wallet_ids_unique, total_balance. intros Hnd Hnone H.
  apply executeTransaction_Ok in H as (asset & _ & _ & Hout).
  destruct Hout as [t Hf _ _ | fw tw a nf nt created_at _ Hfw Htw _ _ Hcol _ ->].
  - rewrite Hf in Hnone. discriminate Hnone.
  - rewrite Hfw in Htw. injection Htw as <-.
    destruct Hcol as [Ha Hpos _ _ Hnt _].
    apply find_wallet_Some in Hfw as (Hin & Hu & _).
    exists a, fw, nt. simpl. unfold debit_then_credit. rewrite set_balance_twice.
    repeat split; try assumption.
    fold (sum_balances (List.map (set_balance (wallet_id fw) nt) (wallets (db w)))).
    fold (sum_balances (wallets (db w))).
    rewrite (sum_set_balance _ _ _ fw Hnd Hin eq_refl). lia.
Qed.

(** X4. History is append-only: a call to [executeTransaction] leaves the
    assets and users alone and keeps every transaction row and every
    ledger row in place; it appends either nothing or one transaction
    row together with two ledger rows. *)
Theorem tables_are_append_only key from to sym amount ty w o w' :
  executeTransaction key from to sym amount ty w = (o, w') ->
  assets (db w') = assets (db w) /\
  users (db w') = users (db w) /\
  exists ts es,
    transactions (db w') = (transactions (db w) ++ ts)%list /\
    ledger_entries (db w') = (ledger_entries (db w) ++ es)%list /\
    (length ts <= 1)%nat /\ length es = (2 * length ts)%nat.
Proof.
  intros H. destruct o as [r | e].
  - apply executeTransaction_Ok in H as (asset & _ & _ & Hout).
    destruct Hout as [t _ _ -> | fw tw a nf nt created_at _ _ _ _ _ _ _ ->].
    + repeat split. exists [], []. rewrite !app_nil_r. simpl. auto.
    + repeat split. eexists _, _.
      split; [reflexivity |]. split; [reflexivity |]. simpl. auto.
  - apply executeTransaction_Throw in H. rewrite H.
    repeat split. exists [], []. rewrite !app_nil_r. simpl. auto.
Qed.

(** ** What the engine leaves alone *)

Lemma frames_ret {A} (a : A) : frames (ret a).
Proof. intros w. simpl. repeat split. exists []. reflexivity. Qed.

Lemma frames_throw {A} (e : Error) : frames (@throw A e).
Proof. intros w. simpl. repeat split. exists []. reflexivity. Qed.

Lemma frames_emit (e : Event) : frames (emit e).
Proof. intros w. simpl. repeat split. exists []. reflexivity. Qed.

Lemma frames_bind {A B} (c : M A) (k : A -> M B) :
  frames c -> (forall a, frames (k a)) -> frames (bind c k).
Proof.
  intros Hc Hk w. unfold bind. destruct (Hc w) as (H1 & H2 & used1 & H3).
  destruct (c w) as [[a | e] w1]; simpl in H1, H2, H3.
  - destruct (Hk a w1) as (K1 & K2 & used2 & K3).
    rewrite K1, K2, H1, H2. repeat split.
    exists (used1 ++ used2)%list. rewrite H3, K3, app_assoc. reflexivity.
  - simpl. rewrite H1, H2. repeat split. exists used1. exact H3.
Qed.

Lemma frames_asset_findUnique symbol : frames (asset_findUnique symbol).
Proof. intros w. simpl. repeat split. exists []. reflexivity. Qed.

Lemma frames_transaction_findUnique key : frames (transaction_findUnique key).
Proof. intros w. simpl. repeat split. exists []. reflexivity. Qed.

Lemma frames_wallet_findUnique user asset : frames (wallet_findUnique user asset).
Proof. intros w. simpl. repeat split. exists []. reflexivity. Qed.

Lemma frames_selectForUpdate a b c : frames (executeRaw_selectForUpdate a b c).
Proof.
  intros w. unfold executeRaw_selectForUpdate. cbn [contention emit_world].
  destruct (contention w) as [| [e |] rest] eqn:E; simpl; repeat split.
  - exists []. rewrite E. reflexivity.
  - exists [Some e]. reflexivity.
  - exists [None]. reflexivity.
Qed.

Lemma frames_wallet_update id bal : frames (wallet_update id bal).
Proof.
  intros w. unfold wallet_update.
  destruct (to_decimal bal) as [z |]; cbv zeta.
  - destruct (negb _); [simpl; repeat split; exists []; reflexivity |].
    destruct (z <? 0); simpl; repeat split; exists []; reflexivity.
  - simpl. repeat split. exists []. reflexivity.
Qed.

Lemma frames_transaction_create key f t amount ty st :
  frames (transaction_create key f t amount ty st).
Proof.
  intros w. unfold transaction_create. cbv zeta.
  destruct (to_decimal amount) as [a |];
    [| simpl; repeat split; exists []; reflexivity].
  destruct (255 <? String.length key)%nat;
    [simpl; repeat split; exists []; reflexivity |].
  destruct (a <=? 0); [simpl; repeat split; exists []; reflexivity |].
  destruct (existsb _ _); simpl; repeat split; exists []; reflexivity.
Qed.

Lemma frames_ledgerEntry_createMany id data :
  frames (ledgerEntry_createMany id data).
Proof.
  intros w. unfold ledgerEntry_createMany. cbv zeta.
  destruct (ledger_rows _ _ _); simpl; repeat split; exists []; reflexivity.
Qed.

Create HintDb frames.

#[local] Hint Resolve frames_ret frames_throw frames_emit frames_asset_findUnique
  frames_transaction_findUnique frames_wallet_findUnique frames_selectForUpdate
  frames_wallet_update frames_transaction_create frames_ledgerEntry_createMany
  : frames.

Lemma frames_transfer key from to sym asset amount ty :
  frames (transfer key from to sym asset amount ty).
Proof.
  unfold transfer, executeRaw_setLockTimeout.
  apply frames_bind; [auto with frames | intros _].
  apply frames_bind; [auto with frames | intros existing].
  destruct existing as [existing |]; [auto with frames |].
  destruct (lock_order from to) as [lockA lockB].
  apply frames_bind; [auto with frames | intros _].
  apply frames_bind; [auto with frames | intros fw].
  apply frames_bind; [auto with frames | intros tw].
  destruct fw as [fw |]; [| auto with frames].
  destruct tw as [tw |]; [| auto with frames].
  destruct (num_lt _ _); [auto with frames |].
  destruct (num_lt _ _); [auto with frames |].
  repeat (apply frames_bind; [auto with frames | intros ?]).
  auto with frames.
Qed.

Lemma frames_prisma_transaction {A} (body : M A) :
  frames body -> frames (prisma_transaction body).
Proof.
  intros Hb w. unfold prisma_transaction.
  destruct (Hb (emit_world EvBegin (set_clock (S (clock w)) w)))
    as (H1 & H2 & used & H3).
  destruct (body _) as [[a | e] w1]; simpl in *; repeat split;
    try assumption; exists used; exact H3.
Qed.

Lemma frames_withRetry_from {T} (fn : M T) maxAttempts fuel :
  frames fn -> forall attempt, frames (withRetry_from fn maxAttempts attempt fuel).
Proof.
  intros Hfn. induction fuel as [| fuel IH]; intros attempt; simpl.
  - apply frames_throw.
  - intros w. destruct (Hfn w) as (H1 & H2 & used1 & H3).
    destruct (fn w) as [[v | e] w1]; simpl in H1, H2, H3.
    + simpl. repeat split; try assumption. exists used1. exact H3.
    + destruct (isRetryable e && (attempt <? maxAttempts)%nat).
      * unfold bind, setTimeout.
        destruct (IH (S attempt) (paused (2 ^ Z.of_nat attempt * 100) w1))
          as (K1 & K2 & used2 & K3).
        simpl in K1, K2, K3. rewrite K1, K2, H1, H2. repeat split.
        exists (used1 ++ used2)%list. rewrite H3, K3, app_assoc. reflexivity.
      * simpl. repeat split; try assumption. exists used1. exact H3.
Qed.

Lemma frames_executeTransaction key from to sym amount ty :
  frames (executeTransaction key from to sym amount ty).
Proof.
  unfold executeTransaction.
  destruct (_ || _); [auto with frames |].
  destruct (num_gt _ _); [auto with frames |].
  apply frames_bind; [auto with frames | intros asset].
  destruct asset as [asset |]; [| auto with frames].
  unfold withRetry. apply frames_withRetry_from.
  apply frames_prisma_transaction, frames_transfer.
Qed.

(** X5. The transfer engine never touches the idempotency cache nor the
    memoized treasury id, whatever it returns; of the answers of the
    store to locking reads it consumes a prefix. *)
Theorem engine_leaves_cache_alone key from to sym amount ty w o w' :
  executeTransaction key from to sym amount ty w = (o, w') ->
  fic w' = fic w /\ treasuryId w' = treasuryId w /\
  exists used, contention w = (used ++ contention w')%list.
Proof.
  intros H.
  pose proof (frames_executeTransaction key from to sym amount ty w) as F.
  rewrite H in F. exact F.
Qed.

(** ** Where the outcome of a retried action comes from *)

Section RetryOrigin.

Context {T : Type} (fn : M T) (Inv : World -> Prop).
Hypothesis Inv_pause :
  forall w e w' d, Inv w -> fn w = (Throw e, w') -> Inv (paused d w').

Lemma withRetry_from_origin maxAttempts fuel : forall attempt w o w',
  (attempt + fuel = S maxAttempts)%nat ->
  (1 <= fuel)%nat ->
  Inv w ->
  withRetry_from fn maxAttempts attempt fuel w = (o, w') ->
  exists w0, Inv w0 /\ fn w0 = (o, w').
Proof using Inv_pause.
  induction fuel as [| fuel IH]; intros attempt w o w' Hsum Hfuel HI H; [lia |].
  simpl in H. destruct (fn w) as [[v | e] w1] eqn:Hfn.
  - inversion H; subst. exists w. auto.
  - destruct (isRetryable e) eqn:Hr; simpl in H.
    + destruct (Nat.ltb_spec attempt maxAttempts) as [Hlt | Hge].
      * unfold bind, setTimeout in H.
        apply IH in H; [exact H | lia | lia |].
        eapply Inv_pause; eauto.
      * inversion H; subst. exists w. auto.
    + inversion H; subst. exists w. auto.
Qed.

End RetryOrigin.

(** X6. What [withRetry] returns is what its action returned: for one
    attempt or more, every outcome of [withRetry fn maxAttempts], result
    or error, is the outcome of a call of [fn]; the error "Max retry
    attempts exceeded" of the final [throw] is raised only for zero
    attempts, and then [fn] is not called. *)
Theorem withRetry_outcome_is_fn_outcome {T} (fn : M T) maxAttempts w o w' :
  withRetry fn maxAttempts w = (o, w') ->
  (maxAttempts = 0%nat /\
   o = Throw (JsError "Max retry attempts exceeded") /\ w' = w)
  \/ ((1 <= maxAttempts)%nat /\ exists w0, fn w0 = (o, w')).
Proof.
  unfold withRetry. destruct maxAttempts as [| n].
  - simpl. unfold throw. intros H. inversion H; subst. left. auto.
  - intros H. right. split; [lia |].
    apply (withRetry_from_origin fn (fun _ => True)) in H;
      [| auto | lia | lia | exact I].
    destruct H as (w0 & _ & H). exists w0. exact H.
Qed.

(** ** Failures of the engine *)

Lemma timeless_ret {A} (a : A) : timeless (ret a).
Proof. intros w. reflexivity. Qed.

Lemma timeless_throw {A} (e : Error) : timeless (@throw A e).
Proof. intros w. reflexivity. Qed.

Lemma timeless_emit (e : Event) : timeless (emit e).
Proof. intros w. reflexivity. Qed.

Lemma timeless_bind {A B} (c : M A) (k : A -> M B) :
  timeless c -> (forall a, timeless (k a)) -> timeless (bind c k).
Proof.
  intros Hc Hk w. unfold bind. pose proof (Hc w) as H1.
  destruct (c w) as [[a | e] w1]; simpl in H1.
  - rewrite (Hk a w1). exact H1.
  - exact H1.
Qed.

Lemma timeless_asset_findUnique symbol : timeless (asset_findUnique symbol).
Proof. intros w. reflexivity. Qed.

Lemma timeless_transaction_findUnique key : timeless (transaction_findUnique key).
Proof. intros w. reflexivity. Qed.

Lemma timeless_wallet_findUnique user asset :
  timeless (wallet_findUnique user asset).
Proof. intros w. reflexivity. Qed.

Lemma timeless_selectForUpdate a b c : timeless (executeRaw_selectForUpdate a b c).
Proof.
  intros w. unfold executeRaw_selectForUpdate. cbn [contention emit_world].
  destruct (contention w) as [| [e |] rest]; reflexivity.
Qed.

Lemma timeless_wallet_update id bal : timeless (wallet_update id bal).
Proof.
  intros w. unfold wallet_update.
  destruct (to_decimal bal) as [z |]; cbv zeta; [| reflexivity].
  destruct (negb _); [reflexivity |].
  destruct (z <? 0); reflexivity.
Qed.

Lemma timeless_transaction_create key f t amount ty st :
  timeless (transaction_create key f t amount ty st).
Proof.
  intros w. unfold transaction_create. cbv zeta.
  destruct (to_decimal amount) as [a |]; [| reflexivity].
  destruct (255 <? String.length key)%nat; [reflexivity |].
  destruct (a <=? 0); [reflexivity |].
  destruct (existsb _ _); reflexivity.
Qed.

Lemma timeless_ledgerEntry_createMany id data :
  timeless (ledgerEntry_createMany id data).
Proof.
  intros w. unfold ledgerEntry_createMany. cbv zeta.
  destruct (ledger_rows _ _ _); reflexivity.
Qed.

Create HintDb timeless.

#[local] Hint Resolve timeless_ret timeless_throw timeless_emit
  timeless_asset_findUnique timeless_transaction_findUnique
  timeless_wallet_findUnique timeless_selectForUpdate timeless_wallet_update
  timeless_transaction_create timeless_ledgerEntry_createMany : timeless.

Lemma timeless_transfer key from to sym asset amount ty :
  timeless (transfer key from to sym asset amount ty).
Proof.
  unfold transfer, executeRaw_setLockTimeout.
  apply timeless_bind; [auto with timeless | intros _].
  apply timeless_bind; [auto with timeless | intros existing].
  destruct existing as [existing |]; [auto with timeless |].
  destruct (lock_order from to) as [lockA lockB].
  apply timeless_bind; [auto with timeless | intros _].
  apply timeless_bind; [auto with timeless | intros fw].
  apply timeless_bind; [auto with timeless | intros tw].
  destruct fw as [fw |]; [| auto with timeless].
  destruct tw as [tw |]; [| auto with timeless].
  destruct (num_lt _ _); [auto with timeless |].
  destruct (num_lt _ _); [auto with timeless |].
  repeat (apply timeless_bind; [auto with timeless | intros ?]).
  auto with timeless.
Qed.

Lemma timeless_prisma_transaction {A} (body : M A) :
  timeless body -> timeless (prisma_transaction body).
Proof.
  intros Hb w. unfold prisma_transaction.
  pose proof (Hb (emit_world EvBegin (set_clock (S (clock w)) w))) as H.
  destruct (body _) as [[a | e] w1]; simpl in *; exact H.
Qed.

Lemma throw_run_inv {A} (e0 : Error) w e w' :
  @throw A e0 w = (Throw e, w') -> e = e0 /\ w' = w.
Proof. unfold throw. intros H. injection H as <- <-. auto. Qed.

Lemma executeTransaction_Throw_final key from to sym amount ty w e w' :
  executeTransaction key from to sym amount ty w = (Throw e, w') ->
  isRetryable e = false /\ now w' = now w.
Proof.
  intros H. destruct (amount_rejected amount) eqn:Hrej.
  - unfold amount_rejected in Hrej. unfold executeTransaction in H.
    destruct (num_le amount (Number_of_Z 0) || negb (isFinite amount)).
    + apply throw_run_inv in H as [-> ->]. split; reflexivity.
    + cbn [orb] in Hrej. rewrite Hrej in H.
      apply throw_run_inv in H as [-> ->]. split; reflexivity.
  - destruct (find_asset (db w) sym) as [asset |] eqn:Hasset.
    + rewrite (executeTransaction_one_attempt _ _ _ _ _ _ _ _ Hrej Hasset) in H.
      split.
      * apply prisma_transaction_Throw_error in H as (w0 & w1 & H).
        eapply transfer_Throw_not_retryable. exact H.
      * pose proof (timeless_prisma_transaction _
                      (timeless_transfer key from to sym asset amount ty)
                      (emit_world (EvAssetFindUnique sym) w)) as T.
        rewrite H in T. exact T.
    + destruct (proj1 (amount_guards amount) Hrej) as [G1 G2].
      unfold executeTransaction in H. rewrite G1, G2 in H.
      unfold bind, asset_findUnique in H. rewrite Hasset in H.
      apply throw_run_inv in H as [-> ->]. split; reflexivity.
Qed.

(** X7. A failure of the transfer engine is final. Whatever error a call
    to [executeTransaction] throws, be it an error of the service or one
    the store raised, its [code] is none of RETRYABLE_PG_CODES: the
    failed call was never repeated, no pause was taken and the clock
    reads what it read at the start; and the tables are as they were
    before the call. *)
Theorem engine_failure_is_final key from to sym amount ty w e w' :
  executeTransaction key from to sym amount ty w = (Throw e, w') ->
  isRetryable e = false /\ now w' = now w /\ db w' = db w.
Proof.
  intros H. pose proof (executeTransaction_Throw_final _ _ _ _ _ _ _ _ _ H)
    as [Hfinal Hnow].
  split; [exact Hfinal |]. split; [exact Hnow |].
  eapply executeTransaction_Throw. exact H.
Qed.

(** ** Reading back a committed transfer *)

Lemma find_present {A} (p : A -> bool) (l : list A) x :
  In x l -> p x = true -> exists y, List.find p l = Some y.
Proof.
  intros Hin Hp. destruct (List.find p l) as [y |] eqn:Hf; [eauto |].
  eapply find_none in Hf; [| exact Hin]. rewrite Hp in Hf. discriminate Hf.
Qed.

Lemma find_app_absent {A} (p : A -> bool) (l1 l2 : list A) :
  List.find p l1 = None -> List.find p (l1 ++ l2) = List.find p l2.
Proof.
  induction l1 as [| x l1 IH]; simpl; [reflexivity |].
  destruct (p x); [discriminate | exact IH].
Qed.

Lemma wallet_by_id_unique s x :
  wallet_ids_unique s -> In x (wallets s) -> wallet_by_id s (wallet_id x) = Some x.
Proof.
  unfold wallet_ids_unique, wallet_by_id. intros Hnd Hin.
  destruct (find_present (fun y => Nat.eqb (wallet_id y) (wallet_id x))
              (wallets s) x Hin (Nat.eqb_refl _)) as (y & Hy).
  rewrite Hy. f_equal. apply find_some in Hy as [Hyin Hid].
  apply Nat.eqb_eq in Hid.
  apply (unique_ids_distinct _ y x Hnd Hyin Hin Hid).
Qed.

Lemma wallet_by_id_committed s key fw tw a nf nt ty created_at id :
  wallet_by_id (committed s key fw tw a nf nt ty created_at) id
  = option_map
      (fun x => set_balance (wallet_id tw) nt (set_balance (wallet_id fw) nf x))
      (wallet_by_id s id).
Proof.
  unfold wallet_by_id, committed, debit_then_credit. cbn [wallets].
  rewrite !find_map_stable.
  - destruct (List.find _ _); reflexivity.
  - intros x. rewrite set_balance_id. reflexivity.
  - intros x. rewrite set_balance_id. reflexivity.
Qed.



Lemma with_relations_row s t r : with_relations s t = Some r -> row r = t.
Proof.
  unfold with_relations.
  destruct (wallet_by_id _ _); [| discriminate].
  destruct (wallet_by_id _ _); [| discriminate].
  destruct (asset_by_id _ _); [| discriminate].
  destruct (asset_by_id _ _); [| discriminate].
  intros H. inversion H. reflexivity.
Qed.

Lemma find_row_absent s (l : list Transaction) id :
  Forall (fun t => tx_id t <> id) l ->
  List.find (fun r => Nat.eqb (tx_id (row r)) id) (omap (with_relations s) l) = None.
Proof.
  induction 1 as [| t l Ht _ IH]; [reflexivity |].
  cbn [omap list_omap]. destruct (with_relations s t) as [r |] eqn:Hr; [| exact IH].
  simpl. rewrite (with_relations_row _ _ _ Hr).
  destruct (Nat.eqb_spec (tx_id t) id); [contradiction | exact IH].
Qed.

(** X10. Round trip through [getTransactionById]. In a store reached from
    empty transaction and ledger tables, with unique wallet ids, after a
    successful [executeTransaction] under a new key, looking up the
    returned [txId] gives back the key, the type, the status SUCCESS, the
    two users, the amount as its DECIMAL(18,4) column keeps it, and a
    ledger of exactly two lines: the DEBIT on the from-wallet and the
    CREDIT on the to-wallet, both of that amount, with the column values
    of the two balances the transfer computed. *)
Theorem transaction_read_back key from to sym amount ty w r w' :
  reachable (db w) ->
  wallet_ids_unique (db w) ->
  find_transaction (db w) key = None ->
  executeTransaction key from to sym amount ty w = (Ok r, w') ->
  exists d fw tw asset a newFrom newTo,
    find_asset (db w) sym = Some asset /\
    find_wallet (db w) from (asset_id asset) = Some fw /\
    find_wallet (db w) to (asset_id asset) = Some tw /\
    to_decimal amount = Some a /\
    to_decimal (num_sub (Number_of_decimal (wallet_balance fw)) amount)
    = Some newFrom /\
    to_decimal (num_add (Number_of_decimal (wallet_balance tw)) amount)
    = Some newTo /\
    getTransactionById (txId r) (db w') = Ok d /\
    detail_id d = txId r /\
    detail_idempotencyKey d = key /\
    detail_type d = ty /\
    detail_amount d = Decimal_toString a /\
    detail_fromUser d = from /\
    detail_toUser d = to /\
    detail_status d = "SUCCESS" /\
    detail_ledger d
    = [ mkLedgerLine DEBIT (wallet_id fw) (Decimal_toString a)
                     (Decimal_toString newFrom);
        mkLedgerLine CREDIT (wallet_id tw) (Decimal_toString a)
                     (Decimal_toString newTo) ].
Proof.
  intros Hreach Hnd Hnone H.
  pose proof (reachable_consistent _ Hreach) as Hc.
  apply executeTransaction_Ok in H as (asset & _ & Hasset & Hout).
  destruct Hout as [t Hf _ _ | fw tw a nf nt created_at _ Hfw Htw _ _ Hcol -> ->].
  { rewrite Hf in Hnone. discriminate Hnone. }
  destruct Hcol as [Ha _ Hnf _ Hnt _].
  pose proof (find_wallet_Some _ _ _ _ Hfw) as (Hfin & Hfu & Hfa).
  pose proof (find_wallet_Some _ _ _ _ Htw) as (Htin & Htu & Hta).
  assert (exists fa, asset_by_id (db w) (asset_id asset) = Some fa) as (fa & Hfa').
  { unfold find_asset in Hasset. apply find_some in Hasset as [Hin _].
    apply (find_present _ _ asset Hin). apply String.eqb_refl. }
  set (s' := committed (db w) key fw tw a nf nt ty created_at).
  set (t := new_transaction (db w) key fw tw a ty created_at).
  set (upd := fun x => set_balance (wallet_id tw) nt
                         (set_balance (wallet_id fw) nf x)).
  assert (with_relations s' t
          = Some (mkTransactionWithWallets t (upd fw) fa (upd tw) fa)) as Hrel.
  { unfold with_relations, s', t. cbn [new_transaction tx_from_wallet_id tx_to_wallet_id].
    rewrite !wallet_by_id_committed.
    rewrite (wallet_by_id_unique _ _ Hnd Hfin), (wallet_by_id_unique _ _ Hnd Htin).
    cbn [option_map]. unfold upd. rewrite !set_balance_asset.
    change (asset_by_id (committed (db w) key fw tw a nf nt ty created_at))
      with (asset_by_id (db w)).
    rewrite Hfa, Hta, Hfa'. reflexivity. }
  assert (List.find (fun r0 => Nat.eqb (tx_id (row r0)) (next_uuid (db w)))
            (omap (with_relations s') (transactions s'))
          = Some (mkTransactionWithWallets t (upd fw) fa (upd tw) fa)) as Hfind.
  { unfold s' at 2. unfold committed. cbn [transactions]. fold t.
    rewrite omap_app. rewrite find_app_absent.
    - cbn [omap list_omap]. rewrite Hrel. simpl. rewrite Nat.eqb_refl. reflexivity.
    - apply find_row_absent.
      eapply List.Forall_impl; [| apply (tx_ids_below _ Hc)].
      simpl. intros t0 Ht0. lia. }
  eexists _, fw, tw, asset, a, nf, nt.
  split; [exact Hasset |]. split; [exact Hfw |]. split; [exact Htw |].
  split; [exact Ha |]. split; [exact Hnf |]. split; [exact Hnt |].
  cbn [txId]. unfold getTransactionById. fold s'. rewrite Hfind.
  split; [reflexivity |].
  cbn [detail_id detail_idempotencyKey detail_type detail_amount detail_fromUser
       detail_toUser detail_status detail_ledger row from_wallet to_wallet].
  unfold upd. rewrite !set_balance_user, Hfu, Htu.
  unfold s'. rewrite (ledger_of_committed_new _ _ _ _ _ _ _ _ _ Hc).
  repeat split.
Qed.

(** ** The ledger listing *)

Lemma Forall_page {A} (P : A -> Prop) (l : list A) n m :
  Forall P l -> Forall P (firstn n (skipn m l)).
Proof.
  intros H. rewrite <- (firstn_skipn m l) in H.
  apply Forall_app in H as [_ H].
  rewrite <- (firstn_skipn n (skipn m l)) in H.
  apply Forall_app in H as [H _]. exact H.
Qed.

Lemma Forall_insert_entry_desc (P : LedgerEntryWithRelations -> Prop) r l :
  P r -> Forall P l -> Forall P (insert_entry_desc r l).
Proof.
  intros Hr. induction 1 as [| y l Hy Hl IH]; simpl.
  - constructor; [exact Hr | constructor].
  - destruct (_ <? _)%nat.
    + constructor; [exact Hr |]. constructor; assumption.
    + constructor; assumption.
Qed.

Lemma length_insert_entry_desc r l :
  length (insert_entry_desc r l) = S (length l).
Proof.
  induction l as [| y l IH]; simpl; [reflexivity |].
  destruct (_ <? _)%nat; simpl; [reflexivity | rewrite IH; reflexivity].
Qed.

Lemma ledger_selection_filtered s userId assetSymbol :
  Forall (fun r => walletFilter userId assetSymbol r = true)
         (ledger_selection s userId assetSymbol).
Proof.
  unfold ledger_selection.
  induction (omap (entry_with_relations s) (ledger_entries s)) as [| r l IH];
    simpl; [constructor |].
  destruct (walletFilter userId assetSymbol r) eqn:Hr; [| exact IH].
  simpl. apply Forall_insert_entry_desc; assumption.
Qed.

(** X11. The ledger listing pages exactly. When [getLedger] returns, the
    limit it reports is the limit asked for, 50 when none was given, and
    the offset the offset asked for, 0 when none was given; its entries
    are the rows selected for the user (and for the asset symbol, when
    one is given) from position [offset] on, at most [limit] of them;
    [total] counts the rows selected, and [hasMore] is true exactly when
    selected rows remain beyond the page. *)
Theorem getLedger_pages_exactly userId options s page :
  getLedger userId options s = Ok page ->
  let p := ledger_pagination page in
  let selected := ledger_selection s userId (ledger_assetSymbol options) in
  limit p = default 50 (ledger_limit options) /\
  offset p = default 0 (ledger_offset options) /\
  1 <= limit p <= 500 /\ 0 <= offset p /\
  total p = Z.of_nat (length selected) /\
  returned p = Z.of_nat (length (entries page)) /\
  returned p <= limit p /\
  (hasMore p = true <-> skipn (Z.to_nat (offset p + limit p)) selected <> []) /\
  entries page
  = List.map ledger_item
      (firstn (Z.to_nat (default 50 (ledger_limit options)))
              (skipn (Z.to_nat (default 0 (ledger_offset options))) selected)) /\
  Forall (fun r => wallet_user_id (entry_wallet r) = userId /\
                   forall symbol,
                     truthy (ledger_assetSymbol options) = Some symbol ->
                     asset_symbol (entry_asset r) = symbol)
         (firstn (Z.to_nat (default 50 (ledger_limit options)))
                 (skipn (Z.to_nat (default 0 (ledger_offset options))) selected)).
Proof.
  unfold getLedger. intros H.
  destruct ((default 50 (ledger_limit options) <? 1)
            || (default 50 (ledger_limit options) >? 500)) eqn:G1; [discriminate H |].
  destruct (default 0 (ledger_offset options) <? 0) eqn:G2; [discriminate H |].
  apply orb_false_iff in G1 as [G1a G1b].
  apply Z.ltb_ge in G1a, G2. rewrite Z.gtb_ltb in G1b. apply Z.ltb_ge in G1b.
  destruct (List.find _ _); [| discriminate H].
  inversion H; subst page; clear H.
  cbn [ledger_pagination entries limit offset total returned hasMore].
  set (lim := default 50 (ledger_limit options)) in *.
  set (off := default 0 (ledger_offset options)) in *.
  set (selected := ledger_selection s userId (ledger_assetSymbol options)).
  rewrite length_map, length_firstn, length_skipn.
  repeat split; try lia.
  - intros Hmore Hnil. apply Z.ltb_lt in Hmore.
    apply skipn_all_iff in Hnil. lia.
  - intros Hrest. apply Z.ltb_lt.
    assert (~ (length selected <= Z.to_nat (off + lim))%nat) as Hlen
      by (intros Hle; apply Hrest, skipn_all_iff; exact Hle).
    lia.
  - apply Forall_page.
    eapply List.Forall_impl; [| apply ledger_selection_filtered].
    intros r Hr. unfold walletFilter in Hr.
    apply andb_true_iff in Hr as [Hu Hs]. apply String.eqb_eq in Hu.
    split; [exact Hu |]. intros symbol Hsym. rewrite Hsym in Hs.
    apply String.eqb_eq in Hs. exact Hs.
Qed.

(** ** The balance endpoint *)

Lemma upper_ascii_idempotent c : upper_ascii (upper_ascii c) = upper_ascii c.
Proof.
  destruct c as [[] [] [] [] [] [] [] []]; reflexivity.
Qed.

Lemma toUpperCase_idempotent s : toUpperCase (toUpperCase s) = toUpperCase s.
Proof.
  induction s as [| c s IH]; simpl; [reflexivity |].
  rewrite upper_ascii_idempotent, IH. reflexivity.
Qed.

(** X12. The balance endpoint reads the asset without regard to case and
    defaults to GOLD: a query [asset=sym] is answered like
    [asset=SYM], and an absent or empty [asset] like [asset=GOLD]. *)
Theorem getBalance_handler_asset_case userId sym s :
  getBalance_handler userId (Some sym) s
  = getBalance_handler userId (Some (toUpperCase sym)) s
  /\ getBalance_handler userId None s = getBalance_handler userId (Some "GOLD") s
  /\ getBalance_handler userId (Some "") s = getBalance_handler userId (Some "GOLD") s.
Proof.
  split; [| split; reflexivity].
  unfold getBalance_handler.
  destruct sym as [| c sym]; [reflexivity |].
  cbn [truthy default from_option id toUpperCase].
  rewrite upper_ascii_idempotent, toUpperCase_idempotent. reflexivity.
Qed.




(** ** The idempotency cache *)

Lemma cache_key_injective k1 k2 : cache_key k1 = cache_key k2 -> k1 = k2.
Proof. unfold cache_key. intros H. inversion H as [H1]. exact H1. Qed.

Lemma cache_lookup_elapse ms w key :
  cache_lookup (elapse ms w) key
  = match fic w !! key with
    | Some (value, expires) => if now w + ms <? expires then Some value else None
    | None => None
    end.
Proof. reflexivity. Qed.

(** X14. Reserving and finalizing, and for how long. On a key the cache
    does not hold, [checkAndReserveIdempotencyKey] returns null and
    leaves PROCESSING under the key for PROCESSING_TTL seconds: a check
    of the same key made less than that later returns PROCESSING, a check
    made that much later or more finds nothing and returns null again.
    After [saveIdempotencyResult] a check returns the outcome saved for
    CACHE_TTL seconds, and nothing after that. Neither call lets time
    pass, changes what the cache holds for another key, or touches the
    store. *)
Theorem reserve_then_finalize key response w :
  cache_lookup w (cache_key key) = None ->
  let w1 := snd (checkAndReserveIdempotencyKey key w) in
  let w2 := snd (saveIdempotencyResult key response w1) in
  fst (checkAndReserveIdempotencyKey key w) = Ok None /\
  (forall ms,
     fst (checkAndReserveIdempotencyKey key (elapse ms w1))
     = Ok (if ms <? IDEMPOTENCY.PROCESSING_TTL * 1000
           then Some (CachedProcessing None) else None)) /\
  (forall ms,
     fst (checkAndReserveIdempotencyKey key (elapse ms w2))
     = Ok (if ms <? IDEMPOTENCY.CACHE_TTL * 1000 then Some response else None)) /\
  db w2 = db w /\ now w2 = now w /\
  forall other,
    other <> key ->
    cache_lookup w2 (cache_key other) = cache_lookup w (cache_key other).
Proof.
  intros Hmiss. cbv zeta. rewrite (checkAndReserve_miss _ _ Hmiss). cbn [fst snd].
  split; [reflexivity |]. split; [| split].
  - intros ms.
    assert (cache_lookup (elapse ms (reserved key w)) (cache_key key)
            = if ms <? IDEMPOTENCY.PROCESSING_TTL * 1000
              then Some (CachedProcessing None) else None) as Hlook.
    { rewrite cache_lookup_elapse. unfold reserved.
      cbn [fic now set_fic emit_world]. rewrite lookup_insert_eq.
      destruct (Z.ltb_spec ms (IDEMPOTENCY.PROCESSING_TTL * 1000));
        destruct (Z.ltb_spec (now w + ms)
                    (now w + IDEMPOTENCY.PROCESSING_TTL * 1000));
        first [reflexivity | lia]. }
    destruct (ms <? IDEMPOTENCY.PROCESSING_TTL * 1000).
    + rewrite (checkAndReserve_hit _ _ _ Hlook). reflexivity.
    + rewrite (checkAndReserve_miss _ _ Hlook). reflexivity.
  - intros ms. rewrite saveIdempotencyResult_run. cbn [snd].
    match goal with
    | |- fst (checkAndReserveIdempotencyKey key (elapse ms ?w2)) = _ =>
      assert (cache_lookup (elapse ms w2) (cache_key key)
              = if ms <? IDEMPOTENCY.CACHE_TTL * 1000 then Some response else None)
        as Hlook
    end.
    { rewrite cache_lookup_elapse. unfold reserved.
      cbn [fic now set_fic emit_world]. rewrite lookup_insert_eq.
      destruct (Z.ltb_spec ms (IDEMPOTENCY.CACHE_TTL * 1000));
        destruct (Z.ltb_spec (now w + ms) (now w + IDEMPOTENCY.CACHE_TTL * 1000));
        first [reflexivity | lia]. }
    destruct (ms <? IDEMPOTENCY.CACHE_TTL * 1000).
    + rewrite (checkAndReserve_hit _ _ _ Hlook). reflexivity.
    + rewrite (checkAndReserve_miss _ _ Hlook). reflexivity.
  - rewrite saveIdempotencyResult_run. cbn [snd].
    split; [reflexivity |]. split; [reflexivity |]. intros other Hne.
    unfold cache_lookup, reserved. cbn [fic now set_fic emit_world].
    rewrite !lookup_insert_ne; [reflexivity | |];
      intros Heq; apply Hne; symmetry; apply cache_key_injective; exact Heq.
Qed.

(** ** The treasury id *)

Lemma truthy_nonempty id : id <> "" -> truthy (Some id) = Some id.
Proof. destruct id; [contradiction | reflexivity]. Qed.

(** X15. The treasury id is looked up once. When [getTreasuryId] returns
    a non-empty id, the store is as before, and from then on
    [getTreasuryId] returns the same id without any call to the store,
    leaving the world as it is. Without a memoized id and without a user
    of the treasury email it throws and memoizes nothing. *)
Theorem getTreasuryId_memoizes w :
  (forall id w1,
     getTreasuryId w = (Ok id, w1) ->
     id <> "" ->
     db w1 = db w /\ fic w1 = fic w /\ getTreasuryId w1 = (Ok id, w1))
  /\
  (truthy (treasuryId w) = None ->
   List.find (fun u => String.eqb (user_email u) SYSTEM_USERS.TREASURY_EMAIL)
             (users (db w)) = None ->
   exists message w1,
     getTreasuryId w = (Throw (JsError message), w1) /\
     treasuryId w1 = treasuryId w /\ db w1 = db w).
Proof.
  split.
  - intros id w1 H Hid. unfold getTreasuryId in H.
    destruct (truthy (treasuryId w)) as [t |] eqn:Hmemo.
    + inversion H; subst t w1. repeat split.
      unfold getTreasuryId. rewrite Hmemo. reflexivity.
    + unfold bind, user_findUnique_email in H.
      destruct (List.find _ _) as [u |]; [| discriminate H].
      inversion H; subst id w1. repeat split.
      unfold getTreasuryId. cbn [treasuryId set_treasuryId].
      rewrite (truthy_nonempty _ Hid). reflexivity.
  - intros Hmemo Hnone. unfold getTreasuryId. rewrite Hmemo.
    unfold bind, user_findUnique_email. rewrite Hnone.
    eexists _, _. split; [reflexivity |]. split; reflexivity.
Qed.

(** ** The answers of the controller *)

Lemma processTransaction_no_key req w :
  truthy (header_idempotency_key req) = None ->
  processTransaction req w
  = (Ok (mkResponse StatusCodes.BAD_REQUEST
           (JsonErrorResponse "Idempotency-Key header is required")), w).
Proof. intros Hkey. unfold processTransaction. rewrite Hkey. reflexivity. Qed.

Lemma processTransaction_cache_hit req key cached w :
  truthy (header_idempotency_key req) = Some key ->
  cache_lookup w (cache_key key) = Some cached ->
  processTransaction req w
  = (Ok match cached with
        | CachedProcessing _ =>
          mkResponse StatusCodes.CONFLICT
            (JsonErrorResponse
               "Transaction is currently processing. Please retry later.")
        | _ => mkResponse StatusCodes.OK (JsonCached cached)
        end,
     emit_world (EvRedisGet (cache_key key)) w).
Proof.
  intros Hkey Hhit. unfold processTransaction. rewrite Hkey.
  unfold bind at 1. rewrite (checkAndReserve_hit _ _ _ Hhit).
  unfold ret. destruct cached; reflexivity.
Qed.

Lemma processTransaction_miss req key w :
  truthy (header_idempotency_key req) = Some key ->
  cache_lookup w (cache_key key) = None ->
  exists resp w',
    processTransaction req w = (Ok resp, w') /\ miss_outcome req key w resp w'.
Proof.
  intros Hkey Hmiss. unfold processTransaction. rewrite Hkey.
  unfold bind at 1. rewrite (checkAndReserve_miss _ _ Hmiss).
  unfold try_catch.
  destruct (transactionSchema_safeParse (body req)) as [p |] eqn:Hparse.
  - destruct (getTreasuryId (reserved key w)) as [[treasury | e] w2] eqn:Ht.
    + rewrite (bind_run_Ok _ _ _ _ _ Ht).
      fold (resolved_from treasury p). fold (resolved_to treasury p).
      destruct (executeTransaction key (resolved_from treasury p)
                  (resolved_to treasury p) (assetSymbol p) (amount p) (type p) w2)
        as [[r | e] w3] eqn:He.
      * rewrite (bind_run_Ok _ _ _ _ _ He).
        unfold bind. rewrite saveIdempotencyResult_run. unfold ret.
        eexists _, _. split; [reflexivity |].
        eapply miss_executed; eauto.
        unfold saved. cbn [fic now set_fic emit_world]. apply lookup_insert_eq.
      * rewrite (bind_run_Throw _ _ _ _ _ He).
        unfold bind. rewrite saveIdempotencyResult_run. unfold ret.
        eexists _, _. split; [reflexivity |].
        eapply (miss_failed _ _ _ _ _ p e w3); eauto.
        unfold saved. cbn [fic now set_fic emit_world]. apply lookup_insert_eq.
    + rewrite (bind_run_Throw _ _ _ _ _ Ht).
      unfold bind. rewrite saveIdempotencyResult_run. unfold ret.
      eexists _, _. split; [reflexivity |].
      eapply (miss_failed _ _ _ _ _ p e w2); eauto.
      unfold saved. cbn [fic now set_fic emit_world]. apply lookup_insert_eq.
  - unfold bind. rewrite saveIdempotencyResult_run. unfold ret.
    eexists _, _. split; [reflexivity |].
    apply miss_invalid; auto.
    unfold saved. cbn [fic now set_fic emit_world]. apply lookup_insert_eq.
Qed.

Lemma miss_outcome_status req key w resp w' :
  miss_outcome req key w resp w' ->
  statusCode resp <> 409 /\
  (statusCode resp = 200 \/ statusCode resp = 400 \/ statusCode resp = 500) /\
  json resp <> JsonErrorResponse "Idempotency-Key header is required".
Proof.
  intros Hout.
  destruct Hout as [_ -> _ _ | p t w2 r w3 _ _ _ -> _ _ | p e w3 _ _ -> _ _];
    cbn [statusCode json].
  - unfold StatusCodes.BAD_REQUEST. repeat split; [discriminate | tauto | discriminate].
  - unfold StatusCodes.OK. repeat split; [discriminate | tauto | discriminate].
  - unfold StatusCodes.BAD_REQUEST, StatusCodes.INTERNAL_SERVER_ERROR.
    destruct (_ || _); repeat split; try discriminate; tauto.
Qed.

(** X16. What the controller answers. Whenever it answers a request, the
    status is 200, 400, 409 or 500; the answer "Idempotency-Key header is
    required" is given exactly when the header is absent or empty, with
    status 400 and without any call to the cache or to the store; and a
    request whose key the cache holds as PROCESSING is answered 409. *)
Theorem processTransaction_answers req w resp w' :
  processTransaction req w = (Ok resp, w') ->
  (statusCode resp = 200 \/ statusCode resp = 400
   \/ statusCode resp = 409 \/ statusCode resp = 500) /\
  (json resp = JsonErrorResponse "Idempotency-Key header is required" <->
   truthy (header_idempotency_key req) = None) /\
  (truthy (header_idempotency_key req) = None ->
   statusCode resp = 400 /\ w' = w) /\
  (forall key message,
     truthy (header_idempotency_key req) = Some key ->
     cache_lookup w (cache_key key) = Some (CachedProcessing message) ->
     statusCode resp = 409).
Proof.
  intros Hrun.
  destruct (truthy (header_idempotency_key req)) as [key |] eqn:Hkey.
  - destruct (cache_lookup w (cache_key key)) as [cached |] eqn:Hc.
    + rewrite (processTransaction_cache_hit _ _ _ _ Hkey Hc) in Hrun.
      injection Hrun as <- <-.
      destruct cached as [m | id bal | err]; cbn [statusCode json];
        unfold StatusCodes.CONFLICT, StatusCodes.OK.
      * split; [tauto |]. split; [split; discriminate |].
        split; [discriminate |]. intros k m' _ _. reflexivity.
      * split; [tauto |]. split; [split; discriminate |].
        split; [discriminate |]. intros k m' Hk Hm.
        injection Hk as <-. rewrite Hc in Hm. discriminate Hm.
      * split; [tauto |]. split; [split; discriminate |].
        split; [discriminate |]. intros k m' Hk Hm.
        injection Hk as <-. rewrite Hc in Hm. discriminate Hm.
    + destruct (processTransaction_miss _ _ _ Hkey Hc) as (resp0 & w0 & Hrun' & Hout).
      rewrite Hrun in Hrun'. injection Hrun' as <- <-.
      destruct (miss_outcome_status _ _ _ _ _ Hout) as (Hn409 & Hset & Hbody).
      split; [tauto |]. split; [split; [contradiction | discriminate] |].
      split; [discriminate |]. intros k m' Hk Hm.
      injection Hk as <-. rewrite Hc in Hm. discriminate Hm.
  - rewrite (processTransaction_no_key _ _ Hkey) in Hrun.
    injection Hrun as <- <-.
    cbn [statusCode json]. unfold StatusCodes.BAD_REQUEST.
    split; [tauto |]. split; [tauto |].
    split; [auto |]. intros k m' Hk _. discriminate Hk.
Qed.

(** *** Time and the cache across requests *)

Lemma timeless_try_catch {A} (c : M A) (handler : Error -> M A) :
  timeless c -> (forall e, timeless (handler e)) -> timeless (try_catch c handler).
Proof.
  intros Hc Hh w. unfold try_catch. pose proof (Hc w) as H1.
  destruct (c w) as [[a | e] w1]; simpl in H1.
  - exact H1.
  - rewrite (Hh e w1). exact H1.
Qed.

Lemma timeless_executeTransaction key from to sym amount ty :
  timeless (executeTransaction key from to sym amount ty).
Proof.
  intros w. destruct (amount_rejected amount) eqn:Hrej.
  - unfold amount_rejected in Hrej. unfold executeTransaction.
    destruct (num_le amount (Number_of_Z 0) || negb (isFinite amount));
      [reflexivity |].
    cbn [orb] in Hrej. rewrite Hrej. reflexivity.
  - destruct (find_asset (db w) sym) as [asset |] eqn:Hasset.
    + rewrite (executeTransaction_one_attempt _ _ _ _ _ _ _ _ Hrej Hasset).
      apply (timeless_prisma_transaction _
               (timeless_transfer key from to sym asset amount ty)
               (emit_world (EvAssetFindUnique sym) w)).
    + destruct (proj1 (amount_guards amount) Hrej) as [G1 G2].
      unfold executeTransaction. rewrite G1, G2.
      unfold bind, asset_findUnique. rewrite Hasset. reflexivity.
Qed.

Lemma timeless_getTreasuryId : timeless getTreasuryId.
Proof.
  intros w. unfold getTreasuryId.
  destruct (truthy (treasuryId w)); [reflexivity |].
  unfold bind, user_findUnique_email.
  destruct (List.find _ _); reflexivity.
Qed.

Lemma timeless_checkAndReserve key : timeless (checkAndReserveIdempotencyKey key).
Proof.
  intros w. unfold checkAndReserveIdempotencyKey, bind, redis_get.
  destruct (cache_lookup w (cache_key key)); [reflexivity |].
  unfold redis_set_nx. cbv zeta.
  destruct (cache_lookup _ _); reflexivity.
Qed.

Lemma timeless_saveIdempotencyResult key value :
  timeless (saveIdempotencyResult key value).
Proof. intros w. reflexivity. Qed.

Lemma timeless_processTransaction req : timeless (processTransaction req).
Proof.
  unfold processTransaction.
  destruct (truthy (header_idempotency_key req)) as [key |];
    [| apply timeless_ret].
  apply timeless_bind; [apply timeless_checkAndReserve | intros cached].
  destruct cached as [[m | id bal | err] |]; try apply timeless_ret.
  apply timeless_try_catch.
  - destruct (transactionSchema_safeParse (body req)) as [p |].
    + apply timeless_bind; [apply timeless_getTreasuryId | intros t].
      apply timeless_bind; [apply timeless_executeTransaction | intros r].
      apply timeless_bind; [apply timeless_saveIdempotencyResult | intros _].
      apply timeless_ret.
    + apply timeless_bind; [apply timeless_saveIdempotencyResult | intros _].
      apply timeless_ret.
  - intros e. cbv zeta.
    apply timeless_bind; [apply timeless_saveIdempotencyResult | intros _].
    apply timeless_ret.
Qed.

Lemma writes_cache_at_ret key {A} (a : A) : writes_cache_at key (ret a).
Proof. intros w other _. reflexivity. Qed.

Lemma writes_cache_at_bind key {A B} (c : M A) (k : A -> M B) :
  writes_cache_at key c -> (forall a, writes_cache_at key (k a)) ->
  writes_cache_at key (bind c k).
Proof.
  intros Hc Hk w other Hne. unfold bind. pose proof (Hc w other Hne) as H1.
  destruct (c w) as [[a | e] w1]; simpl in H1.
  - rewrite (Hk a w1 other Hne). exact H1.
  - exact H1.
Qed.

Lemma writes_cache_at_try_catch key {A} (c : M A) (handler : Error -> M A) :
  writes_cache_at key c -> (forall e, writes_cache_at key (handler e)) ->
  writes_cache_at key (try_catch c handler).
Proof.
  intros Hc Hh w other Hne. unfold try_catch. pose proof (Hc w other Hne) as H1.
  destruct (c w) as [[a | e] w1]; simpl in H1.
  - exact H1.
  - rewrite (Hh e w1 other Hne). exact H1.
Qed.

Lemma writes_cache_at_frames key {A} (c : M A) : frames c -> writes_cache_at key c.
Proof.
  intros Hc w other _. destruct (Hc w) as (Hfic & _). rewrite Hfic. reflexivity.
Qed.

Lemma writes_cache_at_getTreasuryId key : writes_cache_at key getTreasuryId.
Proof.
  intros w other _. unfold getTreasuryId.
  destruct (truthy (treasuryId w)); [reflexivity |].
  unfold bind, user_findUnique_email.
  destruct (List.find _ _); reflexivity.
Qed.

Lemma writes_cache_at_checkAndReserve key :
  writes_cache_at (cache_key key) (checkAndReserveIdempotencyKey key).
Proof.
  intros w other Hne. unfold checkAndReserveIdempotencyKey, bind, redis_get.
  destruct (cache_lookup w (cache_key key)); [reflexivity |].
  unfold redis_set_nx. cbv zeta.
  destruct (cache_lookup _ _); [reflexivity |].
  cbn [snd fic set_fic emit_world]. apply lookup_insert_ne.
  intros Heq. apply Hne. symmetry. exact Heq.
Qed.

Lemma writes_cache_at_saveIdempotencyResult key value :
  writes_cache_at (cache_key key) (saveIdempotencyResult key value).
Proof.
  intros w other Hne. rewrite saveIdempotencyResult_run.
  cbn [snd fic set_fic emit_world]. apply lookup_insert_ne.
  intros Heq. apply Hne. symmetry. exact Heq.
Qed.

Lemma writes_cache_at_processTransaction req key :
  truthy (header_idempotency_key req) = Some key ->
  writes_cache_at (cache_key key) (processTransaction req).
Proof.
  intros Hkey. unfold processTransaction. rewrite Hkey.
  apply writes_cache_at_bind; [apply writes_cache_at_checkAndReserve | intros cached].
  destruct cached as [[m | id bal | err] |]; try apply writes_cache_at_ret.
  apply writes_cache_at_try_catch.
  - destruct (transactionSchema_safeParse (body req)) as [p |].
    + apply writes_cache_at_bind; [apply writes_cache_at_getTreasuryId | intros t].
      apply writes_cache_at_bind;
        [apply writes_cache_at_frames, frames_executeTransaction | intros r].
      apply writes_cache_at_bind;
        [apply writes_cache_at_saveIdempotencyResult | intros _].
      apply writes_cache_at_ret.
    + apply writes_cache_at_bind;
        [apply writes_cache_at_saveIdempotencyResult | intros _].
      apply writes_cache_at_ret.
  - intros e. cbv zeta.
    apply writes_cache_at_bind;
      [apply writes_cache_at_saveIdempotencyResult | intros _].
    apply writes_cache_at_ret.
Qed.

Lemma later_keeps_entry w1 w2 key value expires :
  later w1 w2 ->
  now w2 < expires ->
  fic w1 !! cache_key key = Some (value, expires) ->
  fic w2 !! cache_key key = Some (value, expires).
Proof.
  intros Hlater. induction Hlater as [| w' ms _ IH Hms | w' req o w'' _ IH Hrun];
    intros Hnow Hentry.
  - exact Hentry.
  - unfold elapse in *. cbn [now fic set_now] in *. apply IH; [lia | exact Hentry].
  - pose proof (timeless_processTransaction req w') as Htime.
    rewrite Hrun in Htime. cbn [snd] in Htime.
    assert (fic w' !! cache_key key = Some (value, expires)) as Hheld
      by (apply IH; [lia | exact Hentry]).
    destruct (truthy (header_idempotency_key req)) as [key' |] eqn:Hkey.
    + destruct (String.eqb_spec key' key) as [-> | Hne].
      * assert (cache_lookup w' (cache_key key) = Some value) as Hhit.
        { unfold cache_lookup. rewrite Hheld.
          rewrite (proj2 (Z.ltb_lt (now w') expires)) by lia. reflexivity. }
        rewrite (processTransaction_cache_hit _ _ _ _ Hkey Hhit) in Hrun.
        injection Hrun as _ <-. exact Hheld.
      * pose proof (writes_cache_at_processTransaction req key' Hkey w'
                      (cache_key key)) as Hframe.
        rewrite Hrun in Hframe. cbn [snd] in Hframe. rewrite Hframe; [exact Hheld |].
        intros Heq. apply Hne. symmetry. apply cache_key_injective. exact Heq.
    + rewrite (processTransaction_no_key _ _ Hkey) in Hrun.
      injection Hrun as _ <-. exact Hheld.
Qed.

Lemma fresh_result_is_saved req key w r w1 :
  truthy (header_idempotency_key req) = Some key ->
  processTransaction req w = (Ok (mkResponse 200 (JsonResult r)), w1) ->
  saved key (CachedSuccess (txId r) (balance r)) w1.
Proof.
  intros Hkey Hrun.
  destruct (cache_lookup w (cache_key key)) as [cached |] eqn:Hc.
  - rewrite (processTransaction_cache_hit _ _ _ _ Hkey Hc) in Hrun.
    destruct cached; discriminate Hrun.
  - destruct (processTransaction_miss _ _ _ Hkey Hc) as (resp & w' & Hrun' & Hout).
    rewrite Hrun in Hrun'. injection Hrun' as <- <-.
    destruct Hout as [_ Hr _ _ | p t w2 r' w3 _ _ _ Hr Hfic _ | p e w3 _ _ Hr _ _].
    + discriminate Hr.
    + injection Hr as <-. exact Hfic.
    + discriminate Hr.
Qed.

(** X17. A success is replayed from the cache for CACHE_TTL seconds. When
    a request under a key is answered 200 with a fresh result, every
    later request under that key, whatever its body, whatever time
    passed and whatever other requests were processed in between, is
    answered 200 with that [txId] and [balance] marked as cached, after
    the single cache read and without a call to the store, as long as
    less than CACHE_TTL seconds have passed since the first answer. Once
    they have passed the cache no longer holds the key, and the request
    is processed like a first one. *)
Theorem success_is_replayed req key w r w1 req' :
  truthy (header_idempotency_key req) = Some key ->
  processTransaction req w = (Ok (mkResponse 200 (JsonResult r)), w1) ->
  truthy (header_idempotency_key req') = Some key ->
  (forall w2,
     later w1 w2 ->
     now w2 < now w1 + IDEMPOTENCY.CACHE_TTL * 1000 ->
     processTransaction req' w2
     = (Ok (mkResponse 200 (JsonCached (CachedSuccess (txId r) (balance r)))),
        emit_world (EvRedisGet (cache_key key)) w2))
  /\
  (forall ms,
     IDEMPOTENCY.CACHE_TTL * 1000 <= ms ->
     exists resp w',
       processTransaction req' (elapse ms w1) = (Ok resp, w') /\
       miss_outcome req' key (elapse ms w1) resp w').
Proof.
  intros Hkey Hrun Hkey'.
  pose proof (fresh_result_is_saved _ _ _ _ _ Hkey Hrun) as Hsaved.
  unfold saved in Hsaved. split.
  - intros w2 Hlater Hnow.
    pose proof (later_keeps_entry _ _ _ _ _ Hlater Hnow Hsaved) as Hheld.
    assert (cache_lookup w2 (cache_key key)
            = Some (CachedSuccess (txId r) (balance r))) as Hhit.
    { unfold cache_lookup. rewrite Hheld.
      rewrite (proj2 (Z.ltb_lt _ _) Hnow). reflexivity. }
    rewrite (processTransaction_cache_hit _ _ _ _ Hkey' Hhit). reflexivity.
  - intros ms Hms. apply processTransaction_miss; [exact Hkey' |].
    rewrite cache_lookup_elapse, Hsaved.
    rewrite (proj2 (Z.ltb_ge _ _)) by lia. reflexivity.
Qed.

(** X18. While a key is reserved it is in flight, for PROCESSING_TTL
    seconds. When [checkAndReserveIdempotencyKey] has returned null for a
    key and no outcome has been saved, a request under that key made less
    than PROCESSING_TTL seconds later is answered 409 and changes neither
    the cache nor the store; a request made PROCESSING_TTL seconds later
    or more finds the reservation gone and is processed like a first
    one. *)
Theorem reserved_key_is_in_flight req key w w1 ms :
  checkAndReserveIdempotencyKey key w = (Ok None, w1) ->
  truthy (header_idempotency_key req) = Some key ->
  (ms < IDEMPOTENCY.PROCESSING_TTL * 1000 ->
   exists w',
     processTransaction req (elapse ms w1)
     = (Ok (mkResponse 409
              (JsonErrorResponse
                 "Transaction is currently processing. Please retry later.")), w') /\
     fic w' = fic w1 /\ db w' = db w)
  /\
  (IDEMPOTENCY.PROCESSING_TTL * 1000 <= ms ->
   exists resp w',
     processTransaction req (elapse ms w1) = (Ok resp, w') /\
     statusCode resp <> 409 /\
     miss_outcome req key (elapse ms w1) resp w').
Proof.
  intros Hreserve Hkey.
  assert (w1 = reserved key w) as ->.
  { destruct (cache_lookup w (cache_key key)) as [cached |] eqn:Hc.
    - rewrite (checkAndReserve_hit _ _ _ Hc) in Hreserve. discriminate Hreserve.
    - rewrite (checkAndReserve_miss _ _ Hc) in Hreserve.
      injection Hreserve as <-. reflexivity. }
  assert (cache_lookup (elapse ms (reserved key w)) (cache_key key)
          = if ms <? IDEMPOTENCY.PROCESSING_TTL * 1000
            then Some (CachedProcessing None) else None) as Hlook.
  { rewrite cache_lookup_elapse. unfold reserved.
    cbn [fic now set_fic emit_world]. rewrite lookup_insert_eq.
    destruct (Z.ltb_spec ms (IDEMPOTENCY.PROCESSING_TTL * 1000));
      destruct (Z.ltb_spec (now w + ms)
                  (now w + IDEMPOTENCY.PROCESSING_TTL * 1000));
      first [reflexivity | lia]. }
  split.
  - intros Hms. rewrite (proj2 (Z.ltb_lt _ _) Hms) in Hlook.
    eexists. split; [apply (processTransaction_cache_hit _ _ _ _ Hkey Hlook) |].
    split; reflexivity.
  - intros Hms. rewrite (proj2 (Z.ltb_ge _ _) Hms) in Hlook.
    destruct (processTransaction_miss _ _ _ Hkey Hlook) as (resp & w' & Hrun & Hout).
    exists resp, w'. split; [exact Hrun |]. split; [| exact Hout].
    apply (miss_outcome_status _ _ _ _ _ Hout).
Qed.

(** ** What the schema lets through *)

Lemma SFcompare_antisym x y :
  SFcompare y x = option_map CompOpp (SFcompare x y).
Proof.
  destruct x as [sx | sx | | sx mx ex], y as [sy | sy | | sy my ey]; simpl;
    try reflexivity; try (destruct sx; reflexivity); try (destruct sy; reflexivity);
    try (destruct sx, sy; reflexivity).
  destruct sx, sy; simpl; try reflexivity.
  - rewrite (Z.compare_antisym ex ey). destruct (ex ?= ey); simpl; try reflexivity.
    rewrite (Pos.compare_cont_antisym mx my Eq). reflexivity.
  - rewrite (Z.compare_antisym ex ey). destruct (ex ?= ey); simpl; try reflexivity.
    rewrite (Pos.compare_cont_antisym mx my Eq). reflexivity.
Qed.

Lemma num_gt_not_le x y : num_gt x y = true -> num_le x y = false.
Proof.
  unfold num_gt, num_le, SFltb, SFleb. rewrite (SFcompare_antisym y x).
  destruct (SFcompare y x) as [[] |]; simpl; congruence.
Qed.

Lemma num_le_not_gt x y : num_le x y = true -> num_gt x y = false.
Proof.
  unfold num_gt, num_le, SFltb, SFleb. rewrite (SFcompare_antisym x y).
  destruct (SFcompare x y) as [[] |]; simpl; congruence.
Qed.

Lemma schema_amount_accepted b p :
  transactionSchema_safeParse b = Some p ->
  isFinite (amount p) = true /\
  num_gt (amount p) (Number_of_Z 0) = true /\
  num_le (amount p) (Number_of_Z TRANSACTION_LIMITS.MAX_AMOUNT) = true /\
  amount_rejected (amount p) = false.
Proof.
  unfold transactionSchema_safeParse. intros H.
  destruct (body_userId b) as [u |]; [| discriminate H].
  destruct (body_type b) as [t |]; [| discriminate H].
  destruct (body_amount b) as [x |]; [| discriminate H].
  destruct (body_assetSymbol b) as [sym |]; [| discriminate H].
  destruct (parse_TransactionType t) as [ty |]; [| discriminate H].
  destruct (_ && _) eqn:Hc; [| discriminate H].
  apply (f_equal (option_map amount)) in H. cbn [option_map amount] in H.
  injection H as <-.
  apply andb_true_iff in Hc as [Hc _].
  apply andb_true_iff in Hc as [Hc Hmax].
  apply andb_true_iff in Hc as [Hc Hpos].
  apply andb_true_iff in Hc as [_ Hfin].
  split; [exact Hfin |]. split; [exact Hpos |]. split; [exact Hmax |].
  unfold amount_rejected.
  rewrite (num_gt_not_le _ _ Hpos), Hfin, (num_le_not_gt _ _ Hmax). reflexivity.
Qed.

(** X19. A body the schema accepts carries a non-empty user id, a known
    type, an amount that is finite, strictly positive and at most
    MAX_AMOUNT, so that it passes the two amount guards of
    [executeTransaction], and a non-empty asset symbol, which the payload
    holds in upper case. *)
Theorem schema_accepts_valid_payloads b p :
  transactionSchema_safeParse b = Some p ->
  body_userId b = Some (userId p) /\ userId p <> "" /\
  body_amount b = Some (amount p) /\
  amount_rejected (amount p) = false /\
  (isFinite (amount p) = true /\
   num_gt (amount p) (Number_of_Z 0) = true /\
   num_le (amount p) (Number_of_Z TRANSACTION_LIMITS.MAX_AMOUNT) = true) /\
  (exists t, body_type b = Some t /\ parse_TransactionType t = Some (type p)) /\
  (exists sym, body_assetSymbol b = Some sym /\ sym <> ""
               /\ assetSymbol p = toUpperCase sym) /\
  toUpperCase (assetSymbol p) = assetSymbol p.
Proof.
  intros H.
  pose proof (schema_amount_accepted _ _ H) as (Hfin & Hpos & Hmax & Hok).
  unfold transactionSchema_safeParse in H.
  destruct (body_userId b) as [u |]; [| discriminate H].
  destruct (body_type b) as [t |]; [| discriminate H].
  destruct (body_amount b) as [x |]; [| discriminate H].
  destruct (body_assetSymbol b) as [sym |]; [| discriminate H].
  destruct (parse_TransactionType t) as [ty |] eqn:Hty; [| discriminate H].
  destruct (_ && _) eqn:Hc; [| discriminate H].
  injection H as <-. cbn [userId amount type assetSymbol] in *.
  apply andb_true_iff in Hc as [Hc Hsym].
  apply andb_true_iff in Hc as [Hc _].
  apply andb_true_iff in Hc as [Hc _].
  apply andb_true_iff in Hc as [Hu _].
  apply Nat.leb_le in Hu, Hsym.
  split; [reflexivity |]. split; [intros ->; simpl in Hu; lia |].
  split; [reflexivity |]. split; [exact Hok |].
  split; [auto |]. split; [exists t; auto |].
  split; [| apply toUpperCase_idempotent].
  exists sym. repeat split. intros ->. simpl in Hsym. lia.
Qed.

(** ** Routing and failures at the POST endpoint *)

Lemma includes_append_r a b sub :
  includes b sub = true -> includes (a ++ b) sub = true.
Proof.
  intros H. induction a as [| c a IH]; simpl; [exact H |].
  rewrite IH. apply orb_true_r.
Qed.

Lemma getTreasuryId_Ok_inv w t w2 :
  getTreasuryId w = (Ok t, w2) ->
  db w2 = db w /\ fic w2 = fic w /\ contention w2 = contention w /\
  now w2 = now w /\
  (truthy (treasuryId w) = Some t
   \/ (truthy (treasuryId w) = None /\
       exists u,
         List.find (fun u => String.eqb (user_email u) SYSTEM_USERS.TREASURY_EMAIL)
                   (users (db w)) = Some u /\
         user_id u = t)).
Proof.
  unfold getTreasuryId.
  destruct (truthy (treasuryId w)) as [m |] eqn:Hmemo.
  - intros H. inversion H; subst. auto 6.
  - unfold bind, user_findUnique_email.
    destruct (List.find _ _) as [u |] eqn:Hu; [| discriminate].
    intros H. inversion H; subst. repeat split. right. split; [reflexivity |].
    exists u. auto.
Qed.

Lemma getTreasuryId_available w u :
  List.find (fun u => String.eqb (user_email u) SYSTEM_USERS.TREASURY_EMAIL)
            (users (db w)) = Some u ->
  exists t w2, getTreasuryId w = (Ok t, w2).
Proof.
  intros Hu. unfold getTreasuryId.
  destruct (truthy (treasuryId w)) as [m |]; [eauto |].
  unfold bind, user_findUnique_email. rewrite Hu. eauto.
Qed.

Lemma executeTransaction_unknown_asset key from to sym amount ty w :
  amount_rejected amount = false ->
  find_asset (db w) sym = None ->
  executeTransaction key from to sym amount ty w
  = (Throw (NotFoundError ("Asset " ++ sym ++ " not found")),
     emit_world (EvAssetFindUnique sym) w).
Proof.
  intros Hok Hnone. destruct (proj1 (amount_guards amount) Hok) as [G1 G2].
  unfold executeTransaction. rewrite G1, G2.
  unfold bind, asset_findUnique. rewrite Hnone. reflexivity.
Qed.

(** X20. An unknown asset at the POST endpoint is answered 400. When the
    cache does not hold the key, the schema accepts the body, a treasury
    user exists and the asset symbol of the payload names no asset, the
    request is answered 400 with the message "Asset <symbol> not found"
    (not the 404 of the NotFoundError), the tables are unchanged and the
    cache holds FAILED with that message under the key. *)
Theorem unknown_asset_is_answered_400 req key w p u :
  truthy (header_idempotency_key req) = Some key ->
  cache_lookup w (cache_key key) = None ->
  transactionSchema_safeParse (body req) = Some p ->
  List.find (fun u => String.eqb (user_email u) SYSTEM_USERS.TREASURY_EMAIL)
            (users (db w)) = Some u ->
  find_asset (db w) (assetSymbol p) = None ->
  exists w',
    processTransaction req w
    = (Ok (mkResponse 400 (JsonFailed ("Asset " ++ assetSymbol p ++ " not found"))),
       w') /\
    db w' = db w /\
    cache_lookup w' (cache_key key)
    = Some (CachedFailed ("Asset " ++ assetSymbol p ++ " not found")) /\
    error_status (NotFoundError ("Asset " ++ assetSymbol p ++ " not found")) = 404.
Proof.
  intros Hkey Hmiss Hparse Hu Hasset.
  destruct (getTreasuryId_available (reserved key w) u Hu) as (t & w2 & Ht).
  pose proof (getTreasuryId_Ok_inv _ _ _ Ht) as (Hdb2 & _).
  cbn [db reserved set_fic emit_world] in Hdb2.
  pose proof (schema_amount_accepted _ _ Hparse) as (_ & _ & _ & Hok).
  assert (executeTransaction key (resolved_from t p) (resolved_to t p)
            (assetSymbol p) (amount p) (type p) w2
          = (Throw (NotFoundError ("Asset " ++ assetSymbol p ++ " not found")),
             emit_world (EvAssetFindUnique (assetSymbol p)) w2)) as He.
  { apply executeTransaction_unknown_asset; [exact Hok |].
    rewrite Hdb2. exact Hasset. }
  destruct (processTransaction_miss _ _ _ Hkey Hmiss) as (resp & w' & Hrun & Hout).
  exists w'. rewrite Hrun.
  destruct Hout as [Hp _ _ _ | p' t' w2' r w3 Hp Ht' He' _ _ _
                    | p' e w3 Hp Horigin -> Hfic Hdb].
  - rewrite Hp in Hparse. discriminate Hparse.
  - rewrite Hp in Hparse. injection Hparse as ->.
    rewrite Ht in Ht'. injection Ht' as <- <-.
    rewrite He in He'. discriminate He'.
  - rewrite Hp in Hparse. injection Hparse as ->.
    destruct Horigin as [Ht' | (t' & w2' & Ht' & He')].
    + rewrite Ht in Ht'. discriminate Ht'.
    + rewrite Ht in Ht'. injection Ht' as <- <-.
      rewrite He in He'. injection He' as <- <-.
      cbn [error_message] in *.
      assert (includes ("Asset " ++ assetSymbol p ++ " not found") "not found" = true)
        as Hinc by (do 2 apply includes_append_r; reflexivity).
      rewrite Hinc. cbn [orb]. unfold StatusCodes.BAD_REQUEST.
      split; [reflexivity |].
      split; [| split; [apply saved_lookup; exact Hfic | reflexivity]].
      rewrite Hdb. cbn [db emit_world]. exact Hdb2.
Qed.

(** X21. Routing by type. When a request is answered 200 with a fresh
    result under a key the store did not hold, the store gained one
    transaction row of the requested type and the returned id; for TOP_UP
    and BONUS its from-wallet belongs to the treasury and its to-wallet to
    the user of the request, for SPEND the reverse; the treasury is the
    memoized id, or the user of the treasury email when none was
    memoized. *)
Theorem request_is_routed_by_type req key w r w1 :
  truthy (header_idempotency_key req) = Some key ->
  find_transaction (db w) key = None ->
  processTransaction req w = (Ok (mkResponse 200 (JsonResult r)), w1) ->
  exists p treasury fw tw t,
    transactionSchema_safeParse (body req) = Some p /\
    (truthy (treasuryId w) = Some treasury
     \/ (truthy (treasuryId w) = None /\
         exists u,
           List.find (fun u => String.eqb (user_email u) SYSTEM_USERS.TREASURY_EMAIL)
                     (users (db w)) = Some u /\
           user_id u = treasury)) /\
    transactions (db w1) = (transactions (db w) ++ [t])%list /\
    tx_id t = txId r /\ tx_idempotency_key t = key /\ tx_type t = type p /\
    In fw (wallets (db w)) /\ In tw (wallets (db w)) /\
    tx_from_wallet_id t = wallet_id fw /\ tx_to_wallet_id t = wallet_id tw /\
    wallet_user_id fw
    = match type p with TOP_UP | BONUS => treasury | SPEND => userId p end /\
    wallet_user_id tw
    = match type p with TOP_UP | BONUS => userId p | SPEND => treasury end.
Proof.
  intros Hkey Hnone Hrun.
  destruct (cache_lookup w (cache_key key)) as [cached |] eqn:Hc.
  { rewrite (processTransaction_cache_hit _ _ _ _ Hkey Hc) in Hrun.
    destruct cached; discriminate Hrun. }
  destruct (processTransaction_miss _ _ _ Hkey Hc) as (resp & w' & Hrun' & Hout).
  rewrite Hrun in Hrun'. injection Hrun' as <- <-.
  destruct Hout as [_ Hr _ _ | p treasury w2 r' w3 Hp Ht He Hr _ Hdb | p e w3 _ _ Hr _ _];
    [discriminate Hr | | discriminate Hr].
  injection Hr as <-.
  apply getTreasuryId_Ok_inv in Ht as (Hdb2 & _ & _ & _ & Horigin).
  cbn [db treasuryId reserved set_fic emit_world] in Hdb2, Horigin.
  apply executeTransaction_Ok in He as (asset & _ & _ & Hout).
  rewrite Hdb2 in Hout.
  destruct Hout as [t Hf _ _ | fw tw a nf nt created_at _ Hfw Htw _ _ _ Hr Hs'].
  { rewrite Hf in Hnone. discriminate Hnone. }
  apply find_wallet_Some in Hfw as (Hfin & Hfu & _).
  apply find_wallet_Some in Htw as (Htin & Htu & _).
  exists p, treasury, fw, tw,
    (new_transaction (db w) key fw tw a (type p) created_at).
  split; [exact Hp |]. split; [exact Horigin |].
  split; [rewrite Hdb, Hs'; reflexivity |].
  split; [rewrite Hr; reflexivity |].
  repeat split; try assumption.
  - rewrite Hfu. unfold resolved_from. destruct (type p); reflexivity.
  - rewrite Htu. unfold resolved_to. destruct (type p); reflexivity.
Qed.

(** ** No partial writes *)

(** X22. A failed transfer is rolled back: whenever [executeTransaction]
    throws, also after writes were issued inside the transaction, the
    five tables, the cache and the memoized treasury id are exactly as
    before the call. *)
Theorem failed_transfer_is_rolled_back key from to sym amount ty w e w' :
  executeTransaction key from to sym amount ty w = (Throw e, w') ->
  db w' = db w /\ fic w' = fic w /\ treasuryId w' = treasuryId w.
Proof.
  intros H. split; [exact (executeTransaction_Throw _ _ _ _ _ _ _ _ _ H) |].
  pose proof (frames_executeTransaction key from to sym amount ty w) as F.
  rewrite H in F. destruct F as (Hfic & Hmemo & _). auto.
Qed.

(** ** The further properties at concrete inputs *)

Lemma seed_wallet_ids_unique : wallet_ids_unique (db Seed.world).
Proof.
  unfold wallet_ids_unique. simpl.
  repeat (apply List.NoDup_cons; [simpl; intuition discriminate |]).
  apply List.NoDup_nil.
Defined.

Lemma seed_balances_nonnegative : balances_nonnegative (db Seed.world).
Proof.
  unfold balances_nonnegative. simpl. repeat constructor; vm_compute; discriminate.
Defined.

Lemma top_up_run :
  executeTransaction "k1" Seed.TREASURY Seed.ALICE "GOLD" (Number_of_Z 100) TOP_UP
                     Seed.world
  = (Ok (mkTransactionResult "SUCCESS" 5 "200"), snd Scenario.top_up).
Proof. vm_compute. reflexivity. Defined.

Lemma sliver_run :
  executeTransaction "k9" Seed.TREASURY Seed.BOB "GOLD" Scenario.sliver TOP_UP
                     Seed.world
  = (Ok (mkTransactionResult "SUCCESS" 5 "200.00015"), snd Scenario.sliver_top_up).
Proof. vm_compute. reflexivity. Defined.

Lemma X1_witness :
  balances_nonnegative (db Seed.world) /\
  balances_nonnegative (db (snd Scenario.top_up)).
Proof.
  split; [exact seed_balances_nonnegative |].
  exact (balances_stay_nonnegative _ _ _ _ _ _ _ _ _
           seed_balances_nonnegative top_up_run).
Defined.


Lemma self_transfer_run :
  executeTransaction "k5" Seed.TREASURY Seed.TREASURY "GOLD" (Number_of_Z 100)
                     TOP_UP Seed.world
  = (Ok (mkTransactionResult "SUCCESS" 5 "1000100"), snd Runs.self_transfer).
Proof. vm_compute. reflexivity. Defined.

Lemma X3_witness :
  find_transaction (db Seed.world) "k5" = None /\
  (exists a x newTo,
     to_decimal (Number_of_Z 100) = Some a /\ 0 < a /\
     In x (wallets (db Seed.world)) /\ wallet_user_id x = Seed.TREASURY /\
     to_decimal (num_add (Number_of_decimal (wallet_balance x)) (Number_of_Z 100))
     = Some newTo /\
     wallets (db (snd Runs.self_transfer))
     = List.map (set_balance (wallet_id x) newTo) (wallets (db Seed.world)) /\
     total_balance (db (snd Runs.self_transfer))
     = total_balance (db Seed.world) + (newTo - wallet_balance x)) /\
  total_balance (db (snd Runs.self_transfer))
  = total_balance (db Seed.world) + units 100.
Proof.
  split; [reflexivity |]. split; [| vm_compute; reflexivity].
  exact (self_transfer_mints _ _ _ _ _ _ _ _
           seed_wallet_ids_unique eq_refl self_transfer_run).
Defined.

(** Next to a balance of 10^13 the amount 0.0001 is lost in the sum: the
    self-transfer commits, records the amount 0.0001, and leaves the
    wallet, and the sum of the stored balances, as they were. *)
Example self_transfer_of_a_lost_amount :
  fst Runs.vault_self_transfer
  = Ok (mkTransactionResult "SUCCESS" 5 "10000000000000") /\
  List.map tx_amount (transactions (db (snd Runs.vault_self_transfer))) = [1] /\
  wallets (db (snd Runs.vault_self_transfer)) = wallets Runs.vault_store /\
  total_balance (db (snd Runs.vault_self_transfer))
  = total_balance Runs.vault_store.
Proof. vm_compute. repeat split. Qed.

Lemma X4_witness :
  exists ts es,
    transactions (db (snd Scenario.top_up))
    = (transactions (db Seed.world) ++ ts)%list /\
    ledger_entries (db (snd Scenario.top_up))
    = (ledger_entries (db Seed.world) ++ es)%list /\
    (length ts <= 1)%nat /\ length es = (2 * length ts)%nat.
Proof.
  exact (proj2 (proj2 (tables_are_append_only _ _ _ _ _ _ _ _ _ top_up_run))).
Defined.

Lemma X5_witness :
  fic (snd Scenario.top_up) = fic Seed.world /\
  treasuryId (snd Scenario.top_up) = treasuryId Seed.world.
Proof.
  destruct (engine_leaves_cache_alone _ _ _ _ _ _ _ _ _ top_up_run)
    as (Hfic & Hmemo & _).
  split; assumption.
Defined.

(** An action failing twice with the error of the driver is called three
    times by [withRetry], with pauses of 200 and 400 ms; what comes back
    is what its third call returned. *)
Lemma X6_witness :
  let w := set_contention [Some Scenario.deadlock; Some Scenario.lock_timeout]
                          Seed.world in
  fst (withRetry Runs.flaky 3 w) = Ok 7 /\
  Scenario.pauses (snd (withRetry Runs.flaky 3 w))
  = [EvSetTimeout 200; EvSetTimeout 400] /\
  now (snd (withRetry Runs.flaky 3 w)) = now w + 600 /\
  exists w0, Runs.flaky w0 = withRetry Runs.flaky 3 w.
Proof.
  cbv zeta.
  split; [vm_compute; reflexivity |]. split; [vm_compute; reflexivity |].
  split; [vm_compute; reflexivity |].
  destruct (withRetry_outcome_is_fn_outcome Runs.flaky 3
              (set_contention [Some Scenario.deadlock; Some Scenario.lock_timeout]
                              Seed.world)
              _ _ (surjective_pairing _))
    as [(Hzero & _) | (_ & w0 & Hrun)].
  - discriminate Hzero.
  - exists w0. rewrite Hrun. symmetry. apply surjective_pairing.
Defined.

Lemma overspend_run :
  executeTransaction "k3" Seed.BOB Seed.TREASURY "GOLD" (Number_of_Z 10000) SPEND
                     Seed.world
  = (Throw (JsError "Insufficient funds."), snd Scenario.overspend).
Proof. vm_compute. reflexivity. Defined.

Lemma lock_timeout_run :
  Scenario.top_up_under [Some Scenario.lock_timeout]
  = (Throw (raw_query_failed Scenario.lock_timeout),
     snd (Scenario.top_up_under [Some Scenario.lock_timeout])).
Proof. vm_compute. reflexivity. Defined.

Lemma X7_witness :
  sqlstate Scenario.lock_timeout = "55P03" /\
  fst (Scenario.top_up_under [Some Scenario.lock_timeout])
  = Throw (raw_query_failed Scenario.lock_timeout) /\
  isRetryable (raw_query_failed Scenario.lock_timeout) = false /\
  now (snd (Scenario.top_up_under [Some Scenario.lock_timeout])) = now Seed.world /\
  db (snd (Scenario.top_up_under [Some Scenario.lock_timeout])) = db Seed.world.
Proof.
  split; [reflexivity |]. split; [vm_compute; reflexivity |].
  exact (engine_failure_is_final "k1" Seed.TREASURY Seed.ALICE "GOLD"
           (Number_of_Z 100) TOP_UP
           (set_contention [Some Scenario.lock_timeout] Seed.world) _ _
           lock_timeout_run).
Defined.




(** The top-up of 0.00015 GOLD read back: amount 0.0002, balances
    999999.9999 and 200.0002. *)
Lemma X10_witness :
  exists d,
    getTransactionById 5 (db (snd Scenario.sliver_top_up)) = Ok d /\
    detail_fromUser d = Seed.TREASURY /\ detail_toUser d = Seed.BOB /\
    detail_amount d = "0.0002" /\
    detail_ledger d
    = [ mkLedgerLine DEBIT 0 "0.0002" "999999.9999";
        mkLedgerLine CREDIT 3 "0.0002" "200.0002" ].
Proof.
  destruct (transaction_read_back "k9" Seed.TREASURY Seed.BOB "GOLD"
              Scenario.sliver TOP_UP Seed.world _ _ seed_reachable
              seed_wallet_ids_unique eq_refl sliver_run)
    as (d & fw & tw & asset & a & nf & nt & Hasset & Hfw & Htw & Ha & Hnf & Hnt
        & Hget & _ & _ & _ & Hamt & Hfrom & Hto & _ & Hledger).
  exists d. cbn [txId] in Hget. split; [exact Hget |].
  split; [exact Hfrom |]. split; [exact Hto |].
  assert (asset = mkAsset Seed.GOLD_ID "GOLD") as ->
    by (vm_compute in Hasset; injection Hasset as <-; reflexivity).
  assert (fw = mkWallet 0 Seed.TREASURY Seed.GOLD_ID (units 1000000)) as ->
    by (vm_compute in Hfw; injection Hfw as <-; reflexivity).
  assert (tw = mkWallet 3 Seed.BOB Seed.GOLD_ID (units 200)) as ->
    by (vm_compute in Htw; injection Htw as <-; reflexivity).
  vm_compute in Ha. injection Ha as <-.
  vm_compute in Hnf. injection Hnf as <-.
  vm_compute in Hnt. injection Hnt as <-.
  split; [rewrite Hamt; vm_compute; reflexivity |].
  rewrite Hledger. vm_compute. reflexivity.
Defined.

Lemma X11_witness :
  exists page,
    getLedger Seed.TREASURY Runs.ledger_options (db HistoryExample.after_bonus)
    = Ok page /\
    limit (ledger_pagination page) = 2 /\
    offset (ledger_pagination page) = 0 /\
    total (ledger_pagination page) = 1 /\
    returned (ledger_pagination page) <= limit (ledger_pagination page).
Proof.
  destruct (getLedger Seed.TREASURY Runs.ledger_options
                      (db HistoryExample.after_bonus)) as [page | e] eqn:Hrun.
  - exists page. split; [reflexivity |].
    destruct (getLedger_pages_exactly _ _ _ _ Hrun)
      as (Hlimit & Hoffset & _ & _ & Htotal & _ & Hle & _).
    split; [exact Hlimit |]. split; [exact Hoffset |].
    split; [| exact Hle].
    rewrite Htotal. vm_compute. reflexivity.
  - exfalso. vm_compute in Hrun. discriminate Hrun.
Defined.


Lemma X14_witness :
  cache_lookup Seed.world (cache_key "k1") = None /\
  let w1 := snd (checkAndReserveIdempotencyKey "k1" Seed.world) in
  let w2 := snd (saveIdempotencyResult "k1" (CachedFailed "Insufficient funds.")
                   w1) in
  fst (checkAndReserveIdempotencyKey "k1" (elapse 9999 w1))
  = Ok (Some (CachedProcessing None)) /\
  fst (checkAndReserveIdempotencyKey "k1" (elapse 10000 w1)) = Ok None /\
  fst (checkAndReserveIdempotencyKey "k1" (elapse 86399999 w2))
  = Ok (Some (CachedFailed "Insufficient funds.")) /\
  fst (checkAndReserveIdempotencyKey "k1" (elapse 86400000 w2)) = Ok None.
Proof.
  assert (cache_lookup Seed.world (cache_key "k1") = None) as Hmiss by reflexivity.
  split; [exact Hmiss |]. cbv zeta.
  destruct (reserve_then_finalize "k1" (CachedFailed "Insufficient funds.")
              Seed.world Hmiss) as (_ & Hreserved & Hsaved & _).
  split; [exact (Hreserved 9999) |]. split; [exact (Hreserved 10000) |].
  split; [exact (Hsaved 86399999) | exact (Hsaved 86400000)].
Defined.

Lemma X15_witness :
  exists w1,
    getTreasuryId Seed.world = (Ok Seed.TREASURY, w1) /\
    getTreasuryId w1 = (Ok Seed.TREASURY, w1) /\ db w1 = db Seed.world.
Proof.
  eexists. split; [vm_compute; reflexivity |].
  assert (Seed.TREASURY <> "") as Hne by discriminate.
  destruct (proj1 (getTreasuryId_memoizes Seed.world) Seed.TREASURY _
              ltac:(vm_compute; reflexivity) Hne) as (Hdb & _ & Hagain).
  split; [exact Hagain | exact Hdb].
Defined.

Lemma top_up_posted_run :
  processTransaction Runs.top_up_request Seed.world
  = (Ok (mkResponse 200 (JsonResult (mkTransactionResult "SUCCESS" 5 "200"))),
     snd Runs.top_up_posted).
Proof. vm_compute. reflexivity. Defined.

Lemma X16_witness :
  statusCode (mkResponse 200 (JsonResult (mkTransactionResult "SUCCESS" 5 "200")))
  = 200 /\
  (json (mkResponse 200 (JsonResult (mkTransactionResult "SUCCESS" 5 "200")))
   = JsonErrorResponse "Idempotency-Key header is required" <->
   truthy (header_idempotency_key Runs.top_up_request) = None).
Proof.
  split; [reflexivity |].
  exact (proj1 (proj2 (processTransaction_answers _ _ _ _ top_up_posted_run))).
Defined.

Lemma after_other_request_later :
  later (snd Runs.top_up_posted) Runs.after_other_request.
Proof.
  unfold Runs.after_other_request.
  apply later_elapse; [| lia].
  eapply later_request; [| apply surjective_pairing].
  apply later_elapse; [apply later_now | lia].
Defined.

(** Six seconds and a request under another key after Alice's top-up was
    answered, a request under its key with another body is answered from
    the cache; a day after the answer the cache has let go of the key and
    the same request is processed: the store finds the key and the
    answer is the recorded id with the balance "0". *)
Lemma X17_witness :
  now Runs.after_other_request
  < now (snd Runs.top_up_posted) + IDEMPOTENCY.CACHE_TTL * 1000 /\
  fst (processTransaction Runs.other_body_request Runs.after_other_request)
  = Ok (mkResponse 200 (JsonCached (CachedSuccess 5 "200"))) /\
  (exists resp w',
     processTransaction Runs.top_up_request
                        (elapse 86400000 (snd Runs.top_up_posted))
     = (Ok resp, w') /\
     miss_outcome Runs.top_up_request "k1"
                  (elapse 86400000 (snd Runs.top_up_posted)) resp w') /\
  fst (processTransaction Runs.top_up_request
                          (elapse 86400000 (snd Runs.top_up_posted)))
  = Ok (mkResponse 200 (JsonResult (mkTransactionResult "SUCCESS" 5 "0"))).
Proof.
  assert (now Runs.after_other_request
          < now (snd Runs.top_up_posted) + IDEMPOTENCY.CACHE_TTL * 1000) as Hnow
    by (vm_compute; reflexivity).
  assert (IDEMPOTENCY.CACHE_TTL * 1000 <= 86400000) as Hday
    by (vm_compute; discriminate).
  split; [exact Hnow |].
  destruct (success_is_replayed Runs.top_up_request "k1" Seed.world
              (mkTransactionResult "SUCCESS" 5 "200") (snd Runs.top_up_posted)
              Runs.other_body_request eq_refl top_up_posted_run eq_refl)
    as [Hreplay _].
  destruct (success_is_replayed Runs.top_up_request "k1" Seed.world
              (mkTransactionResult "SUCCESS" 5 "200") (snd Runs.top_up_posted)
              Runs.top_up_request eq_refl top_up_posted_run eq_refl)
    as [_ Hexpired].
  split.
  - rewrite (Hreplay _ after_other_request_later Hnow). reflexivity.
  - split; [exact (Hexpired 86400000 Hday) | vm_compute; reflexivity].
Defined.

Lemma X18_witness :
  exists w1,
    checkAndReserveIdempotencyKey "k1" Seed.world = (Ok None, w1) /\
    fst (processTransaction Runs.top_up_request (elapse 9999 w1))
    = Ok (mkResponse 409
            (JsonErrorResponse
               "Transaction is currently processing. Please retry later.")) /\
    db (snd (processTransaction Runs.top_up_request (elapse 9999 w1)))
    = db Seed.world /\
    fst (processTransaction Runs.top_up_request (elapse 10000 w1))
    = Ok (mkResponse 200 (JsonResult (mkTransactionResult "SUCCESS" 5 "200"))).
Proof.
  assert (checkAndReserveIdempotencyKey "k1" Seed.world
          = (Ok None, reserved "k1" Seed.world)) as Hres
    by (apply checkAndReserve_miss; reflexivity).
  assert (9999 < IDEMPOTENCY.PROCESSING_TTL * 1000) as Hsoon
    by (vm_compute; reflexivity).
  destruct (proj1 (reserved_key_is_in_flight Runs.top_up_request "k1" Seed.world _
                     9999 Hres eq_refl) Hsoon) as (w' & Hrun & _ & Hdb).
  exists (reserved "k1" Seed.world). split; [exact Hres |].
  rewrite Hrun. cbn [fst snd]. split; [reflexivity |]. split; [exact Hdb |].
  vm_compute. reflexivity.
Defined.

Lemma X19_witness :
  exists p,
    transactionSchema_safeParse (body Runs.top_up_request) = Some p /\
    assetSymbol p = "GOLD" /\ amount_rejected (amount p) = false.
Proof.
  eexists. split; [vm_compute; reflexivity |].
  split; [reflexivity |].
  exact (proj1 (proj2 (proj2 (proj2
           (schema_accepts_valid_payloads (body Runs.top_up_request) _
              ltac:(vm_compute; reflexivity)))))).
Defined.

Lemma X20_witness :
  exists w',
    processTransaction Runs.silver_request Seed.world
    = (Ok (mkResponse 400 (JsonFailed "Asset SILVER not found")), w') /\
    db w' = db Seed.world.
Proof.
  destruct (unknown_asset_is_answered_400 Runs.silver_request "k8" Seed.world
              (mkTransactionPayload Seed.ALICE TOP_UP (Number_of_Z 100) "SILVER")
              (mkUser Seed.TREASURY "treasury@system.internal")
              eq_refl eq_refl ltac:(vm_compute; reflexivity) eq_refl eq_refl)
    as (w' & Hrun & Hdb & _).
  exists w'. split; [exact Hrun | exact Hdb].
Defined.

Lemma X21_witness :
  exists fw tw t,
    transactions (db (snd Runs.top_up_posted))
    = (transactions (db Seed.world) ++ [t])%list /\
    tx_from_wallet_id t = wallet_id fw /\ tx_to_wallet_id t = wallet_id tw /\
    In fw (wallets (db Seed.world)) /\ In tw (wallets (db Seed.world)) /\
    tx_type t = TOP_UP.
Proof.
  destruct (request_is_routed_by_type Runs.top_up_request "k1" Seed.world _ _
              eq_refl eq_refl top_up_posted_run)
    as (p & treasury & fw & tw & t & Hp & _ & Hts & _ & _ & Hty & Hfin & Htin
        & Hfrom & Hto & _).
  exists fw, tw, t.
  assert (type p = TOP_UP) as Htype.
  { assert (transactionSchema_safeParse (body Runs.top_up_request)
            = Some (mkTransactionPayload Seed.ALICE TOP_UP (Number_of_Z 100) "GOLD"))
      as Hp' by (vm_compute; reflexivity).
    rewrite Hp in Hp'. injection Hp' as ->. reflexivity. }
  rewrite Htype in Hty. auto 10.
Defined.

Lemma X22_witness :
  fst Runs.overflowing_top_up = Throw numeric_overflow /\
  List.filter is_ps_write (trace (snd Runs.overflowing_top_up))
  = [ EvWalletUpdate 0 (Number_of_Z 999900);
      EvWalletUpdate 2 (Number_of_Z 100000000000099) ] /\
  db (snd Runs.overflowing_top_up) = db Runs.full_world.
Proof.
  split; [vm_compute; reflexivity |]. split; [vm_compute; reflexivity |].
  assert (executeTransaction "k1" Seed.TREASURY Seed.ALICE "GOLD" (Number_of_Z 100)
            TOP_UP Runs.full_world
          = (Throw numeric_overflow, snd Runs.overflowing_top_up)) as Hrun
    by (vm_compute; reflexivity).
  exact (proj1 (failed_transfer_is_rolled_back _ _ _ _ _ _ _ _ _ Hrun)).
Defined.
